(** * arrayh5: dense N-dimensional arrays of doubles (h5utils, arrayh5.c)

    A shallow embedding of [arrayh5.c] and the properties of its array
    constructor, transpose, range query and HDF5 reader.

    - C [int] is a 32-bit two's-complement integer, modelled as [Z] with the
      wrap-around of every arithmetic operation written out ([Int.wrap]):
      an overflowing signed operation, which the C standard leaves
      undefined, is taken to wrap as it does on two's-complement targets.
      [hsize_t] is an unsigned 64-bit integer ([Hsize.wrap]).
    - C [double] is an IEEE-754 value, modelled by the standard library's
      [spec_float]; comparisons are [SFcompare], so NaN is unordered.
    - A buffer obtained from [malloc] is a list; an access outside of it,
      a read through a null or dangling pointer and a double [free] are
      undefined behaviour ([Undef]).  [CHECK] failures terminate the process
      ([Exit] with the message printed).
    - The contents of a freshly allocated buffer are indeterminate: they are
      given by an arbitrary [garbage] argument. *)

From Stdlib Require Import ZArith Lia String.
From Stdlib Require Import Floats.SpecFloat.
From stdpp Require Import base tactics option list list_numbers.

Local Open Scope Z_scope.

(** ** Machine integers *)

(** [int] *)
Module Int.
Definition min_signed : Z := - 2 ^ 31.
Definition max_signed : Z := 2 ^ 31 - 1.

(** Reduction of a mathematical integer to the value an [int] holds. *)
Definition wrap (z : Z) : Z := (z + 2 ^ 31) mod 2 ^ 32 - 2 ^ 31.

Definition add (a b : Z) : Z := wrap (a + b).
Definition sub (a b : Z) : Z := wrap (a - b).
Definition mul (a b : Z) : Z := wrap (a * b).

Definition in_range (z : Z) : Prop := min_signed <= z <= max_signed.
End Int.

(** [hsize_t], the unsigned 64-bit type of HDF5 extents and ranks. *)
Module Hsize.
Definition modulus : Z := 2 ^ 64.
Definition wrap (z : Z) : Z := z mod modulus.
Definition add (a b : Z) : Z := wrap (a + b).
Definition sub (a b : Z) : Z := wrap (a - b).
Definition in_range (z : Z) : Prop := 0 <= z < modulus.
End Hsize.

(** ** Outcomes of a C computation *)

Inductive result (A : Type) : Type :=
| Ret (a : A)            (* normal completion *)
| Exit (msg : string)    (* CHECK failed: message printed, exit(EXIT_FAILURE) *)
| Undef                  (* undefined behaviour *)
| Fuel.                  (* the model ran out of loop or recursion budget *)
Arguments Ret {A} a.
Arguments Exit {A} msg.
Arguments Undef {A}.
Arguments Fuel {A}.

#[global] Instance result_ret : MRet result := @Ret.
#[global] Instance result_bind : MBind result := fun A B f m =>
  match m with
  | Ret a => f a
  | Exit msg => Exit msg
  | Undef => Undef
  | Fuel => Fuel
  end.

(** [#define CHECK(cond, msg) { if (!(cond)) { fprintf(...); exit(EXIT_FAILURE); } }] *)
Definition CHECK (cond : bool) (msg : string) : result unit :=
  if cond then Ret tt else Exit msg.

(** ** Buffers and pointers *)

Abbreviation double := spec_float.

(** [a > b] on doubles; [a < b] is [SFltb]. *)
Definition SFgtb (a b : double) : bool :=
  match SFcompare a b with
  | Some Gt => true
  | _ => false
  end.

(** [buf[k]] as an rvalue. *)
Definition load {A : Type} (buf : list A) (k : Z) : result A :=
  if k <? 0 then Undef
  else match buf !! Z.to_nat k with
       | Some x => Ret x
       | None => Undef
       end.

(** [buf[k] = x]. *)
Definition store {A : Type} (buf : list A) (k : Z) (x : A) : result (list A) :=
  if (0 <=? k) && (k <? Z.of_nat (length buf))
  then Ret (<[Z.to_nat k := x]> buf)
  else Undef.

(** A pointer to a heap buffer, seen through what it points to. *)
Inductive pointer (A : Type) : Type :=
| Null               (* NULL *)
| Live (buf : A)     (* points to an allocated buffer with these contents *)
| Dangling.          (* the buffer has been passed to free *)
Arguments Null {A}.
Arguments Live {A} buf.
Arguments Dangling {A}.

Definition deref {A : Type} (p : pointer A) : result A :=
  match p with
  | Live buf => Ret buf
  | _ => Undef
  end.

(** [free(p)]: a no-op on NULL; the pointer dangles afterwards. *)
Definition free {A : Type} (p : pointer A) : result (pointer A) :=
  match p with
  | Null => Ret Null
  | Live _ => Ret Dangling
  | Dangling => Undef
  end.

(** Indeterminate contents of freshly allocated memory: for the allocation
    at a given line of arrayh5.c, the value found in each cell. *)
Record garbage : Type := {
  g_int : nat -> nat -> Z;
  g_double : nat -> nat -> double
}.

(** [#define CHK_MALLOC(p, t, n) CHECK(p = (t * ) malloc(sizeof(t) * (n)), "out of memory")]
    The allocation of [n >= 0] cells is taken to succeed.  A negative [n]
    converts to a [size_t] beyond any possible allocation, so [malloc]
    returns NULL and the check fails. *)
Definition CHK_MALLOC {A : Type} (cells : nat -> A) (n : Z) : result (list A) :=
  _ ← CHECK (0 <=? n) "out of memory";
  Ret (map cells (seq 0 (Z.to_nat n))).

(** ** Loops

    [for (i = i0; cond(i); ++i) body], threading the variables the body
    assigns.  [fuel] bounds the number of iterations. *)
Fixpoint for_ {S : Type} (fuel : nat) (incr : Z -> Z) (cond : Z -> bool)
    (body : Z -> S -> result S) (i : Z) (s : S) : result S :=
  if cond i then
    match fuel with
    | O => Fuel
    | Datatypes.S fuel' => s' ← body i s; for_ fuel' incr cond body (incr i) s'
    end
  else Ret s.

(** [for (i = lo; i < hi; ++i)] with [int i]. *)
Definition for_int {S : Type} (lo hi : Z) (body : Z -> S -> result S) (s : S)
  : result S :=
  for_ (Z.to_nat (hi - lo)) (fun i => Int.add i 1) (fun i => i <? hi) body lo s.

(** ** The array type *)

(** Modelled from the spec: the struct [arrayh5] is declared in arrayh5.h,
    which is not part of the sources at hand.  Data model: [rank], the
    [dims] sequence, [N] (the number of elements) and the [data] buffer;
    arrayh5.c accesses exactly the fields [rank], [dims], [N], [data],
    [dims] as [int *] and [data] as [double *]. *)
Record arrayh5 : Type := {
  rank : Z;
  dims : pointer (list Z);
  N : Z;
  data : pointer (list double)
}.

(** [a.dims = p] and [a.data = p]. *)
Definition set_dims (a : arrayh5) (p : pointer (list Z)) : arrayh5 :=
  {| rank := rank a; dims := p; N := N a; data := data a |}.
Definition set_data (a : arrayh5) (p : pointer (list double)) : arrayh5 :=
  {| rank := rank a; dims := dims a; N := N a; data := p |}.

(** [arrayh5 arrayh5_create_withdata(int rank, const int *dims, double *data)] *)
Definition arrayh5_create_withdata (g : garbage) (rank : Z) (dims : list Z)
    (data : pointer (list double)) : result arrayh5 :=
  _ ← CHECK (0 <=? rank) "non-positive rank";
  a_dims ← CHK_MALLOC (g_int g 55) rank;
  '(a_dims, a_N) ←
    for_int 0 rank
      (fun i '(a_dims, a_N) =>
         d ← load dims i;
         a_dims ← store a_dims i d;
         Ret (a_dims, Int.mul a_N d))
      (a_dims, 1);
  a_data ←
    match data with
    | Null => buf ← CHK_MALLOC (g_double g 66) a_N; Ret (Live buf)
    | _ => Ret data
    end;
  Ret {| rank := rank; dims := Live a_dims; N := a_N; data := a_data |}.

(** [arrayh5 arrayh5_create(int rank, const int *dims)] *)
Definition arrayh5_create (g : garbage) (rank : Z) (dims : list Z)
  : result arrayh5 :=
  arrayh5_create_withdata g rank dims Null.

(** [void arrayh5_destroy(arrayh5 a)]; the result is the struct as its
    owner sees it afterwards. *)
Definition arrayh5_destroy (a : arrayh5) : result arrayh5 :=
  p_dims ← free (dims a);
  p_data ← free (data a);
  Ret {| rank := rank a; dims := p_dims; N := N a; data := p_data |}.

(** [int arrayh5_conformant(arrayh5 a, arrayh5 b)] *)
Definition arrayh5_conformant (a b : arrayh5) : result Z :=
  if negb (rank a =? rank b) then Ret 0
  else
    r ← for_int 0 (rank a)
          (fun i (r : option Z) =>
             match r with
             | Some v => Ret (Some v)           (* already returned *)
             | None =>
               a_dims ← deref (dims a);
               b_dims ← deref (dims b);
               x ← load a_dims i;
               y ← load b_dims i;
               Ret (if negb (x =? y) then Some 0 else None)
             end)
          None;
    Ret (match r with Some v => v | None => 1 end).

(** ** Transpose *)

(** [static void rtranspose(int curdim, int rank, const int *dims,
                            int curindex, int curindex_t,
                            const double *data, double *data_t)]
    [data_t] is the only buffer written; the updated buffer is returned.
    [depth] bounds the nesting of the recursive calls. *)
Fixpoint rtranspose (depth : nat) (curdim rank : Z) (dims : list Z)
    (curindex curindex_t : Z) (data data_t : list double)
  : result (list double) :=
  if rank =? 0 then
    x ← load data 0;
    store data_t 0 x
  else
    prod_before ←
      for_int 0 curdim
        (fun i p => d ← load dims i; Ret (Int.mul p d)) 1;
    prod_after ←
      for_int (Int.add curdim 1) rank
        (fun i p => d ← load dims i; Ret (Int.mul p d)) 1;
    n ← load dims curdim;
    if curdim =? Int.sub rank 1 then
      for_int 0 n
        (fun i data_t =>
           x ← load data (Int.add curindex i);
           store data_t (Int.add curindex_t (Int.mul i prod_before)) x)
        data_t
    else
      match depth with
      | O => Fuel
      | S depth' =>
        for_int 0 n
          (fun i data_t =>
             rtranspose depth' (Int.add curdim 1) rank dims
               (Int.add curindex (Int.mul i prod_after))
               (Int.add curindex_t (Int.mul i prod_before))
               data data_t)
          data_t
      end.

(** [void arrayh5_transpose(arrayh5 *a)]; the result is [*a] afterwards. *)
Definition arrayh5_transpose (g : garbage) (a : arrayh5) : result arrayh5 :=
  data_t ← CHK_MALLOC (g_double g 134) (N a);
  a_dims ← deref (dims a);
  a_data ← deref (data a);
  data_t ← rtranspose (Z.to_nat (rank a)) 0 (rank a) a_dims 0 0 a_data data_t;
  _ ← free (data a);
  a_dims ←
    for_ (Z.to_nat (rank a)) (fun i => Int.add i 1)
      (fun i => i <? Int.sub (Int.sub (rank a) 1) i)
      (fun i a_dims =>
         dummy ← load a_dims i;
         x ← load a_dims (Int.sub (Int.sub (rank a) 1) i);
         a_dims ← store a_dims i x;
         store a_dims (Int.sub (Int.sub (rank a) 1) i) dummy)
      0 a_dims;
  Ret {| rank := rank a; dims := Live a_dims; N := N a; data := Live data_t |}.

(** ** Range *)

(** [void arrayh5_getrange(arrayh5 a, double *min, double *max)]; the
    result is the pair [( *min, *max)]. *)
Definition arrayh5_getrange (a : arrayh5) : result (double * double) :=
  _ ← CHECK (0 <? N a) "no elements in array";
  a_data ← deref (data a);
  x0 ← load a_data 0;
  for_int 1 (N a)
    (fun i '(min, max) =>
       x ← load a_data i;
       let min := if SFltb x min then x else min in
       y ← load a_data i;
       let max := if SFgtb y max then y else max in
       Ret (min, max))
    (x0, x0).

(** The product of a sequence of extents (1 for the empty sequence). *)
Definition product (l : list Z) : Z := foldr Z.mul 1 l.
Arguments product : simpl never.

(** ** The HDF5 container, as far as [arrayh5_read] uses it *)

(** Modelled from the spec: the HDF5 library is an external collaborator,
    "a hierarchical, self-describing binary store of named
    multi-dimensional numeric datasets".  A dataset has per-axis extents
    (of type [hsize_t]) and its elements in row-major order. *)
Record dataset : Type := {
  ds_dims : list Z;
  ds_data : list double
}.

(** Modelled from the spec: a top-level entry of a store is classified as
    "dataset" or not (a sub-group). *)
Inductive h5object : Type :=
| H5G_GROUP
| H5G_DATASET (d : dataset).

(** The entries of the root group of a file, in iteration order. *)
Definition h5file : Type := list (string * h5object).

(** Modelled from the spec: what lies outside the program, the stores that
    can be opened, by name, and whether an element transfer ([H5Dread])
    reports a failure. *)
Record world : Type := {
  w_files : list (string * h5file);
  w_read_fails : bool
}.

(** The first entry of an association list under a name. *)
Fixpoint lookup_name {A : Type} (name : string) (l : list (string * A))
  : option A :=
  match l with
  | [] => None
  | (n, x) :: l' => if String.eqb n name then Some x else lookup_name name l'
  end.

(** Modelled from the spec: [H5Fopen(fname, H5F_ACC_RDONLY, H5P_DEFAULT)],
    "open existing store by name"; [None] stands for a negative id. *)
Definition H5Fopen (w : world) (fname : string) : option h5file :=
  lookup_name fname (w_files w).

(** Modelled from the spec: [H5Giterate(file_id, "/", NULL, op, data)],
    "list top-level entries": [op] is applied to the entries in order until
    it returns non-zero, which is then the result; 0 when it never does. *)
Fixpoint H5Giterate {S : Type} (entries : h5file)
    (op : string -> h5object -> S -> Z * S) (s : S) : Z * S :=
  match entries with
  | [] => (0, s)
  | (name, obj) :: rest =>
    let '(r, s') := op name obj s in
    if r =? 0 then H5Giterate rest op s' else (r, s')
  end.

(** [static herr_t find_dataset(hid_t group_id, const char *name, void *d)];
    the entry stands for what [H5Gget_objinfo] reports about [name], and
    the state is [*dname]. *)
Definition find_dataset (name : string) (obj : h5object)
    (dname : pointer string) : Z * pointer string :=
  match obj with
  | H5G_DATASET _ => (1, Live name)
  | _ => (0, dname)
  end.

(** Modelled from the spec: [H5Dopen(file_id, dname)], "open a dataset by
    path"; [None] stands for a negative id.  The paths covered are the
    names of the top-level entries: [dname] is looked up as it is among
    the entries of the root group. *)
Definition H5Dopen (file : h5file) (dname : string) : option dataset :=
  match lookup_name dname file with
  | Some (H5G_DATASET d) => Some d
  | _ => None
  end.

(** Modelled from the spec: a dataspace is an extent with a rectangular
    selection, "hyperslab, selected by per-axis start offset and per-axis
    extent". *)
Record dataspace : Type := {
  sp_dims : list Z;
  sp_start : list Z;
  sp_count : list Z
}.

(** Modelled from the spec: [H5Screate_simple(rank, dims, NULL)]; all of a
    new dataspace is selected. *)
Definition H5Screate_simple (rank : Z) (dims : list Z) : dataspace :=
  {| sp_dims := take (Z.to_nat rank) dims;
     sp_start := replicate (Z.to_nat rank) 0;
     sp_count := take (Z.to_nat rank) dims |}.

(** Modelled from the spec: [H5Dget_space(data_id)], "describe dataset
    shape". *)
Definition H5Dget_space (d : dataset) : dataspace :=
  H5Screate_simple (Z.of_nat (length (ds_dims d))) (ds_dims d).

(** Modelled from the spec: [H5Sget_simple_extent_ndims(space_id)]. *)
Definition H5Sget_simple_extent_ndims (sp : dataspace) : Z :=
  Z.of_nat (length (sp_dims sp)).

(** Modelled from the spec:
    [H5Sselect_hyperslab(space_id, H5S_SELECT_SET, start, NULL, count, NULL)];
    as many entries of [start] and [count] are read as the space has axes. *)
Definition H5Sselect_hyperslab (sp : dataspace) (start count : list Z)
  : dataspace :=
  {| sp_dims := sp_dims sp;
     sp_start := take (length (sp_dims sp)) start;
     sp_count := take (length (sp_dims sp)) count |}.

(** The row-major offsets of the elements of a hyperslab, in row-major
    order of the selection. *)
Fixpoint slab_offsets (dims start count : list Z) : list Z :=
  match dims, start, count with
  | d :: dims', s :: start', c :: count' =>
    i ← seqZ s c;
    (fun o => i * product dims' + o) <$> slab_offsets dims' start' count'
  | _, _, _ => [0]
  end.

(** Whether a selection lies within the extent of its space. *)
Fixpoint within_extent (dims start count : list Z) : bool :=
  match dims, start, count with
  | d :: dims', s :: start', c :: count' =>
    (0 <=? s) && (0 <=? c) && (s + c <=? d)
    && within_extent dims' start' count'
  | [], [], [] => true
  | _, _, _ => false
  end.

(** The offsets a dataspace selects; [None] when the selection leaves the
    extent. *)
Definition selected (sp : dataspace) : option (list Z) :=
  if within_extent (sp_dims sp) (sp_start sp) (sp_count sp)
  then Some (slab_offsets (sp_dims sp) (sp_start sp) (sp_count sp))
  else None.

(** The element transfer of [H5Dread]: the k-th selected element of the
    dataset goes to the k-th selected cell of the buffer. *)
Fixpoint transfer (src dst : list Z) (elements buf : list double)
  : result (list double) :=
  match src, dst with
  | s :: src', d :: dst' =>
    x ← load elements s;
    buf ← store buf d x;
    transfer src' dst' elements buf
  | _, _ => Ret buf
  end.

(** Modelled from the spec: [H5Dread(data_id, H5T_NATIVE_DOUBLE,
    mem_space_id, file_space_id, H5P_DEFAULT, buf)], "read either the full
    contents or a rectangular sub-region into a caller-provided contiguous
    double-precision buffer".  [None] is [H5S_ALL]: for the file space, the
    whole dataset; for the memory space, the file space and its selection.
    The result is the status and the buffer; the status is negative when
    the transfer fails, when a selection leaves its extent or when the two
    selections differ in size.  Writing outside of [buf] is undefined. *)
Definition H5Dread (w : world) (d : dataset) (mem_space file_space : option dataspace)
    (buf : list double) : result (Z * list double) :=
  if w_read_fails w then Ret (-1, buf)
  else
    let file_sp := default (H5Dget_space d) file_space in
    let mem_sp := default file_sp mem_space in
    match selected file_sp, selected mem_sp with
    | Some src, Some dst =>
      if (length src =? length dst)%nat then
        buf ← transfer src dst (ds_data d) buf;
        Ret (0, buf)
      else Ret (-1, buf)
    | _, _ => Ret (-1, buf)
    end.

(** [for (i = lo; i < hi; ++i)] with [hsize_t i]. *)
Definition for_hsize {S : Type} (lo hi : Z) (body : Z -> S -> result S) (s : S)
  : result S :=
  for_ (Z.to_nat (hi - lo)) (fun i => Hsize.add i 1) (fun i => i <? hi) body lo s.

(** ** Reading *)

(** [const char arrayh5_read_strerror[][100]] *)
Definition arrayh5_read_strerror : list string :=
  [ "no error";
    "error opening HD5 file";
    "couldn't find data set in HDF5 file";
    "error reading data from HDF5";
    "error reading data slice from HDF5";
    "invalid slice of HDF5 data";
    "non-positive rank in HDF file";
    "error opening data set in HDF file" ]%string.

(** The slice branch of [arrayh5_read] (lines 250-299); the result is
    [err] and [*a]. *)
Definition arrayh5_read_slice (w : world) (g : garbage) (d : dataset)
    (space : dataspace) (rank : Z) (dims : list Z) (slicedim islice : Z)
  : result (Z * arrayh5) :=
  start ← CHK_MALLOC (g_int g 255) rank;
  count ← CHK_MALLOC (g_int g 256) rank;
  count2 ← CHK_MALLOC (g_int g 257) rank;
  '(start, count, count2) ←
    for_hsize 0 rank
      (fun i '(start, count, count2) =>
         x ← load dims i;
         count ← store count i (Hsize.wrap x);
         x ← load dims i;
         count2 ← store count2 i (Hsize.wrap x);
         start ← store start i 0;
         Ret (start, count, count2))
      (start, count, count2);
  start ← store start slicedim islice;
  count ← store count slicedim 1;
  let space := H5Sselect_hyperslab space start count in
  '(dims, count2) ←
    for_ (Z.to_nat rank) (fun i => Hsize.add i 1)
      (fun i => Hsize.add i 1 <? rank)
      (fun i '(dims, count2) =>
         x ← load dims (Hsize.add i 1);
         dims ← store dims i x;
         count2 ← store count2 i (Hsize.wrap x);
         Ret (dims, count2))
      (Hsize.wrap slicedim) (dims, count2);
  start ← store start slicedim 0;
  let rank := Hsize.sub rank 1 in
  '(rank, count2, a) ←
    (if rank =? 0 then
       dims ← store dims 0 1;
       count2 ← store count2 0 1;
       a ← arrayh5_create g 0 dims;
       Ret (1, count2, a)
     else
       a ← arrayh5_create g (Int.wrap rank) dims;
       Ret (rank, count2, a));
  (* free(dims) *)
  let mem_space := H5Screate_simple rank count2 in
  let mem_space := H5Sselect_hyperslab mem_space start count2 in
  a_data ← deref (data a);
  '(readerr, a_data) ← H5Dread w d (Some mem_space) (Some space) a_data;
  let a := set_data a (Live a_data) in
  (* H5Sclose(mem_space_id); free(count2); free(count); free(start) *)
  if readerr <? 0 then Ret (4, a) else Ret (0, a).

(** The selection of the read mode in [arrayh5_read] (lines 239-305), once
    [rank] and [dims] are known; the result is [err] and [*a]. *)
Definition arrayh5_read_select (w : world) (g : garbage) (a : arrayh5)
    (d : dataset) (space : dataspace) (rank : Z) (dims : list Z)
    (slicedim islice : Z) : result (Z * arrayh5) :=
  if (slicedim <? 0) || ((rank <=? Hsize.wrap slicedim) && (islice =? 0)) then
    a ← arrayh5_create g (Int.wrap rank) dims;
    (* free(dims) *)
    a_data ← deref (data a);
    '(readerr, a_data) ← H5Dread w d None None a_data;
    let a := set_data a (Live a_data) in
    if readerr <? 0 then Ret (3, a) else Ret (0, a)
  else
    in_range ←
      (if Hsize.wrap slicedim <? rank then
         if 0 <=? islice then
           x ← load dims slicedim; Ret (islice <? x)
         else Ret false
       else Ret false);
    if in_range : bool then
      arrayh5_read_slice w g d space rank dims slicedim islice
    else
      (* free(dims) *)
      Ret (5, a).

(** [arrayh5_read] from its first statement to the label [done]; the result
    is [err] and [*a]. *)
Definition arrayh5_read_body (w : world) (g : garbage) (a : arrayh5)
    (fname : string) (datapath : option string) (slicedim islice : Z)
  : result (Z * arrayh5) :=
  let a := set_dims a Null in
  let a := set_data a Null in
  match H5Fopen w fname with
  | None => Ret (1, a)
  | Some file =>
    let '(found, dname) :=
      match datapath with
      | Some (String c path) => (1, Live (String c path))
      | _ => H5Giterate file find_dataset Null
      end in
    if found <=? 0 then Ret (2, a)
    else
      dname ← deref dname;
      match H5Dopen file dname with
      | None => Ret (7, a)
      | Some d =>
        let space := H5Dget_space d in
        let rank := Hsize.wrap (H5Sget_simple_extent_ndims space) in
        if rank <=? 0 then Ret (6, a)
        else
          dims ← CHK_MALLOC (g_int g 228) rank;
          dims_copy ← CHK_MALLOC (g_int g 229) rank;
          maxdims ← CHK_MALLOC (g_int g 230) rank;
          (* H5Sget_simple_extent_dims(space_id, dims_copy, maxdims) *)
          let dims_copy := sp_dims space in
          dims ←
            for_hsize 0 rank
              (fun i dims => x ← load dims_copy i; store dims i (Int.wrap x))
              dims;
          (* free(maxdims); free(dims_copy) *)
          arrayh5_read_select w g a d space rank dims slicedim islice
      end
  end.

(** [int arrayh5_read(arrayh5 *a, const char *fname, const char *datapath,
                      int slicedim, int islice)]; [a] is [None] for a NULL
    pointer; the result is the status returned and [*a]. *)
Definition arrayh5_read (w : world) (g : garbage) (a : option arrayh5)
    (fname : string) (datapath : option string) (slicedim islice : Z)
  : result (Z * arrayh5) :=
  match a with
  | None => Exit "NULL array passed to arrayh5_read"
  | Some a =>
    '(err, a) ← arrayh5_read_body w g a fname datapath slicedim islice;
    (* done: *)
    a ← (if (3 <=? err) && (err <=? 4) then arrayh5_destroy a else Ret a);
    (* H5Sclose(space_id); H5Dclose(data_id); free(dname); H5Fclose(file_id) *)
    Ret (err, a)
  end.

(** * Specification-level definitions *)

(** A loop over an explicit list of index values. *)

Fixpoint foldM {S : Type} (body : Z -> S -> result S) (l : list Z) (s : S)
  : result S :=
  match l with
  | [] => Ret s
  | i :: l' => s' ← body i s; foldM body l' s'
  end.


(** ** Concrete values used in examples *)

(** Some indeterminate memory contents: all cells zero. *)
Definition zeroed : garbage :=
  {| g_int := fun _ _ => 0; g_double := fun _ _ => S754_zero false |}.

(** ** Order on doubles *)

Definition is_nan (x : double) : bool :=
  match x with
  | S754_nan => true
  | _ => false
  end.

(** [m] is a least element of [l] for the IEEE comparison [<=]. *)
Definition is_minimum (m : double) (l : list double) : Prop :=
  m ∈ l /\ Forall (fun x => SFleb m x = true) l.

(** [m] is a greatest element of [l] for the IEEE comparison [<=]. *)
Definition is_maximum (m : double) (l : list double) : Prop :=
  m ∈ l /\ Forall (fun x => SFleb x m = true) l.

(** The doubles 1.0 ... 7.0 and -1.0 in binary64 (53-bit mantissa). *)
Definition d_1 : double := S754_finite false 4503599627370496 (-52).
Definition d_2 : double := S754_finite false 4503599627370496 (-51).
Definition d_3 : double := S754_finite false 6755399441055744 (-51).
Definition d_4 : double := S754_finite false 4503599627370496 (-50).
Definition d_5 : double := S754_finite false 5629499534213120 (-50).
Definition d_6 : double := S754_finite false 6755399441055744 (-50).
Definition d_7 : double := S754_finite false 7881299347898368 (-50).
Definition d_m1 : double := S754_finite true 4503599627370496 (-52).

(** ** Row-major layout *)

(** [toffset dims p]: where the element at flat (row-major) offset [p] of
    an array of shape [dims] lies in the row-major layout of the array with
    the axes reversed.  With [p = i0 * stride0 + ... + i_{r-1}],
    [stride_k = product (dims[k+1..])], the result is
    [i0 + dims[0] * (i1 + dims[1] * (...))]. *)
Fixpoint toffset (dims : list Z) (p : Z) : Z :=
  match dims with
  | [] => 0
  | d :: rest => p / product rest + d * toffset rest (p mod product rest)
  end.

(** An array as the data model describes it: [dims] holds [rank]
    non-negative extents, [N] is their product and [data] holds [N]
    elements; [rank], the extents and [N] are values of type [int]. *)
Record well_formed (a : arrayh5) (ds : list Z) (xs : list double) : Prop := {
  wf_dims : dims a = Live ds;
  wf_data : data a = Live xs;
  wf_rank : rank a = Z.of_nat (length ds);
  wf_extents : Forall (fun d => 0 <= d <= Int.max_signed) ds;
  wf_N : N a = product ds;
  wf_length : Z.of_nat (length xs) = N a;
  wf_rank_int : rank a <= Int.max_signed;
  wf_N_int : N a <= Int.max_signed
}.

(** The array of shape (2, 3) with row-major values 1 ... 6. *)
Definition A23 : arrayh5 :=
  {| rank := 2; dims := Live [2; 3]; N := 6;
     data := Live [d_1; d_2; d_3; d_4; d_5; d_6] |}.

(** The dims buffer after [k] exchanges of [arrayh5_transpose]: the outer
    [k] entries on each side are those of the reversed sequence. *)
Definition swapped (ds : list Z) (k : nat) (l : list Z) : Prop :=
  length l = length ds
  /\ forall j, (j < length ds)%nat ->
       l !! j = if decide (j < k \/ length ds - k <= j)%nat
                then ds !! (length ds - Datatypes.S j)%nat
                else ds !! j.

(** ** Read requests *)

(** The read request [(fname, datapath)] reaches the dataset [d]: the file
    opens, the dataset is named by [datapath] or is the first dataset
    among the top-level entries, and it opens. *)
Definition opens (w : world) (fname : string) (datapath : option string)
    (d : dataset) : Prop :=
  exists file found dname,
    H5Fopen w fname = Some file
    /\ match datapath with
       | Some (String c path) => (1, Live (String c path))
       | _ => H5Giterate file find_dataset Null
       end = (found, Live dname)
    /\ 0 < found
    /\ H5Dopen file dname = Some d.

(** A dataset the reader accepts: its rank is at least 1 (and a value of
    type [int], as [H5Sget_simple_extent_ndims] returns it), its extents
    are values of type [hsize_t] and it holds as many elements as the
    product of its extents. *)
Record readable (d : dataset) : Prop := {
  rd_rank : 1 <= Z.of_nat (length (ds_dims d)) <= Int.max_signed;
  rd_extents : Forall Hsize.in_range (ds_dims d);
  rd_elements : Z.of_nat (length (ds_data d)) = product (ds_dims d)
}.

(** The extents of a dataset as [arrayh5_read] holds them, in [int]. *)
Definition int_dims (d : dataset) : list Z := map Int.wrap (ds_dims d).

(** The array fields of [*a] as [arrayh5_read] first sets them. *)
Definition cleared (a : arrayh5) : arrayh5 :=
  set_data (set_dims a Null) Null.

(** A store with one file, holding a group and a 2 x 3 dataset. *)
Definition sample_dataset : dataset :=
  {| ds_dims := [2; 3]; ds_data := [d_1; d_2; d_3; d_4; d_5; d_6] |}.

Definition sample_world : world :=
  {| w_files := [("a.h5", [("grp", H5G_GROUP);
                           ("data", H5G_DATASET sample_dataset)])]%string;
     w_read_fails := false |}.

(** An [arrayh5] variable before it is passed to [arrayh5_read]. *)
Definition stale : arrayh5 :=
  {| rank := 7; dims := Dangling; N := 7; data := Dangling |}.

(** Both buffers of the array are allocated. *)
Definition allocated (a : arrayh5) : Prop :=
  (exists ds, dims a = Live ds) /\ (exists xs, data a = Live xs).

(** The sample store when element transfers fail. *)
Definition failing_world : world :=
  {| w_files := w_files sample_world; w_read_fails := true |}.

(** ** Multi-indices *)

(** The row-major offset of the element with multi-index [idx] in an array
    of shape [dims]. *)
Fixpoint flat (dims idx : list Z) : Z :=
  match dims, idx with
  | d :: dims', i :: idx' => i * product dims' + flat dims' idx'
  | _, _ => 0
  end.

(** [idx] is a multi-index of an array of shape [dims]. *)
Definition valid_index (dims idx : list Z) : Prop :=
  Forall2 (fun i d => 0 <= i < d) idx dims.

(** The extents of the dataset and its number of elements are
    representable in the [int] fields of an [arrayh5]. *)
Definition fits_int (d : dataset) : Prop :=
  Forall (fun e => e <= Int.max_signed) (ds_dims d)
  /\ product (ds_dims d) <= Int.max_signed.

(** The array with the exact shape and the contents of a dataset. *)
Definition full_array (d : dataset) : arrayh5 :=
  {| rank := Z.of_nat (length (ds_dims d)); dims := Live (ds_dims d);
     N := product (ds_dims d); data := Live (ds_data d) |}.

(** An array whose two buffers have been freed. *)
Definition freed (a : arrayh5) : arrayh5 :=
  set_data (set_dims a Dangling) Dangling.

(** The condition under which [arrayh5_read] reads the whole dataset. *)
Definition full_mode (d : dataset) (slicedim islice : Z) : Prop :=
  slicedim < 0 \/ (Z.of_nat (length (ds_dims d)) <= slicedim /\ islice = 0).

(** The dims buffer after [j] moves of the slice branch of [arrayh5_read],
    which started at axis [sd]: the entries [sd .. sd+j-1] hold the extents
    of the axes one further. *)
Definition shifted (l : list Z) (sd j : nat) (l' : list Z) : Prop :=
  length l' = length l
  /\ forall i, (i < length l)%nat ->
       l' !! i = if decide (sd <= i < sd + j)%nat
                 then l !! Datatypes.S i
                 else l !! i.

(** A store with one file, holding a dataset of rank 1. *)
Definition vector_dataset : dataset :=
  {| ds_dims := [3]; ds_data := [d_3; d_m1; d_7] |}.

Definition vector_world : world :=
  {| w_files := [("v.h5", [("v", H5G_DATASET vector_dataset)])]%string;
     w_read_fails := false |}.

(** A one-dimensional dataset of 2^31 elements (16 GiB of doubles). *)
Definition long_dataset : dataset :=
  {| ds_dims := [2147483648];
     ds_data := replicate (Z.to_nat 2147483648) d_1 |}.

Definition long_world : world :=
  {| w_files := [("long.h5", [("data", H5G_DATASET long_dataset)])]%string;
     w_read_fails := false |}.

(** A dataset of shape (2^31, 2). *)
Definition wide_dataset : dataset :=
  {| ds_dims := [2147483648; 2];
     ds_data := replicate (Z.to_nat 4294967296) d_1 |}.

Definition wide_world : world :=
  {| w_files := [("wide.h5", [("data", H5G_DATASET wide_dataset)])]%string;
     w_read_fails := false |}.

(** * The rest of arrayh5.c: cloning and the writer *)

(** The cells that can be accessed through a pointer: those of the buffer
    it points to, none when it is null or dangling. *)
Definition cells {A : Type} (p : pointer (list A)) : list A :=
  match p with
  | Live buf => buf
  | _ => []
  end.

(** [arrayh5 arrayh5_clone(arrayh5 a)] *)
Definition arrayh5_clone (g : garbage) (a : arrayh5) : result arrayh5 :=
  arrayh5_create g (rank a) (cells (dims a)).

(** ** The HDF5 container, as far as [arrayh5_write] uses it *)

(** Modelled from the spec: what lies outside the program on the writing
    side: whether the store of a given name can be created or opened
    read-write, where the library places a new entry in the iteration
    order of a group, and whether writing the elements of a dataset
    ([H5Dwrite]) reports a failure. *)
Record medium : Type := {
  m_writable : string -> bool;
  m_position : string -> h5file -> nat;
  m_write_fails : bool
}.

(** A computation that acts on the stores: the state is the [world], and
    the outcome is that of a C computation.  After [Exit] the state is the
    one the process leaves behind. *)
Definition io (A : Type) : Type := world -> world * result A.

Definition io_ret {A : Type} (a : A) : io A := fun w => (w, Ret a).

Definition io_bind {A B : Type} (m : io A) (f : A -> io B) : io B :=
  fun w =>
    match m w with
    | (w', Ret a) => f a w'
    | (w', Exit msg) => (w', Exit msg)
    | (w', Undef) => (w', Undef)
    | (w', Fuel) => (w', Fuel)
    end.

(** A computation that leaves the stores alone. *)
Definition lift {A : Type} (r : result A) : io A := fun w => (w, r).

Declare Scope io_scope.
Delimit Scope io_scope with io.
Notation "x <- m ;; k" := (io_bind m (fun x => k))
  (at level 100, m at next level, right associativity) : io_scope.

(** Bind a name in an association list: the first entry under the name is
    replaced, or an entry is added. *)
Fixpoint set_name {A : Type} (name : string) (x : A) (l : list (string * A))
  : list (string * A) :=
  match l with
  | [] => [(name, x)]
  | (n, y) :: l' =>
    if String.eqb n name then (n, x) :: l' else (n, y) :: set_name name x l'
  end.

(** Remove the entries under a name. *)
Fixpoint remove_name {A : Type} (name : string) (l : list (string * A))
  : list (string * A) :=
  match l with
  | [] => []
  | (n, y) :: l' =>
    if String.eqb n name then remove_name name l'
    else (n, y) :: remove_name name l'
  end.

Definition insert_at {A : Type} (k : nat) (x : A) (l : list A) : list A :=
  take k l ++ x :: drop k l.

(** The stores with the file [fname] holding the entries [file]. *)
Definition set_file (fname : string) (file : h5file) (w : world) : world :=
  {| w_files := set_name fname file (w_files w);
     w_read_fails := w_read_fails w |}.

(** Modelled from the spec:
    [H5Fcreate(filename, H5F_ACC_TRUNC, H5P_DEFAULT, H5P_DEFAULT)], "create
    new store (truncating) by name"; the result says whether the id is
    valid (not negative).  An open file is referred to by its name. *)
Definition H5Fcreate (m : medium) (fname : string) : io bool :=
  fun w =>
    if m_writable m fname then (set_file fname [] w, Ret true)
    else (w, Ret false).

(** Modelled from the spec: [H5Fopen(filename, H5F_ACC_RDWR, H5P_DEFAULT)],
    "open existing store (read-write) by name". *)
Definition H5Fopen_rdwr (m : medium) (fname : string) : io bool :=
  fun w =>
    (w, Ret match H5Fopen w fname with
            | Some _ => m_writable m fname
            | None => false
            end).

(** [static int dataset_exists(hid_t id, const char *name)], on the open
    file [fname]. *)
Definition dataset_exists (fname name : string) : io Z :=
  fun w =>
    (w, Ret match H5Fopen w fname with
            | Some file =>
              match H5Dopen file name with
              | Some _ => 1     (* data_id >= 0 *)
              | None => 0
              end
            | None => 0
            end).

(** Modelled from the spec: [H5Gunlink(file_id, dataname)], "delete an
    existing dataset by name". *)
Definition H5Gunlink (fname name : string) : io unit :=
  fun w =>
    match H5Fopen w fname with
    | Some file => (set_file fname (remove_name name file) w, Ret tt)
    | None => (w, Ret tt)
    end.

(** Modelled from the spec: [H5Dcreate(file_id, dataname,
    H5T_NATIVE_DOUBLE, space_id, H5P_DEFAULT)], "create a dataset of a
    declared rank/shape/element-type".  The dataset is created under a
    name that is not empty and not in use, with the fill value 0.0 in
    every element; otherwise the id is negative ([None]) and nothing
    changes.  A valid id is the name of the dataset. *)
Definition H5Dcreate (m : medium) (fname name : string) (space : dataspace)
  : io (option string) :=
  fun w =>
    match H5Fopen w fname with
    | Some file =>
      match name, lookup_name name file with
      | String _ _, None =>
        let d := {| ds_dims := sp_dims space;
                    ds_data := replicate (Z.to_nat (product (sp_dims space)))
                                 (S754_zero false) |} in
        (set_file fname
           (insert_at (m_position m name file) (name, H5G_DATASET d) file) w,
         Ret (Some name))
      | _, _ => (w, Ret None)
      end
    | None => (w, Ret None)
    end.

(** The first [n] cells of a buffer; reading beyond its end is undefined. *)
Definition read_cells {A : Type} (buf : list A) (n : Z) : result (list A) :=
  if n <=? Z.of_nat (length buf) then Ret (take (Z.to_nat n) buf) else Undef.

(** Modelled from the spec: [H5Dwrite(data_id, H5T_NATIVE_DOUBLE, H5S_ALL,
    H5S_ALL, H5P_DEFAULT, buf)], "write a full contiguous buffer into it":
    as many elements as the dataset has are taken from [buf].  The result
    is the status, negative for an invalid id or a failed transfer, which
    leave the dataset as it is. *)
Definition H5Dwrite (m : medium) (fname : string) (data_id : option string)
    (buf : pointer (list double)) : io Z :=
  fun w =>
    match data_id, H5Fopen w fname with
    | Some name, Some file =>
      match H5Dopen file name with
      | Some d =>
        if m_write_fails m then (w, Ret (-1))
        else
          match read_cells (cells buf) (product (ds_dims d)) with
          | Ret elements =>
            (set_file fname
               (set_name name
                  (H5G_DATASET {| ds_dims := ds_dims d;
                                  ds_data := elements |}) file) w,
             Ret 0)
          | Exit msg => (w, Exit msg)
          | Undef => (w, Undef)
          | Fuel => (w, Fuel)
          end
      | None => (w, Ret (-1))
      end
    | _, _ => (w, Ret (-1))
    end.

(** ** Writing *)

(** [void arrayh5_write(arrayh5 a, char *filename, char *dataname,
                         short append_data)] *)
Definition arrayh5_write (m : medium) (g : garbage) (a : arrayh5)
    (filename dataname : string) (append_data : Z) : io unit :=
  (file_id <- (if negb (append_data =? 0) then H5Fopen_rdwr m filename
               else H5Fcreate m filename);;
   _ <- lift (CHECK file_id "error opening HDF5 output file");;
   found <- dataset_exists filename dataname;;
   _ <- (if negb (found =? 0) then H5Gunlink filename dataname   (* delete it *)
         else io_ret tt);;
   _ <- lift (CHECK (0 <? rank a) "non-positive rank");;
   dims_copy <- lift (CHK_MALLOC (g_int g 348) (rank a));;
   dims_copy <-
     lift (for_int 0 (rank a)
             (fun i dims_copy =>
                x ← load (cells (dims a)) i;
                store dims_copy i (Hsize.wrap x))
             dims_copy);;
   let space_id := H5Screate_simple (rank a) dims_copy in
   (* free(dims_copy) *)
   data_id <- H5Dcreate m filename dataname space_id;;
   (* H5Sclose(space_id) *)
   _ <- H5Dwrite m filename data_id (data a);;
   (* H5Dclose(data_id); H5Fclose(file_id) *)
   io_ret tt)%io.

(** ** Specification-level definitions for the writer *)

(** A name that denotes an entry of the root group itself: it is not
    empty, it is not "." (the group itself) and it holds no path
    separator. *)
Fixpoint no_slash (s : string) : bool :=
  match s with
  | EmptyString => true
  | String c s' => negb (String.eqb (String c EmptyString) "/") && no_slash s'
  end.

Definition top_level (name : string) : Prop :=
  name <> EmptyString /\ name <> "."%string /\ no_slash name = true.

(** A medium on which every store is writable, new entries come last and
    transfers succeed. *)
Definition plain_medium : medium :=
  {| m_writable := fun _ => true;
     m_position := fun _ file => length file;
     m_write_fails := false |}.

(** Two doubles that compare equal: the same value, or zeros of either
    sign. *)
Definition same_value (x y : double) : Prop := SFcompare x y = Some Eq.

(** The elements of a buffer that are not NaN. *)
Definition non_nan (l : list double) : list double :=
  filter (fun x => is_nan x = false) l.

(** The two buffers of the array are allocated and have the sizes that
    [rank] and [N] announce. *)
Definition sized (a : arrayh5) : Prop :=
  exists ds xs,
    dims a = Live ds /\ data a = Live xs
    /\ Z.of_nat (length ds) = rank a /\ Z.of_nat (length xs) = N a.

(** The stores after [arrayh5_write] has declared and written the dataset
    of shape [ds] and elements [xs] under a name that was free in
    [file1], the entries of the file [filename] of the stores [w1]. *)
Definition written (m : medium) (filename dataname : string)
    (ds : list Z) (xs : list double) (file1 : h5file) (w1 : world) : world :=
  let d0 := {| ds_dims := ds;
               ds_data := replicate (Z.to_nat (product ds))
                            (S754_zero false) |} in
  let file2 :=
    insert_at (m_position m dataname file1) (dataname, H5G_DATASET d0) file1 in
  let w2 := set_file filename file2 w1 in
  if m_write_fails m then w2
  else set_file filename
         (set_name dataname
            (H5G_DATASET {| ds_dims := ds; ds_data := xs |}) file2) w2.
(** * Properties *)

(** ** Machine arithmetic *)

Lemma Int_wrap_small z : Int.in_range z -> Int.wrap z = z.
Proof.
  unfold Int.in_range, Int.min_signed, Int.max_signed, Int.wrap. intros H.
  rewrite Z.mod_small; lia.
Qed.


Lemma Int_wrap_mul_l a b : Int.wrap (Int.wrap a * b) = Int.wrap (a * b).
Proof.
  unfold Int.wrap. f_equal.
  replace ((a + 2 ^ 31) mod 2 ^ 32 - 2 ^ 31) with
    (a + (- ((a + 2 ^ 31) / 2 ^ 32)) * 2 ^ 32).
  - replace ((a + - ((a + 2 ^ 31) / 2 ^ 32) * 2 ^ 32) * b + 2 ^ 31)
      with (a * b + 2 ^ 31 + (- ((a + 2 ^ 31) / 2 ^ 32) * b) * 2 ^ 32) by ring.
    apply Z.mod_add. lia.
  - pose proof (Z.div_mod (a + 2 ^ 31) (2 ^ 32)). lia.
Qed.

Lemma Int_add_small a b : Int.in_range (a + b) -> Int.add a b = a + b.
Proof. apply Int_wrap_small. Qed.

Lemma Int_sub_small a b : Int.in_range (a - b) -> Int.sub a b = a - b.
Proof. apply Int_wrap_small. Qed.

Lemma Int_mul_small a b : Int.in_range (a * b) -> Int.mul a b = a * b.
Proof. apply Int_wrap_small. Qed.

(** ** Loops as folds *)


Lemma bind_assoc {A B C : Type} (m : result A) (f : A -> result B)
    (h : B -> result C) :
  ((m ≫= f) ≫= h) = (m ≫= fun x => f x ≫= h).
Proof. destruct m; reflexivity. Qed.

Lemma foldM_app {S : Type} (body : Z -> S -> result S) l1 l2 (s : S) :
  foldM body (l1 ++ l2) s = (foldM body l1 s ≫= foldM body l2).
Proof.
  revert s. induction l1 as [|i l1 IH]; intros s; simpl; [reflexivity|].
  rewrite bind_assoc. destruct (body i s); simpl; auto.
Qed.

Lemma foldM_ext {S : Type} (f h : Z -> S -> result S) l (s : S) :
  (forall i s', i ∈ l -> f i s' = h i s') -> foldM f l s = foldM h l s.
Proof.
  revert s. induction l as [|i l IH]; intros s H; simpl; [reflexivity|].
  rewrite H by constructor. destruct (h i s); simpl; auto.
  apply IH. intros. apply H. now constructor.
Qed.

Lemma foldM_map {S : Type} (body : Z -> S -> result S) (k : Z -> Z) l (s : S) :
  foldM body (map k l) s = foldM (fun i => body (k i)) l s.
Proof.
  revert s. induction l as [|i l IH]; intros s; simpl; [reflexivity|].
  destruct (body (k i) s); simpl; auto.
Qed.

Lemma for_int_foldM {S : Type} lo hi (body : Z -> S -> result S) (s : S) :
  hi <= Int.max_signed -> Int.min_signed <= lo ->
  for_int lo hi body s = foldM body (seqZ lo (hi - lo)) s.
Proof.
  unfold for_int. intros Hhi.
  remember (Z.to_nat (hi - lo)) as n eqn:Hn.
  revert lo s Hn. induction n as [|n IH]; intros lo s Hn Hlo.
  - simpl. rewrite seqZ_nil by lia.
    destruct (Z.ltb_spec lo hi); [lia|reflexivity].
  - simpl. rewrite seqZ_cons by lia.
    destruct (Z.ltb_spec lo hi); [|lia]. simpl.
    destruct (body lo s) as [s'| | |]; simpl; auto.
    rewrite Int_add_small
      by (unfold Int.in_range, Int.min_signed, Int.max_signed in *; lia).
    replace (Z.pred (hi - lo)) with (hi - (lo + 1)) by lia.
    replace (Z.succ lo) with (lo + 1) by lia.
    apply IH; lia.
Qed.

Lemma foldM_seqZ_S {S : Type} (body : Z -> S -> result S) lo (k : nat) (s : S) :
  foldM body (seqZ lo (Z.of_nat (Datatypes.S k))) s =
  (foldM body (seqZ lo (Z.of_nat k)) s ≫= body (lo + Z.of_nat k)).
Proof.
  rewrite seqZ_S, foldM_app.
  destruct (foldM body (seqZ lo (Z.of_nat k)) s) as [s'| | |]; simpl; auto.
  destruct (body (lo + Z.of_nat k) s'); reflexivity.
Qed.

Lemma foldM_seqZ0_S {S : Type} (body : Z -> S -> result S) (k : nat) (s : S) :
  foldM body (seqZ 0 (Z.of_nat (Datatypes.S k))) s =
  (foldM body (seqZ 0 (Z.of_nat k)) s ≫= body (Z.of_nat k)).
Proof. now rewrite foldM_seqZ_S, Z.add_0_l. Qed.

(** ** Buffers *)

Lemma load_Ret {A : Type} (buf : list A) k x :
  0 <= k -> buf !! Z.to_nat k = Some x -> load buf k = Ret x.
Proof.
  intros Hk Hx. unfold load. destruct (Z.ltb_spec k 0); [lia|]. now rewrite Hx.
Qed.

Lemma load_nat {A : Type} (buf : list A) (k : nat) x :
  buf !! k = Some x -> load buf (Z.of_nat k) = Ret x.
Proof. intros H. apply load_Ret; [lia|]. now rewrite Nat2Z.id. Qed.

Lemma store_Ret {A : Type} (buf : list A) k x :
  0 <= k < Z.of_nat (length buf) ->
  store buf k x = Ret (<[Z.to_nat k := x]> buf).
Proof.
  intros Hk. unfold store.
  destruct (Z.leb_spec 0 k); [|lia].
  destruct (Z.ltb_spec k (Z.of_nat (length buf))); [|lia]. reflexivity.
Qed.

Lemma CHK_MALLOC_Ret {A : Type} (cells : nat -> A) n :
  0 <= n -> CHK_MALLOC cells n = Ret (map cells (seq 0 (Z.to_nat n))).
Proof.
  intros Hn. unfold CHK_MALLOC, CHECK.
  destruct (Z.leb_spec 0 n); [reflexivity|lia].
Qed.

Lemma length_malloc {A : Type} (cells : nat -> A) n :
  length (map cells (seq 0 n)) = n.
Proof. now rewrite length_map, length_seq. Qed.

(** ** Products *)

Lemma product_app l1 l2 : product (l1 ++ l2) = product l1 * product l2.
Proof.
  induction l1 as [|d l1 IH]; simpl.
  - destruct (product l2); reflexivity.
  - unfold product in *. simpl. rewrite IH. ring.
Qed.

Lemma product_snoc l d : product (l ++ [d]) = product l * d.
Proof. rewrite product_app. unfold product. simpl. ring. Qed.

Lemma product_reverse l : product (reverse l) = product l.
Proof.
  induction l as [|d l IH]; [reflexivity|].
  rewrite reverse_cons, product_snoc, IH. unfold product. simpl. ring.
Qed.

Lemma product_take_S (l : list Z) k d :
  l !! k = Some d -> product (take (Datatypes.S k) l) = product (take k l) * d.
Proof.
  intros H. erewrite take_S_r by eassumption. apply product_snoc.
Qed.

(** ** Construction *)

Lemma insert_take_drop {A : Type} (l1 l2 : list A) (k : nat) x :
  l1 !! k = Some x -> (k < length l2)%nat ->
  <[k := x]> (take k l1 ++ drop k l2)
  = take (Datatypes.S k) l1 ++ drop (Datatypes.S k) l2.
Proof.
  intros Hx Hk. pose proof (lookup_lt_Some _ _ _ Hx) as Hk1.
  rewrite insert_app_r_alt by (rewrite length_take; lia).
  rewrite length_take, Nat.min_l, Nat.sub_diag by lia.
  destruct (drop k l2) as [|b rest] eqn:Hdrop.
  { apply (f_equal length) in Hdrop. rewrite length_drop in Hdrop.
    simpl in Hdrop. lia. }
  simpl. erewrite take_S_r by eassumption.
  rewrite <- app_assoc. simpl. do 2 f_equal.
  replace (Datatypes.S k) with (k + 1)%nat by lia.
  rewrite <- drop_drop, Hdrop. reflexivity.
Qed.

(** The loop of [arrayh5_create_withdata] after [k] iterations. *)
Lemma create_loop (dims_in buf : list Z) (k : nat) :
  (k <= length dims_in)%nat -> (k <= length buf)%nat ->
  foldM (fun i '(a_dims, a_N) =>
           d ← load dims_in i;
           a_dims ← store a_dims i d;
           Ret (a_dims, Int.mul a_N d))
        (seqZ 0 (Z.of_nat k)) (buf, 1)
  = Ret (take k dims_in ++ drop k buf, Int.wrap (product (take k dims_in))).
Proof.
  intros Hk Hlen. induction k as [|k IH].
  - simpl. now rewrite drop_0.
  - rewrite foldM_seqZ0_S, IH by lia. simpl.
    destruct (lookup_lt_is_Some_2 dims_in k) as [d Hd]; [lia|].
    rewrite (load_nat _ _ _ Hd). simpl.
    rewrite store_Ret
      by (rewrite length_app, length_take, length_drop; lia).
    simpl. f_equal. f_equal.
    + rewrite Nat2Z.id. now apply insert_take_drop.
    + unfold Int.mul. rewrite Int_wrap_mul_l.
      now rewrite (product_take_S _ _ _ Hd).
Qed.

(** [arrayh5_create_withdata] reads the first [r] entries of its dims
    argument. *)
Lemma create_withdata_take g (r : nat) (dims_in : list Z) buf :
  (r <= length dims_in)%nat -> Z.of_nat r <= Int.max_signed ->
  arrayh5_create_withdata g (Z.of_nat r) dims_in buf =
  (a_data ← match buf with
            | Null =>
              cells ← CHK_MALLOC (g_double g 66)
                        (Int.wrap (product (take r dims_in)));
              Ret (Live cells)
            | _ => Ret buf
            end;
   Ret {| rank := Z.of_nat r; dims := Live (take r dims_in);
          N := Int.wrap (product (take r dims_in)); data := a_data |}).
Proof.
  intros Hr Hmax. unfold arrayh5_create_withdata, CHECK.
  destruct (Z.leb_spec 0 (Z.of_nat r)); [|lia]. simpl.
  rewrite CHK_MALLOC_Ret by lia. simpl.
  rewrite for_int_foldM by (unfold Int.min_signed; lia).
  rewrite Z.sub_0_r, Nat2Z.id.
  rewrite create_loop by (rewrite ?length_malloc; lia).
  simpl. rewrite drop_ge by (rewrite length_malloc; lia).
  rewrite app_nil_r. reflexivity.
Qed.

Lemma create_withdata_eq g r (dims_in : list Z) buf :
  r = Z.of_nat (length dims_in) -> r <= Int.max_signed ->
  arrayh5_create_withdata g r dims_in buf =
  (a_data ← match buf with
            | Null =>
              cells ← CHK_MALLOC (g_double g 66) (Int.wrap (product dims_in));
              Ret (Live cells)
            | _ => Ret buf
            end;
   Ret {| rank := r; dims := Live dims_in;
          N := Int.wrap (product dims_in); data := a_data |}).
Proof.
  intros -> Hmax. rewrite create_withdata_take by lia.
  now rewrite firstn_all.
Qed.

(** C7 (as amended).  For every rank >= 0 and every dims sequence of that
    length whose product is representable as an [int], the array returned
    by [arrayh5_create_withdata] with a buffer, and by [arrayh5_create]
    when the product is not negative, has [N] equal to the product of all
    entries of dims (the empty product, 1, when rank is 0) and a [dims]
    field that is an elementwise copy of the given dims. *)
Theorem create_N_is_product (g : garbage) (r : Z) (dims_in : list Z) :
  r = Z.of_nat (length dims_in) -> r <= Int.max_signed ->
  Int.in_range (product dims_in) ->
  (forall buf, buf <> Null ->
     arrayh5_create_withdata g r dims_in buf =
     Ret {| rank := r; dims := Live dims_in;
            N := product dims_in; data := buf |})
  /\ (0 <= product dims_in ->
      arrayh5_create g r dims_in =
      Ret {| rank := r; dims := Live dims_in; N := product dims_in;
             data := Live (map (g_double g 66)
                             (seq 0 (Z.to_nat (product dims_in)))) |})
  /\ (r = 0 -> product dims_in = 1).
Proof.
  intros Hr Hmax Hprod. repeat split.
  - intros buf Hbuf. rewrite create_withdata_eq by assumption.
    rewrite Int_wrap_small by assumption. destruct buf; simpl; congruence.
  - intros Hpos. unfold arrayh5_create.
    rewrite create_withdata_eq by assumption.
    rewrite Int_wrap_small by assumption.
    rewrite CHK_MALLOC_Ret by assumption. reflexivity.
  - intros H0. destruct dims_in; [reflexivity|]. simpl in Hr. lia.
Qed.

Lemma create_N_is_product_witness :
  arrayh5_create zeroed 2 [2; 3] =
  Ret {| rank := 2; dims := Live [2; 3]; N := 6;
         data := Live (replicate 6 (S754_zero false)) |}.
Proof.
  destruct (create_N_is_product zeroed 2 [2; 3]) as (_ & H & _).
  - reflexivity.
  - unfold Int.max_signed. lia.
  - unfold Int.in_range, Int.min_signed, Int.max_signed, product. simpl. lia.
  - apply H. unfold product. simpl. lia.
Defined.

(** C7 as stated fails when the product of dims does not fit an [int]:
    for dims (65536, 65536) the field [N] is 0, not 4294967296. *)
Lemma create_N_overflow :
  exists a, arrayh5_create zeroed 2 [65536; 65536] = Ret a
            /\ N a = 0 /\ product [65536; 65536] = 4294967296
            /\ N a <> product [65536; 65536].
Proof.
  eexists. split; [vm_compute; reflexivity|].
  unfold product. simpl. repeat split; lia.
Qed.

(** ** The order of non-NaN doubles *)

Ltac cmp_cases :=
  repeat match goal with
  | |- context [Z.compare ?a ?b] => destruct (Z.compare_spec a b)
  | H : context [Z.compare ?a ?b] |- _ => destruct (Z.compare_spec a b)
  | |- context [Pos.compare_cont Eq ?a ?b] =>
      change (Pos.compare_cont Eq a b) with (Pos.compare a b);
      destruct (Pos.compare_spec a b)
  | H : context [Pos.compare_cont Eq ?a ?b] |- _ =>
      change (Pos.compare_cont Eq a b) with (Pos.compare a b) in H;
      destruct (Pos.compare_spec a b)
  end.

Ltac sf_cases :=
  unfold SFltb, SFgtb, SFleb, is_nan;
  repeat match goal with x : double |- _ => destruct x end; simpl;
  try discriminate; try reflexivity;
  repeat match goal with s : bool |- _ => destruct s end; simpl;
  try discriminate; try reflexivity;
  cmp_cases; simpl; try discriminate; try reflexivity; try lia.

Lemma SFltb_leb_trans (x y z : double) :
  SFltb x y = true -> SFleb y z = true -> SFleb x z = true.
Proof. sf_cases. Qed.

Lemma SFgtb_leb_trans (x y z : double) :
  SFgtb x y = true -> SFleb z y = true -> SFleb z x = true.
Proof. sf_cases. Qed.

Lemma SFltb_false_leb (x m : double) :
  is_nan x = false -> is_nan m = false -> SFltb x m = false -> SFleb m x = true.
Proof. sf_cases. Qed.

Lemma SFgtb_false_leb (x m : double) :
  is_nan x = false -> is_nan m = false -> SFgtb x m = false -> SFleb x m = true.
Proof. sf_cases. Qed.

Lemma SFleb_refl (x : double) : is_nan x = false -> SFleb x x = true.
Proof. sf_cases. Qed.

(** ** Range *)

Lemma is_minimum_singleton x : is_nan x = false -> is_minimum x [x].
Proof.
  intros Hx. split; [constructor|]. repeat constructor. now apply SFleb_refl.
Qed.

Lemma is_maximum_singleton x : is_nan x = false -> is_maximum x [x].
Proof.
  intros Hx. split; [constructor|]. repeat constructor. now apply SFleb_refl.
Qed.

Lemma is_minimum_snoc m l x :
  is_nan m = false -> is_nan x = false -> is_minimum m l ->
  is_minimum (if SFltb x m then x else m) (l ++ [x]).
Proof.
  intros Hm Hx [Hin Hle]. destruct (SFltb x m) eqn:Hlt; split.
  - apply elem_of_app. right. constructor.
  - apply Forall_app. split.
    + eapply Forall_impl; [exact Hle|]. intros y Hy.
      eapply SFltb_leb_trans; eassumption.
    + repeat constructor. now apply SFleb_refl.
  - apply elem_of_app. now left.
  - apply Forall_app. split; [assumption|].
    repeat constructor. now apply SFltb_false_leb.
Qed.

Lemma is_maximum_snoc m l x :
  is_nan m = false -> is_nan x = false -> is_maximum m l ->
  is_maximum (if SFgtb x m then x else m) (l ++ [x]).
Proof.
  intros Hm Hx [Hin Hle]. destruct (SFgtb x m) eqn:Hgt; split.
  - apply elem_of_app. right. constructor.
  - apply Forall_app. split.
    + eapply Forall_impl; [exact Hle|]. intros y Hy.
      eapply SFgtb_leb_trans; eassumption.
    + repeat constructor. now apply SFleb_refl.
  - apply elem_of_app. now left.
  - apply Forall_app. split; [assumption|].
    repeat constructor. now apply SFgtb_false_leb.
Qed.

Lemma is_minimum_not_nan m l :
  Forall (fun x => is_nan x = false) l -> m ∈ l -> is_nan m = false.
Proof. intros Hl Hm. rewrite Forall_forall in Hl. now apply Hl. Qed.

(** The scan of [arrayh5_getrange] after [k] iterations. *)
Lemma getrange_loop (buf : list double) x0 (k : nat) :
  buf !! 0%nat = Some x0 -> (k < length buf)%nat ->
  Forall (fun x => is_nan x = false) buf ->
  exists mn mx,
    foldM (fun i '(min, max) =>
             x ← load buf i;
             let min := if SFltb x min then x else min in
             y ← load buf i;
             let max := if SFgtb y max then y else max in
             Ret (min, max))
          (seqZ 1 (Z.of_nat k)) (x0, x0) = Ret (mn, mx)
    /\ is_minimum mn (take (Datatypes.S k) buf)
    /\ is_maximum mx (take (Datatypes.S k) buf).
Proof.
  intros H0 Hk Hnan. induction k as [|k IH].
  - exists x0, x0. destruct buf as [|b buf]; [discriminate|].
    simpl in H0. injection H0 as ->. simpl. rewrite take_0.
    apply Forall_cons in Hnan as [Hx _].
    auto using is_minimum_singleton, is_maximum_singleton.
  - destruct IH as (mn & mx & Hfold & Hmn & Hmx); [lia|].
    destruct (lookup_lt_is_Some_2 buf (Datatypes.S k)) as [x Hx]; [lia|].
    rewrite foldM_seqZ_S, Hfold. simpl.
    replace (1 + Z.of_nat k) with (Z.of_nat (Datatypes.S k)) by lia.
    rewrite (load_nat _ _ _ Hx). simpl.
    eexists _, _. split; [reflexivity|].
    assert (Hxn : is_nan x = false).
    { eapply is_minimum_not_nan; [exact Hnan|].
      eapply list_elem_of_lookup_2; eassumption. }
    assert (Hsub : forall m, m ∈ take (Datatypes.S k) buf -> is_nan m = false).
    { intros m Hm. eapply is_minimum_not_nan; [exact Hnan|].
      eapply subseteq_take; eassumption. }
    erewrite (take_S_r buf (Datatypes.S k)) by eassumption. split.
    + apply is_minimum_snoc; auto. apply Hsub, Hmn.
    + apply is_maximum_snoc; auto. apply Hsub, Hmx.
Qed.

(** C8 (as amended).  An array with N <= 0 (in particular N == 0) makes
    [arrayh5_getrange] fail with the empty-array condition ("no elements in
    array").  For an array with N > 0 elements none of which is NaN, it
    returns a least and a greatest element of data[0..N-1]; for the elements
    3, -1, 7, 2 under any rank and dims it returns min = -1 and max = 7.
    The array is passed by value and nothing is stored through it. *)
Theorem getrange_min_max (a : arrayh5) (buf : list double) :
  (N a <= 0 -> arrayh5_getrange a = Exit "no elements in array")
  /\ (0 < N a <= Int.max_signed -> data a = Live buf ->
      Z.of_nat (length buf) = N a ->
      Forall (fun x => is_nan x = false) buf ->
      exists mn mx,
        arrayh5_getrange a = Ret (mn, mx)
        /\ is_minimum mn buf /\ is_maximum mx buf)
  /\ (data a = Live [d_3; d_m1; d_7; d_2] -> N a = 4 ->
      arrayh5_getrange a = Ret (d_m1, d_7)).
Proof.
  repeat split.
  - intros HN. unfold arrayh5_getrange, CHECK.
    destruct (Z.ltb_spec 0 (N a)); [lia|reflexivity].
  - intros HN Hdata Hlen Hnan. unfold arrayh5_getrange, CHECK.
    destruct (Z.ltb_spec 0 (N a)); [|lia]. simpl. rewrite Hdata. simpl.
    destruct (lookup_lt_is_Some_2 buf 0%nat) as [x0 Hx0]; [lia|].
    destruct (getrange_loop buf x0 (Z.to_nat (N a - 1)) Hx0) as
      (mn & mx & Hfold & Hmn & Hmx); [lia|assumption|].
    rewrite Z2Nat.id in Hfold by lia.
    exists mn, mx. split.
    + rewrite (load_Ret buf 0 x0) by (simpl; auto with zarith). simpl.
      rewrite for_int_foldM by (unfold Int.min_signed; lia). exact Hfold.
    + rewrite take_ge in Hmn, Hmx by lia. auto.
  - intros Hdata HN. unfold arrayh5_getrange. rewrite Hdata, HN.
    vm_compute. reflexivity.
Qed.

Lemma getrange_min_max_witness :
  exists mn mx,
    arrayh5_getrange {| rank := 2; dims := Live [2; 2]; N := 4;
                        data := Live [d_3; d_m1; d_7; d_2] |} = Ret (mn, mx)
    /\ is_minimum mn [d_3; d_m1; d_7; d_2]
    /\ is_maximum mx [d_3; d_m1; d_7; d_2].
Proof.
  destruct (getrange_min_max
              {| rank := 2; dims := Live [2; 2]; N := 4;
                 data := Live [d_3; d_m1; d_7; d_2] |}
              [d_3; d_m1; d_7; d_2]) as (_ & H & _).
  apply H.
  - simpl. unfold Int.max_signed. lia.
  - reflexivity.
  - reflexivity.
  - repeat constructor.
Defined.

(** C8 as stated fails on NaN: for the elements (NaN, 1) the scan returns
    (NaN, NaN), which is neither below nor above 1, while for the same
    elements in the order (1, NaN) it returns (1, 1). *)
Lemma getrange_nan_unordered :
  arrayh5_getrange {| rank := 1; dims := Live [2]; N := 2;
                      data := Live [S754_nan; d_1] |}
    = Ret (S754_nan, S754_nan)
  /\ ~ is_minimum S754_nan [S754_nan; d_1]
  /\ ~ is_maximum S754_nan [S754_nan; d_1]
  /\ arrayh5_getrange {| rank := 1; dims := Live [2]; N := 2;
                         data := Live [d_1; S754_nan] |}
     = Ret (d_1, d_1).
Proof.
  split; [vm_compute; reflexivity|]. split; [|split].
  - intros [_ H]. apply Forall_cons in H as [H _]. discriminate H.
  - intros [_ H]. apply Forall_cons in H as [H _]. discriminate H.
  - vm_compute. reflexivity.
Qed.

(** ** Row-major offsets *)

Lemma product_pos l : Forall (fun d => 1 <= d) l -> 1 <= product l.
Proof.
  induction 1 as [|d l Hd _ IH]; unfold product in *; simpl; [lia|nia].
Qed.

Lemma product_nonneg l : Forall (fun d => 0 <= d) l -> 0 <= product l.
Proof.
  induction 1 as [|d l Hd _ IH]; unfold product in *; simpl; [lia|nia].
Qed.

Lemma product_cons d l : product (d :: l) = d * product l.
Proof. reflexivity. Qed.

Lemma div_mod_block i A q :
  0 <= q < A -> (i * A + q) / A = i /\ (i * A + q) mod A = q.
Proof.
  intros Hq. split.
  - symmetry. apply (Z.div_unique _ _ _ q); lia.
  - symmetry. apply (Z.mod_unique _ _ i); lia.
Qed.

Lemma toffset_range dims p :
  Forall (fun d => 1 <= d) dims -> 0 <= p < product dims ->
  0 <= toffset dims p < product dims.
Proof.
  intros Hd. revert p. induction Hd as [|d rest Hd1 Hrest IH]; intros p Hp.
  - simpl. unfold product. simpl. lia.
  - simpl. rewrite product_cons in *.
    pose proof (product_pos rest Hrest) as HP.
    pose proof (Z.mod_pos_bound p (product rest) ltac:(lia)) as Hm.
    specialize (IH _ Hm).
    assert (0 <= p / product rest < d).
    { split; [apply Z.div_pos; lia|]. apply Z.div_lt_upper_bound; lia. }
    nia.
Qed.

Lemma toffset_snoc l d p :
  Forall (fun d => 1 <= d) l -> 1 <= d -> 0 <= p < product l * d ->
  toffset (l ++ [d]) p = toffset l (p / d) + (p mod d) * product l.
Proof.
  intros Hl Hd. revert p. induction Hl as [|a l Ha Hl IH]; intros p Hp.
  - simpl. unfold product in *. simpl in *.
    rewrite Z.div_1_r, Z.mod_small by lia. lia.
  - simpl. rewrite product_cons, product_snoc in *.
    pose proof (product_pos l Hl) as HP.
    rewrite IH by (apply Z.mod_pos_bound; lia).
    rewrite (Z.mul_comm (product l) d).
    rewrite Z.rem_mul_r by lia.
    replace (p mod d + d * ((p / d) mod product l)) with
      (((p / d) mod product l) * d + p mod d) by ring.
    pose proof (Z.mod_pos_bound p d ltac:(lia)) as Hm.
    destruct (div_mod_block ((p / d) mod product l) d (p mod d) Hm) as [-> ->].
    rewrite <- Z.div_div by lia. ring.
Qed.

Lemma toffset_involutive dims p :
  Forall (fun d => 1 <= d) dims -> 0 <= p < product dims ->
  toffset (reverse dims) (toffset dims p) = p.
Proof.
  intros Hd. revert p. induction Hd as [|d rest Hd1 Hrest IH]; intros p Hp.
  - simpl in *. unfold product in Hp. simpl in Hp. lia.
  - rewrite reverse_cons. simpl. rewrite product_cons in Hp.
    pose proof (product_pos rest Hrest) as HP.
    pose proof (Z.mod_pos_bound p (product rest) ltac:(lia)) as Hm.
    pose proof (toffset_range rest _ Hrest Hm) as Ht.
    assert (Hq : 0 <= p / product rest < d).
    { split; [apply Z.div_pos; lia|]. apply Z.div_lt_upper_bound; lia. }
    rewrite toffset_snoc;
      [|now apply Forall_reverse|lia|rewrite product_reverse; nia].
    replace (p / product rest + d * toffset rest (p mod product rest)) with
      (toffset rest (p mod product rest) * d + p / product rest) by ring.
    destruct (div_mod_block (toffset rest (p mod product rest)) d
                (p / product rest) Hq) as [-> ->].
    rewrite IH, product_reverse by assumption.
    pose proof (Z.div_mod p (product rest) ltac:(lia)). lia.
Qed.

(** ** The stride products of [rtranspose] *)

Lemma product_loop (dims : list Z) (lo k : nat) q :
  (lo + k <= length dims)%nat ->
  foldM (fun i p => d ← load dims i; Ret (Int.mul p d))
        (seqZ (Z.of_nat lo) (Z.of_nat k)) (Int.wrap q)
  = Ret (Int.wrap (q * product (take k (drop lo dims)))).
Proof.
  intros Hk. induction k as [|k IH].
  - rewrite take_0. unfold product. simpl. now rewrite Z.mul_1_r.
  - rewrite foldM_seqZ_S, IH by lia. simpl.
    destruct (lookup_lt_is_Some_2 dims (lo + k)%nat) as [d Hd]; [lia|].
    replace (Z.of_nat lo + Z.of_nat k) with (Z.of_nat (lo + k)) by lia.
    rewrite (load_nat _ _ _ Hd). simpl. f_equal.
    unfold Int.mul. rewrite Int_wrap_mul_l. f_equal.
    rewrite (product_take_S _ _ d) by (now rewrite lookup_drop). ring.
Qed.

Lemma prod_before_loop (dims : list Z) (c : nat) :
  (c <= length dims)%nat -> Z.of_nat c <= Int.max_signed ->
  for_int 0 (Z.of_nat c) (fun i p => d ← load dims i; Ret (Int.mul p d)) 1
  = Ret (Int.wrap (product (take c dims))).
Proof.
  intros Hc Hmax. rewrite for_int_foldM by (unfold Int.min_signed; lia).
  rewrite Z.sub_0_r. change 0 with (Z.of_nat 0). change 1 with (Int.wrap 1).
  rewrite product_loop by (simpl; lia).
  rewrite drop_0, Z.mul_1_l. reflexivity.
Qed.

Lemma prod_after_loop (dims : list Z) (c : nat) :
  (c <= length dims)%nat -> Z.of_nat (length dims) <= Int.max_signed ->
  for_int (Z.of_nat c) (Z.of_nat (length dims))
    (fun i p => d ← load dims i; Ret (Int.mul p d)) 1
  = Ret (Int.wrap (product (drop c dims))).
Proof.
  intros Hc Hmax. rewrite for_int_foldM by (unfold Int.min_signed; lia).
  replace (Z.of_nat (length dims) - Z.of_nat c)
    with (Z.of_nat (length dims - c)) by lia.
  change 1 with (Int.wrap 1).
  rewrite product_loop by lia.
  rewrite take_ge by (rewrite length_drop; lia).
  now rewrite Z.mul_1_l.
Qed.

Lemma foldM_id {S : Type} (body : Z -> S -> result S) l (s : S) :
  (forall i s', i ∈ l -> body i s' = Ret s') -> foldM body l s = Ret s.
Proof.
  induction l as [|i l IH]; intros H; simpl; [reflexivity|].
  rewrite H by constructor. simpl. apply IH. intros. apply H. now constructor.
Qed.

Lemma foldM_nested {S : Type} (F : Z -> S -> result S) (n : nat) A (s : S) :
  0 <= A ->
  foldM (fun i acc => foldM (fun q acc' => F (i * A + q) acc') (seqZ 0 A) acc)
        (seqZ 0 (Z.of_nat n)) s
  = foldM F (seqZ 0 (Z.of_nat n * A)) s.
Proof.
  intros HA. induction n as [|n IH].
  - reflexivity.
  - rewrite foldM_seqZ_S, IH.
    replace (Z.of_nat (Datatypes.S n) * A) with (Z.of_nat n * A + A) by lia.
    rewrite seqZ_app by nia. rewrite foldM_app.
    destruct (foldM F (seqZ 0 (Z.of_nat n * A)) s) as [s'| | |]; simpl; auto.
    rewrite !Z.add_0_l.
    rewrite <- (foldM_map F (fun q => Z.of_nat n * A + q)).
    f_equal. change (map (λ q : Z, Z.of_nat n * A + q) (seqZ 0 A))
      with (Z.add (Z.of_nat n * A) <$> seqZ 0 A).
    rewrite fmap_add_seqZ. now rewrite Z.add_0_r.
Qed.

(** ** The recursive copy of [rtranspose] *)

Lemma rtranspose_unfold depth curdim rank dims curindex curindex_t data data_t :
  rtranspose depth curdim rank dims curindex curindex_t data data_t =
  if rank =? 0 then
    x ← load data 0;
    store data_t 0 x
  else
    prod_before ←
      for_int 0 curdim
        (fun i p => d ← load dims i; Ret (Int.mul p d)) 1;
    prod_after ←
      for_int (Int.add curdim 1) rank
        (fun i p => d ← load dims i; Ret (Int.mul p d)) 1;
    n ← load dims curdim;
    if curdim =? Int.sub rank 1 then
      for_int 0 n
        (fun i data_t =>
           x ← load data (Int.add curindex i);
           store data_t (Int.add curindex_t (Int.mul i prod_before)) x)
        data_t
    else
      match depth with
      | O => Fuel
      | Datatypes.S depth' =>
        for_int 0 n
          (fun i data_t =>
             rtranspose depth' (Int.add curdim 1) rank dims
               (Int.add curindex (Int.mul i prod_after))
               (Int.add curindex_t (Int.mul i prod_before))
               data data_t)
          data_t
      end.
Proof. destruct depth; reflexivity. Qed.

Lemma split_at (dims : list Z) (c : nat) n :
  dims !! c = Some n ->
  drop c dims = n :: drop (Datatypes.S c) dims
  /\ take (Datatypes.S c) dims = take c dims ++ [n]
  /\ product dims =
     product (take c dims) * (n * product (drop (Datatypes.S c) dims)).
Proof.
  intros Hn. split; [|split].
  - now apply drop_S.
  - now apply take_S_r.
  - rewrite <- (take_drop_middle dims c n Hn) at 1.
    now rewrite product_app, product_cons.
Qed.

Ltac int_range :=
  unfold Int.in_range, Int.min_signed, Int.max_signed in *; nia.

(** One call of [rtranspose] on positive extents whose product fits an
    [int]: no arithmetic wraps around. *)
Lemma rtranspose_step depth (c : nat) (dims : list Z) n s t
    (data data_t : list double) :
  Forall (fun d => 1 <= d) dims ->
  product dims <= Int.max_signed ->
  Z.of_nat (length dims) <= Int.max_signed ->
  dims !! c = Some n ->
  0 <= s -> s + n * product (drop (Datatypes.S c) dims) <= product dims ->
  0 <= t < product (take c dims) ->
  rtranspose depth (Z.of_nat c) (Z.of_nat (length dims)) dims s t data data_t =
  if Z.of_nat c =? Z.of_nat (length dims) - 1 then
    foldM (fun i acc =>
             x ← load data (s + i);
             store acc (t + i * product (take c dims)) x)
          (seqZ 0 n) data_t
  else
    match depth with
    | O => Fuel
    | Datatypes.S depth' =>
      foldM (fun i acc =>
               rtranspose depth' (Z.of_nat (Datatypes.S c))
                 (Z.of_nat (length dims)) dims
                 (s + i * product (drop (Datatypes.S c) dims))
                 (t + i * product (take c dims)) data acc)
            (seqZ 0 n) data_t
    end.
Proof.
  intros Hpos HN Hrank Hn Hs Hs' Ht.
  pose proof (lookup_lt_Some _ _ _ Hn) as Hc.
  destruct (split_at dims c n Hn) as (Hdrop & Htake & Hprod).
  assert (HB : 1 <= product (take c dims))
    by (apply product_pos; now apply Forall_take).
  assert (HA : 1 <= product (drop (Datatypes.S c) dims))
    by (apply product_pos; now apply Forall_drop).
  assert (Hn1 : 1 <= n) by (rewrite Forall_lookup in Hpos; exact (Hpos _ _ Hn)).
  set (B := product (take c dims)) in *.
  set (A := product (drop (Datatypes.S c) dims)) in *.
  assert (HBA : B * n <= product dims /\ n * A <= product dims
                /\ B <= product dims /\ A <= product dims) by nia.
  rewrite rtranspose_unfold.
  destruct (Z.eqb_spec (Z.of_nat (length dims)) 0) as [?|_]; [lia|].
  rewrite prod_before_loop by lia. simpl.
  rewrite (Int_add_small (Z.of_nat c) 1) by int_range.
  replace (Z.of_nat c + 1) with (Z.of_nat (Datatypes.S c)) by lia.
  rewrite prod_after_loop by lia. simpl.
  rewrite (load_nat _ _ _ Hn). simpl.
  fold B A. rewrite (Int_wrap_small B), (Int_wrap_small A) by int_range.
  rewrite (Int_sub_small (Z.of_nat (length dims)) 1) by int_range.
  destruct (Z.eqb_spec (Z.of_nat c) (Z.of_nat (length dims) - 1)) as [Hlast|Hin].
  - rewrite for_int_foldM by int_range. rewrite Z.sub_0_r.
    apply foldM_ext. intros i acc Hi. apply elem_of_seqZ in Hi.
    assert (0 <= i * B /\ t + i * B < B * n /\ i < n * A) by nia.
    rewrite (Int_add_small s i) by int_range.
    rewrite (Int_mul_small i B) by int_range.
    rewrite (Int_add_small t (i * B)) by int_range. reflexivity.
  - destruct depth as [|depth]; [reflexivity|].
    rewrite for_int_foldM by int_range. rewrite Z.sub_0_r.
    apply foldM_ext. intros i acc Hi. apply elem_of_seqZ in Hi.
    assert (0 <= i * B /\ t + i * B < B * n
            /\ 0 <= i * A /\ i * A < n * A) by nia.
    rewrite (Int_mul_small i B), (Int_mul_small i A) by int_range.
    rewrite (Int_add_small s (i * A)), (Int_add_small t (i * B)) by int_range.
    reflexivity.
Qed.

(** The whole copy below dimension [c], as one loop over the flat offsets
    of the sub-array it traverses. *)
Lemma rtranspose_fold depth :
  forall (c : nat) (dims : list Z) s t (data data_t : list double),
  Forall (fun d => 1 <= d) dims ->
  product dims <= Int.max_signed ->
  Z.of_nat (length dims) <= Int.max_signed ->
  (c < length dims)%nat -> (length dims - 1 - c <= depth)%nat ->
  0 <= s -> s + product (drop c dims) <= product dims ->
  0 <= t < product (take c dims) ->
  rtranspose depth (Z.of_nat c) (Z.of_nat (length dims)) dims s t data data_t =
  foldM (fun p acc =>
           x ← load data (s + p);
           store acc (t + product (take c dims) * toffset (drop c dims) p) x)
        (seqZ 0 (product (drop c dims))) data_t.
Proof.
  induction depth as [|depth IH];
    intros c dims s t data data_t Hpos HN Hrank Hc Hdepth Hs Hs' Ht;
    destruct (lookup_lt_is_Some_2 dims c Hc) as [n Hn];
    destruct (split_at dims c n Hn) as (Hdrop & Htake & Hprod);
    assert (HB : 1 <= product (take c dims))
      by (apply product_pos; now apply Forall_take);
    assert (HA : 1 <= product (drop (Datatypes.S c) dims))
      by (apply product_pos; now apply Forall_drop);
    assert (Hn1 : 1 <= n)
      by (rewrite Forall_lookup in Hpos; exact (Hpos _ _ Hn));
    rewrite Hdrop in *; rewrite product_cons in *;
    rewrite (rtranspose_step _ c dims n) by assumption;
    destruct (Z.eqb_spec (Z.of_nat c) (Z.of_nat (length dims) - 1))
      as [Hlast|Hin]; try lia.
  1, 2: (* the innermost dimension *)
    rewrite (drop_ge dims (Datatypes.S c)) by lia;
    change (product []) with 1; rewrite Z.mul_1_r;
    apply foldM_ext; intros i acc Hi; simpl;
    change (product []) with 1; rewrite Z.div_1_r;
    do 2 f_equal; lia.
  (* an outer dimension *)
  set (B := product (take c dims)) in *.
  set (A := product (drop (Datatypes.S c) dims)) in *.
  rewrite <- (Z2Nat.id n) at 2 by lia.
  rewrite <- foldM_nested by lia. rewrite Z2Nat.id by lia.
  apply foldM_ext. intros i acc Hi. apply elem_of_seqZ in Hi.
  rewrite IH; try assumption; try lia.
  1: { fold A. rewrite Htake, product_snoc. fold B.
    apply foldM_ext. intros q acc' Hq. apply elem_of_seqZ in Hq.
    simpl. fold A.
    destruct (div_mod_block i A q ltac:(lia)) as [-> ->].
    replace (s + i * A + q) with (s + (i * A + q)) by ring.
    do 2 f_equal. ring. }
  all: rewrite ?Htake, ?product_snoc; fold A B; nia.
Qed.

(** A loop that copies [data[p]] to position [f p] of the destination, for
    an injective [f] from the offsets to the offsets. *)
Lemma scatter_loop (f : Z -> Z) (data acc : list double) (n k : nat) :
  length data = n -> length acc = n -> (k <= n)%nat ->
  (forall p, 0 <= p < Z.of_nat n -> 0 <= f p < Z.of_nat n) ->
  (forall p q, 0 <= p < Z.of_nat n -> 0 <= q < Z.of_nat n ->
               f p = f q -> p = q) ->
  exists out,
    foldM (fun p acc => x ← load data p; store acc (f p) x)
          (seqZ 0 (Z.of_nat k)) acc = Ret out
    /\ length out = n
    /\ forall p : nat, (p < k)%nat ->
         out !! Z.to_nat (f (Z.of_nat p)) = data !! p.
Proof.
  intros Hdata Hacc Hk Hrange Hinj. induction k as [|k IH].
  - exists acc. simpl. repeat split; auto. intros p Hp. lia.
  - destruct IH as (out & Hfold & Hlen & Hout); [lia|].
    destruct (lookup_lt_is_Some_2 data k) as [x Hx]; [lia|].
    pose proof (Hrange (Z.of_nat k) ltac:(lia)) as Hfk.
    exists (<[Z.to_nat (f (Z.of_nat k)) := x]> out).
    rewrite foldM_seqZ0_S, Hfold. simpl.
    rewrite (load_nat _ _ _ Hx). simpl.
    rewrite store_Ret by lia. split; [reflexivity|].
    split; [now rewrite length_insert|].
    intros p Hp. destruct (decide (p = k)) as [->|Hne].
    + rewrite list_lookup_insert_eq by lia. now rewrite Hx.
    + rewrite list_lookup_insert_ne; [apply Hout; lia|].
      intros Heq. apply Hne.
      pose proof (Hrange (Z.of_nat p) ltac:(lia)).
      assert (f (Z.of_nat k) = f (Z.of_nat p)) as Hf by lia.
      apply Hinj in Hf; lia.
Qed.

(** With an extent of zero at or below dimension [c], the copy touches no
    element (whatever the stride products wrapped to). *)
Lemma rtranspose_empty depth :
  forall (c : nat) (dims : list Z) s t (data data_t : list double),
  Forall (fun d => 0 <= d <= Int.max_signed) dims ->
  Z.of_nat (length dims) <= Int.max_signed ->
  (c < length dims)%nat -> (length dims - 1 - c <= depth)%nat ->
  (exists j, (c <= j)%nat /\ dims !! j = Some 0) ->
  rtranspose depth (Z.of_nat c) (Z.of_nat (length dims)) dims s t data data_t
  = Ret data_t.
Proof.
  induction depth as [|depth IH];
    intros c dims s t data data_t Hext Hrank Hc Hdepth (j & Hj & Hzero);
    destruct (lookup_lt_is_Some_2 dims c Hc) as [n Hn];
    assert (Hn0 : 0 <= n <= Int.max_signed)
      by (rewrite Forall_lookup in Hext; exact (Hext _ _ Hn));
    rewrite rtranspose_unfold;
    (destruct (Z.eqb_spec (Z.of_nat (length dims)) 0) as [?|_]; [lia|]);
    rewrite prod_before_loop by lia; simpl;
    rewrite (Int_add_small (Z.of_nat c) 1) by int_range;
    replace (Z.of_nat c + 1) with (Z.of_nat (Datatypes.S c)) by lia;
    rewrite prod_after_loop by lia; simpl;
    rewrite (load_nat _ _ _ Hn); simpl;
    rewrite (Int_sub_small (Z.of_nat (length dims)) 1) by int_range;
    destruct (Z.eqb_spec (Z.of_nat c) (Z.of_nat (length dims) - 1))
      as [Hlast|Hin]; try lia.
  1, 2: (* the innermost dimension has extent 0 *)
    assert (j = c) as -> by (apply lookup_lt_Some in Hzero; lia);
    assert (n = 0) as -> by congruence; reflexivity.
  rewrite for_int_foldM by int_range.
  apply foldM_id. intros i acc Hi. apply elem_of_seqZ in Hi.
  apply IH; try assumption; try lia.
  exists j. split; [|assumption].
  destruct (decide (j = c)) as [->|]; [|lia].
  assert (n = 0) by congruence. lia.
Qed.

(** ** The reversal of dims *)

Lemma swap_loop (ds : list Z) fuel :
  Z.of_nat (length ds) <= Int.max_signed ->
  forall (k : nat) (l : list Z),
  swapped ds k l -> (2 * k <= length ds)%nat ->
  (length ds / 2 - k <= fuel)%nat ->
  for_ fuel (fun i => Int.add i 1)
    (fun i => i <? Int.sub (Int.sub (Z.of_nat (length ds)) 1) i)
    (fun i a_dims =>
       dummy ← load a_dims i;
       x ← load a_dims (Int.sub (Int.sub (Z.of_nat (length ds)) 1) i);
       a_dims ← store a_dims i x;
       store a_dims (Int.sub (Int.sub (Z.of_nat (length ds)) 1) i) dummy)
    (Z.of_nat k) l
  = Ret (reverse ds).
Proof.
  set (r := length ds). intros Hr.
  rewrite (Int_sub_small (Z.of_nat r) 1) by int_range.
  induction fuel as [|fuel IH]; intros k l [Hlen Hl] Hk Hfuel;
    pose proof (Nat.div_mod_eq r 2) as Hdiv;
    pose proof (Nat.mod_upper_bound r 2 ltac:(lia)) as Hmod;
    cbn [for_];
    rewrite (Int_sub_small (Z.of_nat r - 1) (Z.of_nat k)) by int_range;
    destruct (Z.ltb_spec (Z.of_nat k) (Z.of_nat r - 1 - Z.of_nat k))
      as [Hlt|Hge]; try lia.
  1, 3: (* the loop is over *)
    f_equal; apply list_eq; intros j;
    destruct (decide (j < r)%nat) as [Hj|Hj];
    [ rewrite (Hl j Hj), reverse_lookup by (fold r; lia); fold r;
      destruct (decide (j < k \/ r - k <= j)%nat); [reflexivity|];
      f_equal; lia
    | rewrite !lookup_ge_None_2 by (rewrite ?length_reverse; fold r; lia);
      reflexivity ].
  (* one exchange *)
  destruct (lookup_lt_is_Some_2 ds k) as [a Ha]; [fold r; lia|].
  destruct (lookup_lt_is_Some_2 ds (r - Datatypes.S k)) as [b Hb];
    [fold r; lia|].
  assert (Hlk : l !! k = Some a).
  { rewrite Hl by (fold r; lia). fold r.
    destruct (decide (k < k \/ r - k <= k)%nat); [lia|assumption]. }
  assert (Hlb : l !! (r - Datatypes.S k)%nat = Some b).
  { rewrite Hl by (fold r; lia). fold r.
    destruct (decide (r - Datatypes.S k < k \/ r - k <= r - Datatypes.S k)%nat);
      [lia|assumption]. }
  replace (Z.of_nat r - 1 - Z.of_nat k) with (Z.of_nat (r - Datatypes.S k))
    by lia.
  rewrite (load_nat _ _ _ Hlk). simpl.
  rewrite (load_nat _ _ _ Hlb). simpl.
  rewrite store_Ret by lia. simpl.
  rewrite store_Ret by (rewrite length_insert; lia). simpl.
  rewrite !Nat2Z.id.
  rewrite (Int_add_small (Z.of_nat k) 1) by int_range.
  replace (Z.of_nat k + 1) with (Z.of_nat (Datatypes.S k)) by lia.
  apply IH; try assumption; try lia.
  split; [now rewrite !length_insert|].
  intros j Hj. fold r in Hj |- *.
  destruct (decide (j = r - Datatypes.S k)%nat) as [->|Hj1].
  { rewrite list_lookup_insert_eq by (rewrite length_insert; lia).
    destruct (decide (r - Datatypes.S k < Datatypes.S k
                      \/ r - Datatypes.S k <= r - Datatypes.S k)%nat); [|lia].
    rewrite <- Ha. f_equal. lia. }
  rewrite list_lookup_insert_ne by lia.
  destruct (decide (j = k)) as [->|Hj2].
  { rewrite list_lookup_insert_eq by lia.
    destruct (decide (k < Datatypes.S k \/ r - Datatypes.S k <= k)%nat); [|lia].
    now rewrite <- Hb. }
  rewrite list_lookup_insert_ne by lia. rewrite Hl by assumption. fold r.
  destruct (decide (j < k \/ r - k <= j)%nat),
           (decide (j < Datatypes.S k \/ r - Datatypes.S k <= j)%nat);
    try reflexivity; lia.
Qed.

Lemma swapped_0 (ds : list Z) : swapped ds 0 ds.
Proof.
  split; [reflexivity|]. intros j Hj.
  destruct (decide (j < 0 \/ length ds - 0 <= j)%nat); [lia|reflexivity].
Qed.

Lemma product_zero (ds : list Z) j : ds !! j = Some 0 -> product ds = 0.
Proof.
  intros Hj. rewrite <- (take_drop_middle ds j 0 Hj).
  rewrite product_app, product_cons. lia.
Qed.

Lemma extents_cases (ds : list Z) :
  Forall (fun d => 0 <= d <= Int.max_signed) ds ->
  Forall (fun d => 1 <= d) ds \/ exists j, ds !! j = Some 0.
Proof.
  induction 1 as [|d ds Hd _ [IH|[j Hj]]].
  - left. constructor.
  - destruct (decide (d = 0)) as [->|Hd0].
    + right. now exists 0%nat.
    + left. constructor; [lia|assumption].
  - right. now exists (Datatypes.S j).
Qed.

(** ** Transpose *)

(** The top-level call of [rtranspose]: every element lands at the offset
    with the reversed multi-index. *)
Lemma rtranspose_top (ds : list Z) (xs data_t : list double) :
  Forall (fun d => 0 <= d <= Int.max_signed) ds ->
  Z.of_nat (length ds) <= Int.max_signed ->
  product ds <= Int.max_signed ->
  Z.of_nat (length xs) = product ds ->
  length data_t = length xs ->
  exists ys,
    rtranspose (length ds) 0 (Z.of_nat (length ds)) ds 0 0 xs data_t = Ret ys
    /\ length ys = length xs
    /\ forall q : nat, (q < length xs)%nat ->
         ys !! q = xs !! Z.to_nat (toffset (reverse ds) (Z.of_nat q)).
Proof.
  intros Hext Hrank HN Hlen Hdata_t.
  destruct ds as [|d0 ds'].
  { (* rank 0: one scalar *)
    rewrite rtranspose_unfold. simpl.
    change (product []) with 1 in Hlen.
    destruct xs as [|x [|? ?]]; simpl in Hlen; try lia.
    destruct data_t as [|y [|? ?]]; simpl in Hdata_t; try lia.
    exists [x]. repeat split.
    intros q Hq. simpl in Hq. assert (q = 0)%nat as -> by lia. reflexivity. }
  set (ds := d0 :: ds') in *.
  assert (Hnonempty : (0 < length ds)%nat) by (simpl; lia).
  change 0 with (Z.of_nat 0) at 1.
  destruct (extents_cases ds Hext) as [Hpos|[j Hj]].
  - (* all extents positive *)
    rewrite rtranspose_fold; try assumption; try lia; cycle 1.
    { rewrite drop_0. lia. }
    { rewrite take_0. change (product []) with 1. lia. }
    rewrite drop_0, take_0. change (product []) with 1.
    rewrite (foldM_ext _ (fun p acc => x ← load xs p;
                                       store acc (toffset ds p) x)); cycle 1.
    { intros p acc _. rewrite !Z.add_0_l, Z.mul_1_l. reflexivity. }
    assert (Hinv : forall p, 0 <= p < product ds ->
                     toffset (reverse ds) (toffset ds p) = p)
      by (intros; now apply toffset_involutive).
    assert (Hinv' : forall q, 0 <= q < product ds ->
                      toffset ds (toffset (reverse ds) q) = q).
    { intros q Hq. rewrite <- (reverse_involutive ds) at 1.
      apply toffset_involutive; [now apply Forall_reverse|].
      now rewrite product_reverse. }
    destruct (scatter_loop (toffset ds) xs data_t (length xs) (length xs))
      as (out & Hfold & Hout_len & Hout); auto.
    { intros p Hp. rewrite Hlen in *. now apply toffset_range. }
    { intros p q Hp Hq Heq. rewrite Hlen in *.
      rewrite <- (Hinv p), <- (Hinv q) by assumption. now rewrite Heq. }
    rewrite <- Hlen, Hfold.
    exists out. repeat split; [assumption|].
    intros q Hq.
    assert (Hq' : 0 <= Z.of_nat q < product ds) by lia.
    pose proof (toffset_range (reverse ds) (Z.of_nat q)
                  ltac:(now apply Forall_reverse)
                  ltac:(now rewrite product_reverse)) as Hr.
    rewrite product_reverse in Hr.
    specialize (Hout (Z.to_nat (toffset (reverse ds) (Z.of_nat q)))
                  ltac:(lia)).
    rewrite Z2Nat.id, (Hinv' _ Hq'), Nat2Z.id in Hout by lia.
    exact Hout.
  - (* an extent is zero: there is no element *)
    rewrite rtranspose_empty; try assumption; try lia;
      [|exists j; split; [lia|assumption]].
    exists data_t. repeat split; [assumption|].
    intros q Hq. rewrite (product_zero ds j Hj) in Hlen. lia.
Qed.

(** What [arrayh5_transpose] computes on a well-formed array: the dims
    are reversed, and the element at offset [q] of the new buffer is the
    one that was at the offset with the reversed multi-index. *)
Lemma transpose_spec (g : garbage) (a : arrayh5) ds xs :
  well_formed a ds xs ->
  exists ys,
    arrayh5_transpose g a =
      Ret {| rank := rank a; dims := Live (reverse ds);
             N := N a; data := Live ys |}
    /\ length ys = length xs
    /\ forall q : nat, (q < length xs)%nat ->
         ys !! q = xs !! Z.to_nat (toffset (reverse ds) (Z.of_nat q)).
Proof.
  intros [Hdims Hdata Hrank Hext HN Hlen Hrank_int HN_int].
  assert (HN0 : 0 <= N a) by lia.
  destruct (rtranspose_top ds xs
              (map (g_double g 134) (seq 0 (Z.to_nat (N a)))))
    as (ys & Hrt & Hys); try assumption; try lia.
  { rewrite length_malloc. lia. }
  exists ys. split; [|exact Hys].
  unfold arrayh5_transpose.
  rewrite CHK_MALLOC_Ret by assumption. simpl.
  rewrite Hdims, Hdata, Hrank, Nat2Z.id. simpl.
  rewrite Hrt. simpl. change 0 with (Z.of_nat 0).
  rewrite swap_loop; [reflexivity|lia|apply swapped_0|lia|].
  pose proof (Nat.div_mod_eq (length ds) 2). lia.
Qed.

Lemma transpose_well_formed (a : arrayh5) ds xs ys :
  well_formed a ds xs -> length ys = length xs ->
  well_formed {| rank := rank a; dims := Live (reverse ds);
                 N := N a; data := Live ys |} (reverse ds) ys.
Proof.
  intros [Hdims Hdata Hrank Hext HN Hlen Hrank_int HN_int] Hys.
  split; simpl; try assumption; try reflexivity.
  - now rewrite length_reverse.
  - now apply Forall_reverse.
  - now rewrite product_reverse.
  - now rewrite Hys.
Qed.

Lemma conformant_same (a b : arrayh5) ds :
  rank a = rank b -> rank a = Z.of_nat (length ds) ->
  rank a <= Int.max_signed ->
  dims a = Live ds -> dims b = Live ds ->
  arrayh5_conformant a b = Ret 1.
Proof.
  intros Hab Hrank Hint Ha Hb. unfold arrayh5_conformant.
  rewrite <- Hab, Z.eqb_refl. simpl.
  rewrite for_int_foldM by int_range.
  rewrite foldM_id; [reflexivity|].
  intros i r Hi. apply elem_of_seqZ in Hi.
  destruct r as [v|]; [reflexivity|].
  rewrite Ha, Hb. simpl.
  destruct (lookup_lt_is_Some_2 ds (Z.to_nat i)) as [x Hx]; [lia|].
  rewrite (load_Ret ds i x) by (auto; lia). simpl.
  now rewrite Z.eqb_refl.
Qed.

(** C1.  For every well-formed array (dims holds rank non-negative extents,
    N is their product, data holds N elements), applying
    [arrayh5_transpose] twice yields an array that [arrayh5_conformant]
    reports conformant to the original and whose elements equal the
    original's, position by position. *)
Theorem transpose_twice (g1 g2 : garbage) (a : arrayh5) ds xs :
  well_formed a ds xs ->
  exists a1 a2,
    arrayh5_transpose g1 a = Ret a1
    /\ arrayh5_transpose g2 a1 = Ret a2
    /\ arrayh5_conformant a2 a = Ret 1
    /\ dims a2 = dims a
    /\ data a2 = data a.
Proof.
  intros Hwf.
  destruct (transpose_spec g1 a ds xs Hwf) as (ys & Ht1 & Hlen1 & Hys).
  pose proof (transpose_well_formed a ds xs ys Hwf Hlen1) as Hwf1.
  destruct (transpose_spec g2 _ _ _ Hwf1) as (zs & Ht2 & Hlen2 & Hzs).
  simpl in Ht2. rewrite reverse_involutive in Ht2, Hzs.
  eexists _, _. split; [exact Ht1|]. split; [exact Ht2|].
  destruct Hwf as [Hdims Hdata Hrank Hext HN Hlen Hrank_int HN_int].
  split; [|split]; simpl.
  - apply (conformant_same _ _ ds); simpl; auto.
  - now rewrite Hdims.
  - rewrite Hdata. f_equal. apply list_eq. intros q.
    destruct (decide (q < length xs)%nat) as [Hq|Hq].
    + rewrite Hzs by lia.
      destruct (extents_cases ds Hext) as [Hpos|[j Hj]].
      * assert (Hq' : 0 <= Z.of_nat q < product ds) by lia.
        pose proof (toffset_range ds _ Hpos Hq') as Hr.
        rewrite Hys by lia.
        rewrite Z2Nat.id by lia.
        rewrite toffset_involutive by assumption.
        now rewrite Nat2Z.id.
      * rewrite (product_zero ds j Hj) in HN. lia.
    + rewrite !lookup_ge_None_2 by lia. reflexivity.
Qed.

(** Well-formedness of a concrete array, by evaluation. *)
Ltac well_formed_by_evaluation :=
  split; unfold product; simpl; try reflexivity;
  try (repeat constructor; unfold Int.max_signed; lia);
  unfold Int.max_signed; lia.

Lemma transpose_twice_witness :
  exists a1 a2,
    arrayh5_transpose zeroed A23 = Ret a1
    /\ arrayh5_transpose zeroed a1 = Ret a2
    /\ arrayh5_conformant a2 A23 = Ret 1
    /\ dims a2 = dims A23
    /\ data a2 = data A23.
Proof.
  apply (transpose_twice zeroed zeroed A23 [2; 3]
           [d_1; d_2; d_3; d_4; d_5; d_6]).
  well_formed_by_evaluation.
Defined.

(** C2.  For every rank-2 array of shape (R, C), [arrayh5_transpose]
    produces an array of shape (C, R) with result[j][i] == original[i][j]
    for all 0 <= i < R, 0 <= j < C (row-major: result[j][i] is at offset
    j * R + i, original[i][j] at offset i * C + j); the shape-(2,3) array
    with row-major values 1, 2, 3, 4, 5, 6 becomes the shape-(3,2) array
    with row-major values 1, 4, 2, 5, 3, 6. *)
Theorem transpose_rank2 (g : garbage) (a : arrayh5) (R C : Z) xs :
  well_formed a [R; C] xs ->
  (exists ys,
     arrayh5_transpose g a =
       Ret {| rank := 2; dims := Live [C; R]; N := N a; data := Live ys |}
     /\ forall i j, 0 <= i < R -> 0 <= j < C ->
          exists v, ys !! Z.to_nat (j * R + i) = Some v
                    /\ xs !! Z.to_nat (i * C + j) = Some v)
  /\ arrayh5_transpose g A23 =
       Ret {| rank := 2; dims := Live [3; 2]; N := 6;
              data := Live [d_1; d_4; d_2; d_5; d_3; d_6] |}.
Proof.
  intros Hwf. split.
  - destruct (transpose_spec g a _ _ Hwf) as (ys & Ht & Hlen & Hys).
    destruct Hwf as [Hdims Hdata Hrank Hext HN Hlen' Hrank_int HN_int].
    simpl in Hrank. rewrite Hrank in Ht.
    exists ys. split; [exact Ht|].
    intros i j Hi Hj.
    change (product [R; C]) with (R * (C * 1)) in HN.
    assert (Hq : 0 <= j * R + i < R * C) by nia.
    assert (Hp : 0 <= i * C + j < R * C) by nia.
    destruct (lookup_lt_is_Some_2 xs (Z.to_nat (i * C + j))) as [v Hv]; [lia|].
    exists v. split; [|exact Hv].
    rewrite Hys by lia. rewrite Z2Nat.id by lia.
    change (reverse [R; C]) with [C; R]. simpl.
    change (product [R]) with (R * 1). change (product []) with 1.
    rewrite Z.mul_1_r, Z.div_1_r.
    destruct (div_mod_block j R i Hi) as [-> ->].
    rewrite <- Hv. f_equal. lia.
  - vm_compute. reflexivity.
Qed.

Lemma transpose_rank2_witness :
  exists ys,
    arrayh5_transpose zeroed A23 =
      Ret {| rank := 2; dims := Live [3; 2]; N := N A23; data := Live ys |}
    /\ forall i j, 0 <= i < 2 -> 0 <= j < 3 ->
         exists v, ys !! Z.to_nat (j * 2 + i) = Some v
                   /\ [d_1; d_2; d_3; d_4; d_5; d_6] !! Z.to_nat (i * 3 + j)
                      = Some v.
Proof.
  apply (transpose_rank2 zeroed A23 2 3 [d_1; d_2; d_3; d_4; d_5; d_6]).
  well_formed_by_evaluation.
Defined.

(** C10.  For every well-formed array of rank 0 or rank 1,
    [arrayh5_transpose] is the identity on shape and contents: the dims
    sequence is unchanged and every element of the newly allocated buffer
    equals the corresponding element of the original buffer. *)
Theorem transpose_rank01 (g : garbage) (a : arrayh5) ds xs :
  well_formed a ds xs -> rank a = 0 \/ rank a = 1 ->
  arrayh5_transpose g a =
    Ret {| rank := rank a; dims := Live ds; N := N a; data := Live xs |}
  /\ arrayh5_transpose g a = Ret a.
Proof.
  intros Hwf Hr.
  destruct (transpose_spec g a _ _ Hwf) as (ys & Ht & Hlen & Hys).
  destruct Hwf as [Hdims Hdata Hrank Hext HN Hlen' Hrank_int HN_int].
  assert (Hrev : reverse ds = ds).
  { destruct ds as [|d [|? ?]]; simpl in Hrank; try reflexivity; lia. }
  assert (Heq : ys = xs).
  { apply list_eq. intros q.
    destruct (decide (q < length xs)%nat) as [Hq|Hq].
    - rewrite Hys by lia. rewrite Hrev. f_equal.
      destruct ds as [|d [|? ?]]; simpl in Hrank; try lia.
      + change (product []) with 1 in HN. simpl. lia.
      + simpl. change (product []) with 1.
        rewrite Z.div_1_r. lia.
    - rewrite !lookup_ge_None_2 by lia. reflexivity. }
  rewrite Ht, Hrev, Heq. split; [reflexivity|].
  destruct a; simpl in *. now subst.
Qed.

Lemma transpose_rank01_witness :
  arrayh5_transpose zeroed
    {| rank := 1; dims := Live [3]; N := 3; data := Live [d_3; d_m1; d_7] |}
  = Ret {| rank := 1; dims := Live [3]; N := 3;
           data := Live [d_3; d_m1; d_7] |}.
Proof.
  apply (transpose_rank01 zeroed
           {| rank := 1; dims := Live [3]; N := 3;
              data := Live [d_3; d_m1; d_7] |} [3] [d_3; d_m1; d_7]).
  - well_formed_by_evaluation.
  - right. reflexivity.
Defined.

(** ** Reading: loops *)

Lemma for_foldM {S : Type} fuel incr cond (body : Z -> S -> result S) lo
    (n : nat) (s : S) :
  (n <= fuel)%nat ->
  (forall i, lo <= i < lo + Z.of_nat n -> cond i = true /\ incr i = i + 1) ->
  cond (lo + Z.of_nat n) = false ->
  for_ fuel incr cond body lo s = foldM body (seqZ lo (Z.of_nat n)) s.
Proof.
  revert fuel lo s. induction n as [|n IH]; intros fuel lo s Hfuel Hstep Hstop.
  - rewrite Z.add_0_r in Hstop. destruct fuel; simpl; now rewrite Hstop.
  - destruct fuel as [|fuel]; [lia|].
    destruct (Hstep lo ltac:(lia)) as [Hc Hi].
    rewrite seqZ_cons by lia. simpl. rewrite Hc, Hi.
    destruct (body lo s) as [s'| | |]; simpl; auto.
    replace (Z.pred (Z.of_nat (Datatypes.S n))) with (Z.of_nat n) by lia.
    replace (Z.succ lo) with (lo + 1) by lia.
    apply IH; [lia| |].
    + intros i Hi'. apply Hstep. lia.
    + rewrite <- Hstop. f_equal. lia.
Qed.

Lemma Hsize_wrap_small z : Hsize.in_range z -> Hsize.wrap z = z.
Proof. unfold Hsize.in_range, Hsize.wrap. intros. now apply Z.mod_small. Qed.

Ltac hsize_range :=
  unfold Hsize.in_range, Hsize.modulus, Int.in_range, Int.min_signed,
    Int.max_signed in *; lia.

Lemma for_hsize_foldM {S : Type} (n : nat) (body : Z -> S -> result S) (s : S) :
  Z.of_nat n <= Int.max_signed ->
  for_hsize 0 (Z.of_nat n) body s = foldM body (seqZ 0 (Z.of_nat n)) s.
Proof.
  intros Hn. unfold for_hsize. apply for_foldM.
  - lia.
  - intros i Hi. split; [apply Z.ltb_lt; lia|].
    unfold Hsize.add. apply Hsize_wrap_small. hsize_range.
  - apply Z.ltb_ge. lia.
Qed.

(** [for (i = 0; i < rank; ++i) dims[i] = dims_copy[i];] *)
Lemma convert_loop (dims_copy buf : list Z) (k : nat) :
  (k <= length dims_copy)%nat -> (k <= length buf)%nat ->
  foldM (fun i dims => x ← load dims_copy i; store dims i (Int.wrap x))
        (seqZ 0 (Z.of_nat k)) buf
  = Ret (take k (map Int.wrap dims_copy) ++ drop k buf).
Proof.
  intros Hk Hlen. induction k as [|k IH].
  - simpl. now rewrite drop_0.
  - rewrite foldM_seqZ0_S, IH by lia. simpl.
    destruct (lookup_lt_is_Some_2 dims_copy k) as [d Hd]; [lia|].
    rewrite (load_nat _ _ _ Hd). simpl.
    rewrite store_Ret
      by (rewrite length_app, length_take, length_drop, length_map; lia).
    f_equal. rewrite Nat2Z.id. apply insert_take_drop; [|lia].
    change (map Int.wrap dims_copy) with (Int.wrap <$> dims_copy).
    now rewrite list_lookup_fmap, Hd.
Qed.

(** ** Reading: up to the choice of the mode *)

Lemma read_body_select (w : world) (g : garbage) (a : arrayh5) fname datapath
    (d : dataset) slicedim islice :
  opens w fname datapath d -> readable d ->
  arrayh5_read_body w g a fname datapath slicedim islice =
  arrayh5_read_select w g (cleared a) d (H5Dget_space d)
    (Z.of_nat (length (ds_dims d))) (int_dims d) slicedim islice.
Proof.
  intros (file & found & dname & Hfile & Hname & Hfound & Hd) [Hrank Hext Hel].
  unfold arrayh5_read_body. rewrite Hfile, Hname.
  destruct (Z.leb_spec found 0); [lia|]. simpl. rewrite Hd.
  unfold H5Sget_simple_extent_ndims, H5Dget_space, H5Screate_simple. simpl.
  rewrite Nat2Z.id, firstn_all.
  rewrite Hsize_wrap_small by hsize_range.
  destruct (Z.leb_spec (Z.of_nat (length (ds_dims d))) 0); [lia|].
  rewrite !CHK_MALLOC_Ret by lia. simpl.
  rewrite for_hsize_foldM by lia.
  rewrite convert_loop by (rewrite ?length_malloc; lia). simpl.
  rewrite Nat2Z.id.
  rewrite drop_ge by (rewrite length_malloc; lia).
  rewrite app_nil_r, take_ge by (rewrite length_map; lia).
  reflexivity.
Qed.

Lemma read_done (w : world) (g : garbage) (a : arrayh5) fname datapath
    slicedim islice err a' :
  arrayh5_read_body w g a fname datapath slicedim islice = Ret (err, a') ->
  arrayh5_read w g (Some a) fname datapath slicedim islice =
  (a'' ← (if (3 <=? err) && (err <=? 4) then arrayh5_destroy a' else Ret a');
   Ret (err, a'')).
Proof. intros H. unfold arrayh5_read. now rewrite H. Qed.

(** C6 (as amended).  For every readable dataset (rank >= 1), a read
    request with 0 <= slicedim < rank and islice outside
    [0, dims[slicedim]), or with slicedim >= rank combined with nonzero
    islice, returns the invalid-selection status (InvalidSlice, 5) and
    produces no array: the dims and data fields of the output are null. *)
Theorem read_invalid_slice (w : world) (g : garbage) (a : arrayh5)
    fname datapath (d : dataset) slicedim islice :
  opens w fname datapath d -> readable d -> Int.in_range slicedim ->
  (exists x, 0 <= slicedim /\ int_dims d !! Z.to_nat slicedim = Some x
             /\ (islice < 0 \/ x <= islice))
  \/ (Z.of_nat (length (ds_dims d)) <= slicedim /\ islice <> 0) ->
  exists a',
    arrayh5_read w g (Some a) fname datapath slicedim islice = Ret (5, a')
    /\ dims a' = Null /\ data a' = Null.
Proof.
  intros Hopen Hrd Hsd Hcase. exists (cleared a).
  split; [|split; reflexivity].
  apply (read_done _ _ _ _ _ _ _ 5 (cleared a)).
  rewrite (read_body_select _ _ _ _ _ d) by assumption.
  unfold arrayh5_read_select.
  destruct Hcase as [(x & Hs0 & Hx & Hout)|[Hs Hnz]].
  - pose proof (lookup_lt_Some _ _ _ Hx) as Hlt.
    unfold int_dims in Hlt. rewrite length_map in Hlt.
    rewrite Hsize_wrap_small by hsize_range.
    destruct (Z.ltb_spec slicedim 0); [lia|].
    destruct (Z.leb_spec (Z.of_nat (length (ds_dims d))) slicedim); [lia|].
    destruct (Z.ltb_spec slicedim (Z.of_nat (length (ds_dims d)))); [|lia].
    simpl. destruct (Z.leb_spec 0 islice); [|reflexivity].
    rewrite (load_Ret _ _ x) by assumption. simpl.
    destruct (Z.ltb_spec islice x); [lia|reflexivity].
  - destruct Hrd as [Hrank _ _].
    rewrite Hsize_wrap_small by hsize_range.
    destruct (Z.ltb_spec slicedim 0); [lia|].
    destruct (Z.leb_spec (Z.of_nat (length (ds_dims d))) slicedim); [|lia].
    destruct (Z.eqb_spec islice 0); [lia|]. simpl.
    destruct (Z.ltb_spec slicedim (Z.of_nat (length (ds_dims d)))); [lia|].
    reflexivity.
Qed.

(** The sample request reaches the sample dataset, by evaluation. *)
Ltac sample_request :=
  first
    [ now exists [("grp", H5G_GROUP);
                  ("data", H5G_DATASET sample_dataset)]%string,
                 1, "data"%string
    | split; simpl;
      [ unfold Int.max_signed; lia
      | repeat constructor; unfold Hsize.in_range, Hsize.modulus; lia
      | reflexivity ] ].

Lemma read_invalid_slice_witness :
  exists a',
    arrayh5_read sample_world zeroed (Some stale) "a.h5" (Some "data"%string)
      0 5 = Ret (5, a')
    /\ dims a' = Null /\ data a' = Null.
Proof.
  apply (read_invalid_slice sample_world zeroed stale "a.h5"
           (Some "data"%string) sample_dataset 0 5).
  - sample_request.
  - sample_request.
  - unfold Int.in_range, Int.min_signed, Int.max_signed. lia.
  - left. exists 2. simpl. split; [lia|]. split; [reflexivity|lia].
Defined.

(** C6 as stated fails for a negative slicedim: with slicedim = -1 and
    islice = 1 (slicedim outside [0, rank), islice nonzero) the whole
    dataset is read and the status is 0. *)
Lemma read_negative_slicedim_is_full :
  arrayh5_read sample_world zeroed (Some stale) "a.h5" (Some "data"%string)
    (-1) 1
  = Ret (0, {| rank := 2; dims := Live [2; 3]; N := 6;
               data := Live [d_1; d_2; d_3; d_4; d_5; d_6] |}).
Proof. vm_compute. reflexivity. Qed.

(** ** Reading: what any returning run leaves in [*a] *)

Ltac inv_bind H :=
  match type of H with
  | (?m ≫= _) = Ret _ =>
    let E := fresh "E" in
    destruct m eqn:E; cbn [mbind result_bind] in H; try discriminate H
  end.

Ltac inv_binds H :=
  repeat
    (cbn [mbind result_bind] in H;
     match type of H with
     | (?m ≫= _) = Ret _ =>
       let E := fresh "E" in destruct m eqn:E; try discriminate H
     | (let '(_, _) := ?p in _) = Ret _ => destruct p
     | (if ?b then _ else _) = Ret _ =>
       let E := fresh "C" in destruct b eqn:E; try discriminate H
     | Ret _ = Ret _ => injection H as H
     end).

Lemma create_allocated g r ds a :
  arrayh5_create g r ds = Ret a -> allocated a /\ rank a = r.
Proof.
  unfold arrayh5_create, arrayh5_create_withdata. intros H.
  inv_binds H. inv_binds E2. subst. simpl. repeat split; eauto.
Qed.

Lemma slice_outcome w g d space r ds slicedim islice err a :
  arrayh5_read_slice w g d space r ds slicedim islice = Ret (err, a) ->
  (err = 0 \/ err = 4) /\ allocated a
  /\ rank a = (if Hsize.sub r 1 =? 0 then 0 else Int.wrap (Hsize.sub r 1)).
Proof.
  unfold arrayh5_read_slice. intros H.
  inv_binds H.
  all: match goal with
       | Hif : (if Hsize.sub ?r' 1 =? 0 then _ else _) = Ret (_, _, ?a') |- _ =>
         assert (Ha : allocated a' /\ rank a' =
                   (if Hsize.sub r' 1 =? 0 then 0
                    else Int.wrap (Hsize.sub r' 1)))
           by (destruct (Hsize.sub r' 1 =? 0); inv_binds Hif;
               match goal with
               | Hc : arrayh5_create _ _ _ = Ret _ |- _ =>
                 apply create_allocated in Hc; now subst
               end)
       end.
  all: destruct Ha as [[Hd _] Hr]; subst; simpl.
  all: (split; [auto|]); (split; [|assumption]); split; eauto.
Qed.

Lemma select_outcome w g a0 d space r ds slicedim islice err a :
  arrayh5_read_select w g a0 d space r ds slicedim islice = Ret (err, a) ->
  (err = 5 /\ a = a0) \/ ((err = 0 \/ err = 3 \/ err = 4) /\ allocated a).
Proof.
  unfold arrayh5_read_select. intros H.
  destruct ((slicedim <? 0) || ((r <=? Hsize.wrap slicedim) && (islice =? 0))).
  - right. inv_binds H.
    all: match goal with
         | Hc : arrayh5_create _ _ _ = Ret _ |- _ =>
           apply create_allocated in Hc; destruct Hc as [[Hd _] _]
         end.
    all: subst; simpl; (split; [auto|]); split; eauto.
  - inv_bind H. destruct a1.
    + right. apply slice_outcome in H. destruct H as (He & Ha & _).
      split; [|assumption]. destruct He; auto.
    + left. injection H as <- <-. auto.
Qed.

Lemma body_outcome w g a0 fname datapath slicedim islice err a :
  arrayh5_read_body w g a0 fname datapath slicedim islice = Ret (err, a) ->
  ((err = 1 \/ err = 2 \/ err = 5 \/ err = 6 \/ err = 7) /\ a = cleared a0)
  \/ ((err = 0 \/ err = 3 \/ err = 4) /\ allocated a).
Proof.
  unfold arrayh5_read_body. intros H.
  destruct (H5Fopen w fname) as [file|];
    [|injection H as <- <-; left; auto].
  destruct (match datapath with
            | Some (String c path) => (1, Live (String c path))
            | _ => H5Giterate file find_dataset Null
            end) as [found dname].
  destruct (found <=? 0); [injection H as <- <-; left; auto 6|].
  inv_bind H.
  destruct (H5Dopen file a1) as [d|]; [|injection H as <- <-; left; auto 8].
  destruct (_ <=? 0); [injection H as <- <-; left; auto 8|].
  inv_bind H. inv_bind H. inv_bind H. inv_bind H.
  apply select_outcome in H. destruct H as [[-> ->]|H]; [left|right]; auto 8.
Qed.


(** C9.  For every invocation of [arrayh5_read] that returns a non-Ok
    status: if the status is ReadError (3) or SliceReadError (4), the
    output array had been allocated and was destroyed before the status is
    returned (its buffers are freed); for every other error status no array
    is produced: the dims and data fields of the output are null, so that
    destroying it is safe (a no-op). *)
Theorem read_error_cleanup (w : world) (g : garbage) (a : option arrayh5)
    fname datapath slicedim islice err a' :
  arrayh5_read w g a fname datapath slicedim islice = Ret (err, a') ->
  err <> 0 ->
  ((err = 3 \/ err = 4)
   /\ (exists a_read, allocated a_read /\ arrayh5_destroy a_read = Ret a')
   /\ dims a' = Dangling /\ data a' = Dangling)
  \/ ((err = 1 \/ err = 2 \/ err = 5 \/ err = 6 \/ err = 7)
      /\ dims a' = Null /\ data a' = Null
      /\ arrayh5_destroy a' = Ret a').
Proof.
  intros H Herr. destruct a as [a|]; [|discriminate H].
  unfold arrayh5_read in H. inv_bind H. destruct a0 as [e a_body].
  apply body_outcome in E.
  destruct E as [[He ->]|[He ([ds Hds] & [xs Hxs])]].
  - right.
    assert (Hno : (3 <=? e) && (e <=? 4) = false)
      by (destruct He as [->|[->|[->|[->| ->]]]]; reflexivity).
    rewrite Hno in H. injection H as <- <-. auto.
  - destruct He as [->|He]; [simpl in H; injection H as <- _; lia|].
    left.
    assert (Hyes : (3 <=? e) && (e <=? 4) = true)
      by (destruct He as [->| ->]; reflexivity).
    rewrite Hyes in H. unfold arrayh5_destroy in H.
    rewrite Hds, Hxs in H. simpl in H. injection H as <- <-.
    split; [assumption|]. split; [|auto].
    exists a_body. split; [split; eauto|].
    unfold arrayh5_destroy. now rewrite Hds, Hxs.
Qed.

Lemma read_error_cleanup_witness :
  ((3 = 3 \/ 3 = 4)
   /\ (exists a_read,
         allocated a_read
         /\ arrayh5_destroy a_read =
            Ret {| rank := 2; dims := Dangling; N := 6; data := Dangling |})
   /\ Dangling = @Dangling (list Z) /\ Dangling = @Dangling (list double))
  \/ ((3 = 1 \/ 3 = 2 \/ 3 = 5 \/ 3 = 6 \/ 3 = 7)
      /\ @Dangling (list Z) = Null /\ @Dangling (list double) = Null
      /\ arrayh5_destroy
           {| rank := 2; dims := Dangling; N := 6; data := Dangling |}
         = Ret {| rank := 2; dims := Dangling; N := 6; data := Dangling |}).
Proof.
  apply (read_error_cleanup failing_world zeroed (Some stale) "a.h5"
           (Some "data"%string) (-1) 0 3
           {| rank := 2; dims := Dangling; N := 6; data := Dangling |}).
  - vm_compute. reflexivity.
  - lia.
Defined.

(** Every status of the enumeration is returned by some request. *)
Lemma read_statuses_reachable :
  forall err, 0 <= err <= 7 ->
  exists w fname datapath slicedim islice a',
    arrayh5_read w zeroed (Some stale) fname datapath slicedim islice
    = Ret (err, a').
Proof.
  intros err Herr.
  assert (err = 0 \/ err = 1 \/ err = 2 \/ err = 3 \/ err = 4 \/ err = 5
          \/ err = 6 \/ err = 7) as Hc by lia.
  destruct Hc as [->|[->|[->|[->|[->|[->|[->| ->]]]]]]].
  - exists sample_world, "a.h5"%string, None, (-1), 0. eexists.
    vm_compute. reflexivity.
  - exists sample_world, "b.h5"%string, None, (-1), 0. eexists.
    vm_compute. reflexivity.
  - exists {| w_files := [("a.h5", [("grp", H5G_GROUP)])]%string;
              w_read_fails := false |}, "a.h5"%string, None, (-1), 0.
    eexists. vm_compute. reflexivity.
  - exists failing_world, "a.h5"%string, None, (-1), 0. eexists.
    vm_compute. reflexivity.
  - exists failing_world, "a.h5"%string, None, 0, 0. eexists.
    vm_compute. reflexivity.
  - exists sample_world, "a.h5"%string, None, 0, 2. eexists.
    vm_compute. reflexivity.
  - exists {| w_files :=
                [("a.h5", [("s", H5G_DATASET {| ds_dims := [];
                                                 ds_data := [d_1] |})])]%string;
              w_read_fails := false |}, "a.h5"%string, None, (-1), 0.
    eexists. vm_compute. reflexivity.
  - exists sample_world, "a.h5"%string, (Some "grp"%string), (-1), 0. eexists.
    vm_compute. reflexivity.
Qed.

(** ** Hyperslabs *)

Lemma seqZ_blocks (n : nat) P :
  0 <= P ->
  (seqZ 0 (Z.of_nat n) ≫= fun i => (fun o => i * P + o) <$> seqZ 0 P)
  = seqZ 0 (Z.of_nat n * P).
Proof.
  intros HP. induction n as [|n IH]; [reflexivity|].
  rewrite seqZ_S, bind_app, IH. simpl. rewrite app_nil_r, Z.add_0_l.
  replace (Z.of_nat (Datatypes.S n) * P) with (Z.of_nat n * P + P) by lia.
  rewrite seqZ_app by nia. f_equal.
  change (λ o : Z, Z.of_nat n * P + o) with (Z.add (Z.of_nat n * P)).
  rewrite fmap_add_seqZ. f_equal. lia.
Qed.

Lemma within_all (ds : list Z) :
  Forall (fun d => 0 <= d) ds ->
  within_extent ds (replicate (length ds) 0) ds = true.
Proof.
  induction 1 as [|d ds Hd _ IH]; [reflexivity|]. simpl. rewrite IH.
  destruct (Z.leb_spec 0 d); [|lia].
  destruct (Z.leb_spec (0 + d) d); [reflexivity|lia].
Qed.

Lemma slab_all (ds : list Z) :
  Forall (fun d => 0 <= d) ds ->
  slab_offsets ds (replicate (length ds) 0) ds = seqZ 0 (product ds).
Proof.
  induction 1 as [|d ds Hd Hds IH]; [reflexivity|].
  simpl. rewrite IH. rewrite <- (Z2Nat.id d) at 1 by lia.
  rewrite seqZ_blocks by (now apply product_nonneg).
  now rewrite Z2Nat.id by lia.
Qed.

Lemma selected_all (ds : list Z) :
  Forall (fun d => 0 <= d) ds ->
  selected (H5Screate_simple (Z.of_nat (length ds)) ds)
  = Some (seqZ 0 (product ds)).
Proof.
  intros Hds. unfold selected, H5Screate_simple. simpl.
  rewrite Nat2Z.id, firstn_all.
  now rewrite within_all, slab_all.
Qed.

(** The transfer into a contiguous destination: cell [k] receives the
    [k]-th selected element. *)
Lemma transfer_gather (elements : list double) (src : list Z) :
  forall (pre rest : list double),
  length rest = length src ->
  Forall (fun s => 0 <= s < Z.of_nat (length elements)) src ->
  exists out,
    transfer src (seqZ (Z.of_nat (length pre)) (Z.of_nat (length src)))
      elements (pre ++ rest) = Ret (pre ++ out)
    /\ length out = length src
    /\ forall (k : nat) s, src !! k = Some s ->
         out !! k = elements !! Z.to_nat s.
Proof.
  induction src as [|s src IH]; intros pre rest Hlen Hsrc.
  - destruct rest; [|discriminate]. exists []. simpl.
    repeat split. intros k s Hk. discriminate.
  - destruct rest as [|r0 rest]; [discriminate|].
    apply Forall_cons in Hsrc as [Hs Hsrc].
    destruct (lookup_lt_is_Some_2 elements (Z.to_nat s)) as [x Hx]; [lia|].
    rewrite seqZ_cons by (simpl; lia). simpl.
    rewrite (load_Ret _ _ x) by (auto; lia). simpl.
    rewrite store_Ret by (rewrite length_app; simpl; lia). simpl.
    rewrite Nat2Z.id.
    rewrite insert_app_r_alt, Nat.sub_diag by lia. simpl.
    destruct (IH (pre ++ [x]) rest) as (out & Hout & Hlen' & Hlook);
      [simpl in Hlen; lia|assumption|].
    exists (x :: out).
    replace (Z.succ (Z.of_nat (length pre)))
      with (Z.of_nat (length (pre ++ [x])))
      by (rewrite length_app; simpl; lia).
    replace (Z.pred (Z.of_nat (Datatypes.S (length src))))
      with (Z.of_nat (length src)) by lia.
    replace (pre ++ x :: rest) with ((pre ++ [x]) ++ rest)
      by (now rewrite <- app_assoc).
    rewrite Hout. rewrite <- app_assoc. simpl.
    split; [reflexivity|]. split; [simpl; lia|].
    intros [|k] s' Hk; simpl in *.
    + injection Hk as <-. now rewrite Hx.
    + now apply Hlook.
Qed.

Lemma transfer_all (elements buf : list double) :
  length buf = length elements ->
  transfer (seqZ 0 (Z.of_nat (length elements)))
    (seqZ 0 (Z.of_nat (length elements))) elements buf = Ret elements.
Proof.
  intros Hlen.
  destruct (transfer_gather elements (seqZ 0 (Z.of_nat (length elements)))
              [] buf) as (out & Hout & Hlen' & Hlook).
  - now rewrite length_seqZ, Nat2Z.id.
  - apply Forall_forall. intros s Hs. apply elem_of_seqZ in Hs. lia.
  - rewrite length_seqZ, Nat2Z.id in Hout, Hlen'. simpl in Hout.
    change (Z.of_nat 0) with 0 in Hout.
    rewrite Hout. f_equal. apply list_eq. intros k.
    destruct (decide (k < length elements)%nat) as [Hk|Hk].
    + rewrite (Hlook k (Z.of_nat k)) by (apply lookup_seqZ; lia).
      now rewrite Nat2Z.id.
    + rewrite !lookup_ge_None_2 by lia. reflexivity.
Qed.

Lemma block_length {A B : Type} (h : A -> list B) (l : list A) (L : nat) :
  (forall i, length (h i) = L) -> length (l ≫= h) = (length l * L)%nat.
Proof.
  intros Hh. induction l as [|i l IH]; [reflexivity|].
  rewrite bind_cons, length_app, IH, Hh. simpl. lia.
Qed.

Lemma block_lookup {A B : Type} (h : A -> list B) (l : list A) (L : nat) :
  (forall i, length (h i) = L) ->
  forall (j q : nat) i, l !! j = Some i -> (q < L)%nat ->
  (l ≫= h) !! (j * L + q)%nat = h i !! q.
Proof.
  intros Hh. induction l as [|i0 l IH]; intros j q i Hj Hq; [discriminate|].
  rewrite bind_cons. destruct j as [|j]; simpl in Hj.
  - injection Hj as ->. simpl. apply lookup_app_l. now rewrite Hh.
  - rewrite lookup_app_r by (rewrite Hh; simpl; lia).
    rewrite Hh. replace (Datatypes.S j * L + q - L)%nat with (j * L + q)%nat
      by (simpl; lia).
    now apply IH.
Qed.

Lemma slab_length (ds : list Z) :
  forall start count,
  length start = length ds -> length count = length ds ->
  Forall (fun c => 0 <= c) count ->
  Z.of_nat (length (slab_offsets ds start count)) = product count.
Proof.
  induction ds as [|d ds IH]; intros start count Hs Hc Hnn.
  - destruct count; [reflexivity|discriminate].
  - destruct start as [|s start]; [discriminate|].
    destruct count as [|c count]; [discriminate|].
    apply Forall_cons in Hnn as [Hc0 Hnn]. simpl in Hs, Hc.
    simpl. rewrite (block_length _ _ (length (slab_offsets ds start count)))
      by (intros; apply length_fmap).
    rewrite length_seqZ, Nat2Z.inj_mul, IH, Z2Nat.id by (auto; lia).
    reflexivity.
Qed.

Lemma slab_range (ds : list Z) :
  forall start count,
  within_extent ds start count = true ->
  Forall (fun o => 0 <= o < product ds) (slab_offsets ds start count).
Proof.
  induction ds as [|d ds IH]; intros start count Hw.
  - repeat constructor; unfold product; simpl; lia.
  - destruct start as [|s start]; [discriminate|].
    destruct count as [|c count]; [discriminate|].
    simpl in Hw.
    apply andb_prop in Hw as [Hw Hw']. apply andb_prop in Hw as [Hw Hsc].
    apply andb_prop in Hw as [Hs0 Hc0].
    apply Z.leb_le in Hs0, Hc0, Hsc.
    specialize (IH _ _ Hw'). cbn [slab_offsets].
    apply Forall_bind, Forall_forall. intros i Hi. apply elem_of_seqZ in Hi.
    apply Forall_fmap. eapply Forall_impl; [exact IH|].
    intros o Ho. unfold compose. rewrite product_cons.
    simpl in Ho.
    assert (0 <= i * product ds /\ (i + 1) * product ds <= d * product ds)
      by nia.
    lia.
Qed.

Lemma flat_range (count idx : list Z) :
  valid_index count idx -> 0 <= flat count idx < product count.
Proof.
  unfold valid_index. intros H.
  induction H as [|i c idx count Hi _ IH]; simpl.
  - unfold product. simpl. lia.
  - rewrite product_cons. nia.
Qed.

Lemma within_nonneg (ds : list Z) :
  forall start count,
  within_extent ds start count = true ->
  length start = length ds /\ length count = length ds
  /\ Forall (fun c => 0 <= c) count.
Proof.
  induction ds as [|d ds IH]; intros start count Hw.
  - destruct start, count; try discriminate. repeat split. constructor.
  - destruct start as [|s start]; [discriminate|].
    destruct count as [|c count]; [discriminate|].
    simpl in Hw.
    apply andb_prop in Hw as [Hw Hw']. apply andb_prop in Hw as [Hw Hsc].
    apply andb_prop in Hw as [Hs0 Hc0]. apply Z.leb_le in Hc0.
    destruct (IH _ _ Hw') as (H1 & H2 & H3). simpl.
    repeat split; try lia. now constructor.
Qed.

(** The element of a hyperslab at the position of the multi-index [idx]
    (relative to the start of the hyperslab) is the element of the dataset
    at the multi-index [start + idx]. *)
Lemma slab_lookup (ds : list Z) :
  forall start count idx,
  within_extent ds start count = true -> valid_index count idx ->
  slab_offsets ds start count !! Z.to_nat (flat count idx)
  = Some (flat ds (zip_with Z.add start idx)).
Proof.
  induction ds as [|d ds IH]; intros start count idx Hw Hidx.
  - destruct start, count; try discriminate. inversion Hidx; subst.
    reflexivity.
  - destruct start as [|s start]; [discriminate|].
    destruct count as [|c count]; [discriminate|].
    inversion Hidx as [|i c' idx' count' Hi Hidx']; subst.
    pose proof Hw as Hw0. simpl in Hw.
    apply andb_prop in Hw as [Hw Hw']. apply andb_prop in Hw as [Hw Hsc].
    apply andb_prop in Hw as [Hs0 Hc0].
    apply Z.leb_le in Hs0, Hc0, Hsc.
    destruct (within_nonneg _ _ _ Hw') as (Hls & Hlc & Hnn).
    pose proof (slab_length ds start count Hls Hlc Hnn) as Hlen.
    pose proof (flat_range _ _ Hidx') as Hq.
    simpl.
    replace (Z.to_nat (i * product count + flat count idx'))
      with (Z.to_nat i * length (slab_offsets ds start count)
            + Z.to_nat (flat count idx'))%nat by nia.
    erewrite (block_lookup _ _ (length (slab_offsets ds start count)));
      [ rewrite list_lookup_fmap, (IH _ _ _ Hw' Hidx'); simpl;
        do 2 f_equal; lia
      | intros; apply length_fmap
      | apply lookup_seqZ; lia
      | lia ].
Qed.

(** ** Reading: the full read *)

Lemma readable_nonneg (d : dataset) :
  readable d -> Forall (fun e => 0 <= e) (ds_dims d).
Proof.
  intros [_ Hext _]. eapply Forall_impl; [exact Hext|].
  intros e He. unfold Hsize.in_range in He. lia.
Qed.

Lemma int_dims_fits (d : dataset) :
  readable d -> Forall (fun e => e <= Int.max_signed) (ds_dims d) ->
  int_dims d = ds_dims d.
Proof.
  intros Hrd Hfit. pose proof (readable_nonneg d Hrd) as Hnn.
  unfold int_dims. induction (ds_dims d) as [|e l IH]; [reflexivity|].
  apply Forall_cons in Hfit as [He Hfit]. apply Forall_cons in Hnn as [He' Hnn].
  simpl. rewrite IH by assumption. f_equal.
  apply Int_wrap_small. int_range.
Qed.

Lemma full_mode_test (d : dataset) slicedim islice :
  readable d -> Int.in_range slicedim ->
  (slicedim <? 0)
  || ((Z.of_nat (length (ds_dims d)) <=? Hsize.wrap slicedim) && (islice =? 0))
  = true <-> full_mode d slicedim islice.
Proof.
  intros [Hrank _ _] Hsd. unfold full_mode.
  destruct (Z.ltb_spec slicedim 0); simpl; [split; auto|].
  rewrite Hsize_wrap_small by hsize_range.
  destruct (Z.leb_spec (Z.of_nat (length (ds_dims d))) slicedim),
           (Z.eqb_spec islice 0); simpl; split; auto; try lia; discriminate.
Qed.

Lemma H5Dread_all (w : world) (d : dataset) (buf : list double) :
  readable d -> length buf = length (ds_data d) ->
  H5Dread w d None None buf =
  Ret (if w_read_fails w then (-1, buf) else (0, ds_data d)).
Proof.
  intros Hrd Hbuf. unfold H5Dread.
  destruct (w_read_fails w); [reflexivity|]. simpl.
  unfold H5Dget_space.
  rewrite selected_all by (now apply readable_nonneg).
  rewrite Nat.eqb_refl.
  destruct Hrd as [_ _ Hel]. rewrite <- Hel.
  now rewrite transfer_all.
Qed.

Lemma read_select_full (w : world) (g : garbage) (a0 : arrayh5) (d : dataset)
    slicedim islice :
  readable d -> fits_int d -> Int.in_range slicedim ->
  full_mode d slicedim islice ->
  arrayh5_read_select w g a0 d (H5Dget_space d)
    (Z.of_nat (length (ds_dims d))) (ds_dims d) slicedim islice
  = Ret (if w_read_fails w
         then (3, set_data (full_array d)
                    (Live (map (g_double g 66)
                             (seq 0 (Z.to_nat (product (ds_dims d)))))))
         else (0, full_array d)).
Proof.
  intros Hrd [Hfit HN] Hsd Hfull.
  pose proof (readable_nonneg d Hrd) as Hnn.
  pose proof (product_nonneg _ Hnn) as HN0.
  unfold arrayh5_read_select.
  apply (full_mode_test d slicedim islice Hrd Hsd) in Hfull. rewrite Hfull.
  destruct Hrd as [Hrank Hext Hel] eqn:Hrd'. clear Hrd'.
  rewrite (Int_wrap_small (Z.of_nat _)) by int_range.
  unfold arrayh5_create. rewrite create_withdata_eq by (auto; lia).
  rewrite Int_wrap_small by int_range.
  rewrite CHK_MALLOC_Ret by assumption. simpl.
  rewrite H5Dread_all; [|split; assumption|rewrite length_malloc; lia].
  destruct (w_read_fails w); reflexivity.
Qed.

Lemma select_not_full w g a0 d space r ds slicedim islice err a :
  (slicedim <? 0) || ((r <=? Hsize.wrap slicedim) && (islice =? 0)) = false ->
  arrayh5_read_select w g a0 d space r ds slicedim islice = Ret (err, a) ->
  err = 5 \/ err = 4
  \/ (err = 0
      /\ rank a = (if Hsize.sub r 1 =? 0 then 0 else Int.wrap (Hsize.sub r 1))).
Proof.
  unfold arrayh5_read_select. intros -> H. inv_bind H. destruct a1.
  - apply slice_outcome in H. destruct H as ([->| ->] & _ & Hr); auto.
  - injection H as <- _. auto.
Qed.

(** C5 (as amended).  For every readable dataset (rank >= 1) whose extents
    and element count are representable as [int], [arrayh5_read] performs
    a full read exactly when slicedim < 0, or when slicedim >= rank and
    islice == 0: under that condition it returns Ok with an array of the
    dataset's exact shape holding the dataset contents verbatim (or, when
    the transfer fails, ReadError with the array destroyed), and otherwise
    it returns neither of these. *)
Theorem read_full_mode (w : world) (g : garbage) (a : arrayh5) fname datapath
    (d : dataset) slicedim islice :
  opens w fname datapath d -> readable d -> fits_int d ->
  Int.in_range slicedim ->
  (full_mode d slicedim islice ->
   arrayh5_read w g (Some a) fname datapath slicedim islice
   = Ret (if w_read_fails w then (3, freed (full_array d))
          else (0, full_array d)))
  /\ (~ full_mode d slicedim islice ->
      arrayh5_read w g (Some a) fname datapath slicedim islice
        <> Ret (0, full_array d)
      /\ forall a', arrayh5_read w g (Some a) fname datapath slicedim islice
                    <> Ret (3, a')).
Proof.
  intros Hopen Hrd Hfit Hsd.
  pose proof (read_body_select w g a fname datapath d slicedim islice
                Hopen Hrd) as Hbody.
  rewrite (int_dims_fits d Hrd (proj1 Hfit)) in Hbody.
  split.
  - intros Hfull. rewrite read_select_full in Hbody by assumption.
    unfold arrayh5_read. rewrite Hbody.
    destruct (w_read_fails w); reflexivity.
  - intros Hnot.
    assert (Htest : (slicedim <? 0)
              || ((Z.of_nat (length (ds_dims d)) <=? Hsize.wrap slicedim)
                  && (islice =? 0)) = false).
    { destruct ((slicedim <? 0) || _) eqn:Ht; [|reflexivity].
      apply full_mode_test in Ht; [contradiction|assumption|assumption]. }
    unfold arrayh5_read. rewrite Hbody.
    destruct (arrayh5_read_select w g (cleared a) d (H5Dget_space d)
                (Z.of_nat (length (ds_dims d))) (ds_dims d) slicedim islice)
      as [[e a1]| | |] eqn:Hsel; simpl; try (split; [|intros a']; discriminate).
    destruct (select_not_full _ _ _ _ _ _ _ _ _ _ _ Htest Hsel)
      as [->|[->|[-> Hrank]]]; simpl.
    + split; [|intros a']; discriminate.
    + destruct (arrayh5_destroy a1); simpl;
        split; try intros a'; discriminate.
    + split; [|intros a'; discriminate].
      intros Heq. injection Heq as ->. simpl in Hrank.
      destruct Hrd as [Hr _ _].
      unfold Hsize.sub in Hrank.
      rewrite Hsize_wrap_small in Hrank by hsize_range.
      destruct (Z.eqb_spec (Z.of_nat (length (ds_dims d)) - 1) 0); [lia|].
      rewrite Int_wrap_small in Hrank by int_range. lia.
Qed.

Lemma read_full_mode_witness :
  arrayh5_read sample_world zeroed (Some stale) "a.h5" (Some "data"%string)
    (-1) 4
  = Ret (0, full_array sample_dataset).
Proof.
  destruct (read_full_mode sample_world zeroed stale "a.h5"
              (Some "data"%string) sample_dataset (-1) 4) as [H _].
  - sample_request.
  - sample_request.
  - split; simpl.
    + repeat first [ apply List.Forall_nil
                   | apply List.Forall_cons; [unfold Int.max_signed; lia|] ].
    + unfold product, Int.max_signed. simpl. lia.
  - unfold Int.in_range, Int.min_signed, Int.max_signed. lia.
  - apply H. left. lia.
Defined.

(** C5 as stated fails for a dataset whose element count does not fit an
    [int]: the one-dimensional dataset of 2147483648 elements is readable,
    and its full read ends in the "out of memory" exit, the extent having
    become -2147483648. *)
Lemma read_full_exceeds_int :
  readable long_dataset
  /\ opens long_world "long.h5" None long_dataset
  /\ full_mode long_dataset (-1) 0
  /\ int_dims long_dataset = [-2147483648]
  /\ arrayh5_read long_world zeroed (Some stale) "long.h5" None (-1) 0
     = Exit "out of memory".
Proof.
  split; [|split; [|split; [|split]]].
  - split.
    + simpl. unfold Int.max_signed. lia.
    + simpl. repeat constructor; unfold Hsize.modulus; lia.
    + unfold long_dataset. cbn [ds_data ds_dims].
      rewrite length_replicate, Z2Nat.id by lia. reflexivity.
  - now exists [("data", H5G_DATASET long_dataset)]%string, 1, "data"%string.
  - left. lia.
  - reflexivity.
  - lazy. reflexivity.
Qed.

(** ** Fixing one axis *)

Lemma product_insert_one (ds : list Z) (sd : nat) :
  (sd < length ds)%nat -> product (<[sd := 1]> ds) = product (delete sd ds).
Proof.
  revert ds. induction sd as [|sd IH]; intros [|d ds] Hsd; simpl in *; try lia.
  - rewrite product_cons. lia.
  - rewrite !product_cons, IH by lia. reflexivity.
Qed.

Lemma flat_fixed_axis (ds idx : list Z) (sd : nat) :
  length idx = length ds -> (sd < length ds)%nat ->
  flat (<[sd := 1]> ds) (<[sd := 0]> idx) = flat (delete sd ds) (delete sd idx).
Proof.
  revert ds idx.
  induction sd as [|sd IH]; intros [|d ds] [|i idx] Hlen Hsd;
    simpl in *; try lia.
  rewrite product_insert_one, IH by lia. reflexivity.
Qed.

Lemma valid_fixed_axis (ds idx : list Z) (sd : nat) :
  valid_index ds idx -> valid_index (<[sd := 1]> ds) (<[sd := 0]> idx).
Proof.
  unfold valid_index. intros H. apply Forall2_insert; [assumption|lia].
Qed.

Lemma start_plus_index (idx : list Z) (sd : nat) k :
  idx !! sd = Some k ->
  zip_with Z.add (<[sd := k]> (replicate (length idx) 0)) (<[sd := 0]> idx)
  = idx.
Proof.
  revert idx. induction sd as [|sd IH]; intros [|i idx] Hk; simpl in *;
    try discriminate.
  - injection Hk as ->. rewrite Z.add_0_r. f_equal.
    induction idx as [|j idx IHidx]; simpl; [reflexivity|]. now rewrite IHidx.
  - now rewrite IH.
Qed.

Lemma within_fixed_axis (ds : list Z) (sd : nat) k x :
  Forall (fun d => 0 <= d) ds -> ds !! sd = Some x -> 0 <= k < x ->
  within_extent ds (<[sd := k]> (replicate (length ds) 0)) (<[sd := 1]> ds)
  = true.
Proof.
  revert sd. induction ds as [|d ds IH]; intros [|sd] Hnn Hx Hk;
    simpl in *; try discriminate;
    apply Forall_cons in Hnn as [Hd Hnn].
  - injection Hx as ->. rewrite within_all by assumption.
    destruct (Z.leb_spec 0 k); [|lia].
    destruct (Z.leb_spec (k + 1) x); [reflexivity|lia].
  - rewrite (IH sd) by assumption.
    destruct (Z.leb_spec 0 d); [|lia].
    destruct (Z.leb_spec (0 + d) d); [reflexivity|lia].
Qed.

(** ** Reading: the loops of the slice branch *)

Lemma init_loop (ds start count count2 : list Z) (k : nat) :
  (k <= length ds)%nat -> (k <= length start)%nat ->
  (k <= length count)%nat -> (k <= length count2)%nat ->
  foldM (fun i '(start, count, count2) =>
           x ← load ds i;
           count ← store count i (Hsize.wrap x);
           x ← load ds i;
           count2 ← store count2 i (Hsize.wrap x);
           start ← store start i 0;
           Ret (start, count, count2))
        (seqZ 0 (Z.of_nat k)) (start, count, count2)
  = Ret (take k (replicate (length ds) 0) ++ drop k start,
         take k (map Hsize.wrap ds) ++ drop k count,
         take k (map Hsize.wrap ds) ++ drop k count2).
Proof.
  intros Hk Hs Hc Hc2. induction k as [|k IH].
  - simpl. now rewrite !drop_0.
  - rewrite foldM_seqZ0_S, IH by lia. cbn [mbind result_bind].
    destruct (lookup_lt_is_Some_2 ds k) as [x Hx]; [lia|].
    rewrite (load_nat _ _ _ Hx). cbn [mbind result_bind].
    do 3 (rewrite store_Ret
            by (rewrite ?length_app, ?length_take, ?length_drop, ?length_map,
                  ?length_replicate; lia);
          cbn [mbind result_bind]).
    rewrite Nat2Z.id.
    assert (Hw : map Hsize.wrap ds !! k = Some (Hsize.wrap x)).
    { change (map Hsize.wrap ds) with (Hsize.wrap <$> ds).
      now rewrite list_lookup_fmap, Hx. }
    rewrite !(insert_take_drop (map Hsize.wrap ds)) by (auto; lia).
    rewrite (insert_take_drop (replicate (length ds) 0))
      by (try apply lookup_replicate_2; lia).
    reflexivity.
Qed.

Lemma shifted_0 (l : list Z) (sd : nat) : shifted l sd 0 l.
Proof.
  split; [reflexivity|]. intros i Hi.
  destruct (decide (sd <= i < sd + 0)%nat); [lia|reflexivity].
Qed.

Lemma shift_loop (l : list Z) (sd j : nat) :
  Forall Hsize.in_range l -> Z.of_nat (length l) <= Int.max_signed ->
  (sd + j < length l)%nat ->
  exists l',
    foldM (fun i '(dims, count2) =>
             x ← load dims (Hsize.add i 1);
             dims ← store dims i x;
             count2 ← store count2 i (Hsize.wrap x);
             Ret (dims, count2))
          (seqZ (Z.of_nat sd) (Z.of_nat j)) (l, l) = Ret (l', l')
    /\ shifted l sd j l'.
Proof.
  intros Hl Hmax Hj. induction j as [|j IH].
  - exists l. split; [reflexivity|apply shifted_0].
  - destruct IH as (l' & Hfold & Hlen & Hl'); [lia|].
    destruct (lookup_lt_is_Some_2 l (Datatypes.S (sd + j))) as [x Hx]; [lia|].
    exists (<[(sd + j)%nat := x]> l').
    rewrite foldM_seqZ_S, Hfold. cbn [mbind result_bind].
    unfold Hsize.add. rewrite Hsize_wrap_small by hsize_range.
    replace (Z.of_nat sd + Z.of_nat j + 1)
      with (Z.of_nat (Datatypes.S (sd + j))) by lia.
    replace (Z.of_nat sd + Z.of_nat j) with (Z.of_nat (sd + j)) by lia.
    assert (Hx' : l' !! Datatypes.S (sd + j) = Some x).
    { rewrite Hl' by lia.
      destruct (decide (sd <= Datatypes.S (sd + j) < sd + j)%nat);
        [lia|assumption]. }
    rewrite (load_nat _ _ _ Hx'). cbn [mbind result_bind].
    rewrite !store_Ret by lia. cbn [mbind result_bind].
    rewrite Nat2Z.id.
    rewrite Hsize_wrap_small
      by (rewrite Forall_lookup in Hl; exact (Hl _ _ Hx)).
    split; [reflexivity|]. split; [now rewrite length_insert|].
    intros i Hi. destruct (decide (i = sd + j)%nat) as [->|Hne].
    + rewrite list_lookup_insert_eq by lia.
      destruct (decide (sd <= sd + j < sd + Datatypes.S j)%nat); [|lia].
      now rewrite Hx.
    + rewrite list_lookup_insert_ne by lia. rewrite Hl' by assumption.
      destruct (decide (sd <= i < sd + j)%nat),
               (decide (sd <= i < sd + Datatypes.S j)%nat);
        try reflexivity; lia.
Qed.

Lemma shifted_delete (l l' : list Z) (sd : nat) :
  (sd < length l)%nat -> shifted l sd (length l - 1 - sd) l' ->
  take (length l - 1) l' = delete sd l.
Proof.
  intros Hsd [Hlen Hl']. apply list_eq. intros i.
  destruct (decide (i < length l - 1)%nat) as [Hi|Hi].
  - rewrite lookup_take_lt, Hl' by lia.
    destruct (decide (sd <= i < sd + (length l - 1 - sd))%nat).
    + now rewrite list_lookup_delete_ge by lia.
    + now rewrite list_lookup_delete_lt by lia.
  - rewrite !lookup_ge_None_2; [reflexivity| |].
    + rewrite length_delete by (apply lookup_lt_is_Some_2; lia). lia.
    + rewrite length_take. lia.
Qed.

(** ** Reading: one slice *)

Lemma hsize_map_id (ds : list Z) :
  Forall Hsize.in_range ds -> map Hsize.wrap ds = ds.
Proof.
  induction 1 as [|e l He _ IH]; [reflexivity|].
  simpl. now rewrite IH, Hsize_wrap_small.
Qed.

Lemma shift_for (l : list Z) (sd : nat) :
  Forall Hsize.in_range l -> Z.of_nat (length l) <= Int.max_signed ->
  (sd < length l)%nat ->
  exists l',
    for_ (Z.to_nat (Z.of_nat (length l))) (fun i => Hsize.add i 1)
      (fun i => Hsize.add i 1 <? Z.of_nat (length l))
      (fun i '(dims, count2) =>
         x ← load dims (Hsize.add i 1);
         dims ← store dims i x;
         count2 ← store count2 i (Hsize.wrap x);
         Ret (dims, count2))
      (Hsize.wrap (Z.of_nat sd)) (l, l) = Ret (l', l')
    /\ length l' = length l
    /\ take (length l - 1) l' = delete sd l.
Proof.
  intros Hl Hmax Hsd.
  destruct (shift_loop l sd (length l - 1 - sd) Hl Hmax) as (l' & Hfold & Hsh);
    [lia|].
  exists l'. split; [|split; [apply Hsh|now apply shifted_delete]].
  rewrite Hsize_wrap_small by hsize_range.
  rewrite (for_foldM _ _ _ _ _ (length l - 1 - sd)); [exact Hfold|lia| |].
  - intros i Hi. unfold Hsize.add. rewrite Hsize_wrap_small by hsize_range.
    split; [apply Z.ltb_lt; lia|reflexivity].
  - unfold Hsize.add. rewrite Hsize_wrap_small by hsize_range.
    apply Z.ltb_ge. lia.
Qed.

Lemma file_space_select (d : dataset) (start count : list Z) :
  length start = length (ds_dims d) -> length count = length (ds_dims d) ->
  H5Sselect_hyperslab (H5Dget_space d) start count
  = {| sp_dims := ds_dims d; sp_start := start; sp_count := count |}.
Proof.
  intros Hs Hc. unfold H5Sselect_hyperslab, H5Dget_space, H5Screate_simple.
  cbn [sp_dims]. rewrite Nat2Z.id, firstn_all.
  now rewrite !take_ge by lia.
Qed.

Lemma mem_space_select (r r' : nat) (l : list Z) :
  (r' <= r)%nat -> (r' <= length l)%nat ->
  H5Sselect_hyperslab (H5Screate_simple (Z.of_nat r') l) (replicate r 0) l
  = {| sp_dims := take r' l; sp_start := replicate r' 0;
       sp_count := take r' l |}.
Proof.
  intros Hr Hl. unfold H5Sselect_hyperslab, H5Screate_simple.
  cbn [sp_dims]. rewrite Nat2Z.id, length_take, Nat.min_l by lia.
  now rewrite take_replicate, Nat.min_l by lia.
Qed.

(** [H5Dread] of a hyperslab into a contiguous buffer of its size. *)
Lemma H5Dread_slab (w : world) (d : dataset) (mem_dims start count : list Z)
    (buf : list double) :
  w_read_fails w = false ->
  Z.of_nat (length (ds_data d)) = product (ds_dims d) ->
  within_extent (ds_dims d) start count = true ->
  Forall (fun e => 0 <= e) mem_dims ->
  product mem_dims = product count ->
  Z.of_nat (length buf) = product mem_dims ->
  exists out,
    H5Dread w d
      (Some {| sp_dims := mem_dims;
               sp_start := replicate (length mem_dims) 0;
               sp_count := mem_dims |})
      (Some {| sp_dims := ds_dims d; sp_start := start; sp_count := count |})
      buf = Ret (0, out)
    /\ length out = length buf
    /\ forall (m : nat) s,
         slab_offsets (ds_dims d) start count !! m = Some s ->
         out !! m = ds_data d !! Z.to_nat s.
Proof.
  intros Hok Hel Hwithin Hmem Hprod Hbuf.
  destruct (within_nonneg _ _ _ Hwithin) as (H1 & H2 & H3).
  pose proof (slab_length _ _ _ H1 H2 H3) as Hsrc_len.
  destruct (transfer_gather (ds_data d)
              (slab_offsets (ds_dims d) start count) [] buf)
    as (out & Htr & Hout_len & Hout).
  { lia. }
  { eapply Forall_impl; [apply slab_range, Hwithin|].
    intros o Ho. simpl in Ho. lia. }
  simpl in Htr. change (Z.of_nat 0) with 0 in Htr.
  exists out. split; [|split; [lia|exact Hout]].
  unfold H5Dread. rewrite Hok.
  unfold selected. cbn [from_option id sp_dims sp_start sp_count].
  rewrite Hwithin, within_all, slab_all by assumption.
  rewrite length_seqZ.
  destruct (Nat.eqb_spec (length (slab_offsets (ds_dims d) start count))
              (Z.to_nat (product mem_dims))) as [Heq|Hne]; [|lia].
  rewrite Hprod, <- Hsrc_len, Htr. reflexivity.
Qed.

(** The slice branch on a dataset of rank at least 2: the array has the
    extents of the other axes and receives the selected hyperslab. *)
Lemma read_slice_eval (w : world) (g : garbage) (d : dataset) (sd : nat) k x :
  readable d -> Forall (fun e => e <= Int.max_signed) (ds_dims d) ->
  w_read_fails w = false ->
  (2 <= length (ds_dims d))%nat ->
  ds_dims d !! sd = Some x -> 0 <= k < x ->
  product (delete sd (ds_dims d)) <= Int.max_signed ->
  exists out,
    arrayh5_read_slice w g d (H5Dget_space d)
      (Z.of_nat (length (ds_dims d))) (ds_dims d) (Z.of_nat sd) k
    = Ret (0, {| rank := Z.of_nat (length (ds_dims d)) - 1;
                 dims := Live (delete sd (ds_dims d));
                 N := product (delete sd (ds_dims d));
                 data := Live out |})
    /\ Z.of_nat (length out) = product (delete sd (ds_dims d))
    /\ forall (m : nat) s,
         slab_offsets (ds_dims d)
           (<[sd := k]> (replicate (length (ds_dims d)) 0))
           (<[sd := 1]> (ds_dims d)) !! m = Some s ->
         out !! m = ds_data d !! Z.to_nat s.
Proof.
  intros Hrd Hfit Hok Hr2 Hx Hk HN.
  pose proof (readable_nonneg d Hrd) as Hnn.
  destruct Hrd as [Hrank Hext Hel].
  pose proof (lookup_lt_Some _ _ _ Hx) as Hsd.
  assert (Hdel_len : length (delete sd (ds_dims d))
                     = (length (ds_dims d) - 1)%nat)
    by (rewrite length_delete by eauto; reflexivity).
  assert (Hdel_nn : Forall (fun e => 0 <= e) (delete sd (ds_dims d))).
  { rewrite delete_take_drop. apply Forall_app.
    split; [now apply Forall_take|now apply Forall_drop]. }
  pose proof (product_nonneg _ Hdel_nn) as HN0.
  destruct (shift_for (ds_dims d) sd Hext ltac:(lia) Hsd)
    as (l' & Hshift & Hl' & Hdel).
  rewrite Nat2Z.id in Hshift.
  pose proof (within_fixed_axis (ds_dims d) sd k x Hnn Hx Hk) as Hwithin.
  destruct (H5Dread_slab w d (delete sd (ds_dims d))
              (<[sd := k]> (replicate (length (ds_dims d)) 0))
              (<[sd := 1]> (ds_dims d))
              (map (g_double g 66)
                 (seq 0 (Z.to_nat (product (delete sd (ds_dims d)))))))
    as (out & Hread & Hout_len & Hout); try assumption.
  { symmetry. now apply product_insert_one. }
  { rewrite length_malloc. lia. }
  rewrite length_malloc in Hout_len.
  exists out. split; [|split; [lia|exact Hout]].
  unfold arrayh5_read_slice.
  rewrite !CHK_MALLOC_Ret by lia. cbn [mbind result_bind].
  rewrite for_hsize_foldM by lia.
  rewrite init_loop by (rewrite ?length_malloc; lia).
  cbn [mbind result_bind]. rewrite Nat2Z.id.
  rewrite !drop_ge by (rewrite length_malloc; lia).
  rewrite !app_nil_r.
  rewrite hsize_map_id by assumption.
  rewrite !take_ge by (rewrite ?length_replicate; lia).
  rewrite !store_Ret by (rewrite ?length_replicate; lia).
  cbn [mbind result_bind]. rewrite Nat2Z.id.
  rewrite Hshift. cbn [mbind result_bind].
  rewrite (store_Ret (<[sd:=k]> (replicate (length (ds_dims d)) 0)))
    by (rewrite length_insert, length_replicate; lia).
  cbn [mbind result_bind]. rewrite Nat2Z.id.
  rewrite list_insert_insert_eq, insert_replicate.
  unfold Hsize.sub. rewrite Hsize_wrap_small by hsize_range.
  destruct (Z.eqb_spec (Z.of_nat (length (ds_dims d)) - 1) 0) as [?|_]; [lia|].
  rewrite Int_wrap_small by int_range.
  replace (Z.of_nat (length (ds_dims d)) - 1)
    with (Z.of_nat (length (ds_dims d) - 1)) by lia.
  unfold arrayh5_create.
  rewrite create_withdata_take by lia.
  rewrite Hdel. rewrite Int_wrap_small by int_range.
  rewrite CHK_MALLOC_Ret by assumption. cbn [mbind result_bind deref data].
  rewrite file_space_select
    by (rewrite length_insert, ?length_replicate; reflexivity).
  rewrite mem_space_select by lia.
  rewrite Hdel, <- Hdel_len, Hread. reflexivity.
Qed.

Lemma read_select_slice (w : world) (g : garbage) (a0 : arrayh5) (d : dataset)
    (sd : nat) k x :
  readable d -> ds_dims d !! sd = Some x -> 0 <= k < x ->
  arrayh5_read_select w g a0 d (H5Dget_space d)
    (Z.of_nat (length (ds_dims d))) (ds_dims d) (Z.of_nat sd) k
  = arrayh5_read_slice w g d (H5Dget_space d)
      (Z.of_nat (length (ds_dims d))) (ds_dims d) (Z.of_nat sd) k.
Proof.
  intros [Hrank _ _] Hx Hk. pose proof (lookup_lt_Some _ _ _ Hx) as Hsd.
  unfold arrayh5_read_select.
  rewrite Hsize_wrap_small by hsize_range.
  destruct (Z.ltb_spec (Z.of_nat sd) 0); [lia|].
  destruct (Z.leb_spec (Z.of_nat (length (ds_dims d))) (Z.of_nat sd)); [lia|].
  destruct (Z.ltb_spec (Z.of_nat sd) (Z.of_nat (length (ds_dims d)))); [|lia].
  destruct (Z.leb_spec 0 k); [|lia]. simpl.
  rewrite (load_nat _ _ _ Hx). simpl.
  destruct (Z.ltb_spec k x); [reflexivity|lia].
Qed.

(** C3 (as amended).  For every dataset of rank >= 2 whose extents, and the
    product of whose extents other than that of axis d, are representable
    as [int], every slicedim d with 0 <= d < rank and islice k with
    0 <= k < d_d: when the transfer succeeds, [arrayh5_read] returns Ok
    and an array whose shape is the original dims with axis d removed (the
    other axes in their order and extent) and whose element at a
    multi-index is the original element at that multi-index with k
    inserted at axis d (the original restricted to index[d] == k). *)
Theorem read_slice (w : world) (g : garbage) (a : arrayh5) fname datapath
    (d : dataset) slicedim islice x :
  opens w fname datapath d -> readable d ->
  Forall (fun e => e <= Int.max_signed) (ds_dims d) ->
  product (delete (Z.to_nat slicedim) (ds_dims d)) <= Int.max_signed ->
  w_read_fails w = false ->
  (2 <= length (ds_dims d))%nat ->
  0 <= slicedim -> ds_dims d !! Z.to_nat slicedim = Some x ->
  0 <= islice < x ->
  exists out,
    arrayh5_read w g (Some a) fname datapath slicedim islice
    = Ret (0, {| rank := Z.of_nat (length (ds_dims d)) - 1;
                 dims := Live (delete (Z.to_nat slicedim) (ds_dims d));
                 N := product (delete (Z.to_nat slicedim) (ds_dims d));
                 data := Live out |})
    /\ Z.of_nat (length out)
       = product (delete (Z.to_nat slicedim) (ds_dims d))
    /\ forall idx,
         valid_index (ds_dims d) idx ->
         idx !! Z.to_nat slicedim = Some islice ->
         exists v,
           out !! Z.to_nat (flat (delete (Z.to_nat slicedim) (ds_dims d))
                              (delete (Z.to_nat slicedim) idx)) = Some v
           /\ ds_data d !! Z.to_nat (flat (ds_dims d) idx) = Some v.
Proof.
  intros Hopen Hrd Hfit HN Hok Hr2 Hs0 Hx Hk.
  set (sd := Z.to_nat slicedim) in *.
  assert (Hsd : slicedim = Z.of_nat sd) by (unfold sd; lia).
  pose proof (lookup_lt_Some _ _ _ Hx) as Hlt.
  destruct (read_slice_eval w g d sd islice x Hrd Hfit Hok Hr2 Hx Hk HN)
    as (out & Heval & Hlen & Hout).
  exists out. split; [|split; [exact Hlen|]].
  - apply (read_done _ _ _ _ _ _ _ 0).
    rewrite (read_body_select _ _ _ _ _ d) by assumption.
    rewrite (int_dims_fits d Hrd Hfit), Hsd.
    rewrite (read_select_slice _ _ _ _ _ _ x) by assumption.
    exact Heval.
  - intros idx Hidx Hfix.
    pose proof (Forall2_length _ _ _ Hidx) as Hidx_len.
    pose proof (readable_nonneg d Hrd) as Hnn.
    pose proof (within_fixed_axis _ sd islice x Hnn Hx Hk) as Hwithin.
    pose proof (slab_lookup _ _ _ (<[sd := 0]> idx) Hwithin
                  (valid_fixed_axis _ _ sd Hidx)) as Hslab.
    rewrite flat_fixed_axis in Hslab by lia.
    rewrite <- Hidx_len in Hslab at 2.
    rewrite (start_plus_index idx sd islice Hfix) in Hslab.
    apply Hout in Hslab.
    pose proof (flat_range _ _ Hidx) as Hflat.
    destruct Hrd as [_ _ Hel].
    destruct (lookup_lt_is_Some_2 (ds_data d)
                (Z.to_nat (flat (ds_dims d) idx))) as [v Hv]; [lia|].
    exists v. split; [|exact Hv]. now rewrite Hslab.
Qed.

Lemma read_slice_witness :
  exists out,
    arrayh5_read sample_world zeroed (Some stale) "a.h5" (Some "data"%string)
      1 2
    = Ret (0, {| rank := 2 - 1; dims := Live [2];
                 N := product [2]; data := Live out |})
    /\ Z.of_nat (length out) = product [2]
    /\ forall idx,
         valid_index [2; 3] idx -> idx !! 1%nat = Some 2 ->
         exists v,
           out !! Z.to_nat (flat [2] (delete 1%nat idx)) = Some v
           /\ [d_1; d_2; d_3; d_4; d_5; d_6] !! Z.to_nat (flat [2; 3] idx)
              = Some v.
Proof.
  apply (read_slice sample_world zeroed stale "a.h5" (Some "data"%string)
           sample_dataset 1 2 3).
  - sample_request.
  - sample_request.
  - simpl. repeat first [ apply List.Forall_nil
                        | apply List.Forall_cons; [unfold Int.max_signed; lia|] ].
  - unfold product, Int.max_signed. simpl. lia.
  - reflexivity.
  - simpl. lia.
  - lia.
  - reflexivity.
  - lia.
Defined.

(** C3 as stated fails for a dataset with an extent that does not fit an
    [int]: in the dataset of shape (2147483648, 2), the request
    slicedim = 0, islice = 5 lies within the extent of axis 0 and is
    refused as an invalid slice, the extent having become -2147483648. *)
Lemma read_slice_exceeds_int :
  readable wide_dataset
  /\ opens wide_world "wide.h5" None wide_dataset
  /\ ds_dims wide_dataset !! 0%nat = Some 2147483648
  /\ 0 <= 5 < 2147483648
  /\ int_dims wide_dataset = [-2147483648; 2]
  /\ arrayh5_read wide_world zeroed (Some stale) "wide.h5" None 0 5
     = Ret (5, cleared stale).
Proof.
  split; [|split; [|split; [|split; [|split]]]].
  - split.
    + simpl. unfold Int.max_signed. lia.
    + simpl. repeat constructor; unfold Hsize.modulus; lia.
    + unfold wide_dataset. cbn [ds_data ds_dims].
      rewrite length_replicate, Z2Nat.id by lia. reflexivity.
  - now exists [("data", H5G_DATASET wide_dataset)]%string, 1, "data"%string.
  - reflexivity.
  - lia.
  - reflexivity.
  - lazy. reflexivity.
Qed.

(** ** Reading: a slice of a rank-1 dataset *)




(** * Further properties of the code *)

(** ** Construction, cloning and conformance *)

Lemma store_length {A : Type} (buf buf' : list A) k x :
  store buf k x = Ret buf' -> length buf' = length buf.
Proof.
  unfold store. destruct (_ && _); [|discriminate].
  intros Hs. injection Hs as <-. apply length_insert.
Qed.

Lemma malloc_length {A : Type} (cells : nat -> A) n l :
  CHK_MALLOC cells n = Ret l -> Z.of_nat (length l) = n.
Proof.
  unfold CHK_MALLOC, CHECK. destruct (Z.leb_spec 0 n); [|discriminate].
  simpl. intros Hm. injection Hm as <-. rewrite length_malloc. lia.
Qed.




(** The loop of [arrayh5_conformant] after [k] iterations: it has returned
    0 when the first [k] extents differ somewhere. *)
Lemma conformant_loop (da db : list Z) (k : nat) :
  (k <= length da)%nat -> (k <= length db)%nat ->
  foldM (fun i (r : option Z) =>
           match r with
           | Some v => Ret (Some v)
           | None =>
             a_dims ← deref (Live da);
             b_dims ← deref (Live db);
             x ← load a_dims i;
             y ← load b_dims i;
             Ret (if negb (x =? y) then Some 0 else None)
           end)
        (seqZ 0 (Z.of_nat k)) None
  = Ret (if decide (take k da = take k db) then None else Some 0).
Proof.
  intros Ha Hb. induction k as [|k IH].
  - reflexivity.
  - rewrite foldM_seqZ0_S, IH by lia. clear IH.
    destruct (lookup_lt_is_Some_2 da k) as [x Hx]; [lia|].
    destruct (lookup_lt_is_Some_2 db k) as [y Hy]; [lia|].
    rewrite (take_S_r da k x Hx), (take_S_r db k y Hy).
    destruct (decide (take k da = take k db)) as [He|Hne]; simpl.
    + rewrite (load_nat _ _ _ Hx), (load_nat _ _ _ Hy). simpl.
      rewrite He. destruct (Z.eqb_spec x y) as [->|Hxy]; simpl.
      * now rewrite decide_True.
      * rewrite decide_False; [reflexivity|].
        intros H. apply app_inj_tail in H. now destruct H.
    + rewrite decide_False; [reflexivity|].
      intros H. apply app_inj_2 in H; [|reflexivity]. now destruct H.
Qed.

(** [arrayh5_conformant] on two arrays of the ranks their dims have. *)
Lemma conformant_eval (a b : arrayh5) da db :
  dims a = Live da -> dims b = Live db ->
  rank a = Z.of_nat (length da) -> rank b = Z.of_nat (length db) ->
  rank a <= Int.max_signed ->
  arrayh5_conformant a b = Ret (if decide (da = db) then 1 else 0).
Proof.
  intros Ha Hb Hra Hrb Hint. unfold arrayh5_conformant.
  destruct (Z.eqb_spec (rank a) (rank b)) as [Heq|Hne]; simpl.
  - rewrite for_int_foldM by int_range.
    rewrite Ha, Hb, Z.sub_0_r, Hra.
    rewrite conformant_loop by lia.
    rewrite firstn_all.
    replace (length da) with (length db) by lia.
    rewrite firstn_all. simpl.
    destruct (decide (da = db)); reflexivity.
  - rewrite decide_False; [reflexivity|]. intros ->. lia.
Qed.

(** X2.  [arrayh5_conformant] decides the equality of rank and dims.  Arrays of
    different rank are not conformant, and their dims are not even read;
    arrays of one rank are conformant exactly when their dims sequences
    are equal.  N and data play no part. *)
Theorem conformant_decides (a b : arrayh5) :
  (rank a <> rank b -> arrayh5_conformant a b = Ret 0)
  /\ (forall da db,
        dims a = Live da -> dims b = Live db ->
        rank a = Z.of_nat (length da) -> rank b = Z.of_nat (length db) ->
        rank a <= Int.max_signed ->
        arrayh5_conformant a b = Ret (if decide (da = db) then 1 else 0)).
Proof.
  split.
  - intros Hne. unfold arrayh5_conformant.
    destruct (Z.eqb_spec (rank a) (rank b)); [contradiction|reflexivity].
  - apply conformant_eval.
Qed.

Lemma conformant_decides_witness :
  arrayh5_conformant A23
    {| rank := 2; dims := Live [3; 2]; N := 6; data := Null |}
  = Ret 0.
Proof.
  apply (proj2 (conformant_decides A23
                  {| rank := 2; dims := Live [3; 2]; N := 6; data := Null |})
           [2; 3] [3; 2]); try reflexivity.
  unfold Int.max_signed. simpl. lia.
Defined.

(** X3.  [arrayh5_clone] copies the shape and not the contents: the clone of a
    well-formed array has the same rank, dims and N, is conformant with
    the original (in either order), and owns a new data buffer of N cells
    whose contents are indeterminate, whatever the original holds. *)
Theorem clone_shape_only (g : garbage) (a : arrayh5) ds xs :
  well_formed a ds xs ->
  exists b,
    arrayh5_clone g a = Ret b
    /\ rank b = rank a /\ dims b = Live ds /\ N b = N a
    /\ data b = Live (map (g_double g 66) (seq 0 (Z.to_nat (N a))))
    /\ arrayh5_conformant b a = Ret 1
    /\ arrayh5_conformant a b = Ret 1.
Proof.
  intros [Hd Hx Hr He HN Hl Hri HNi].
  assert (Hnn : 0 <= product ds).
  { apply product_nonneg. eapply Forall_impl; [exact He|]. simpl. lia. }
  unfold arrayh5_clone, arrayh5_create. rewrite Hd. simpl.
  rewrite create_withdata_eq by assumption.
  rewrite Int_wrap_small
    by (unfold Int.in_range, Int.min_signed, Int.max_signed in *; lia).
  rewrite CHK_MALLOC_Ret by assumption. simpl.
  eexists. split; [reflexivity|]. simpl. rewrite HN.
  repeat split; try reflexivity.
  - apply (conformant_same _ _ ds); auto.
  - apply (conformant_same _ _ ds); auto.
Qed.

Lemma clone_shape_only_witness :
  exists b,
    arrayh5_clone zeroed A23 = Ret b
    /\ rank b = rank A23 /\ dims b = Live [2; 3] /\ N b = N A23
    /\ data b = Live (map (g_double zeroed 66) (seq 0 (Z.to_nat (N A23))))
    /\ arrayh5_conformant b A23 = Ret 1
    /\ arrayh5_conformant A23 b = Ret 1.
Proof.
  apply (clone_shape_only zeroed A23 [2; 3] [d_1; d_2; d_3; d_4; d_5; d_6]).
  well_formed_by_evaluation.
Defined.

(** ** Transpose at any rank *)

Lemma flat_snoc (l idx : list Z) d i :
  length idx = length l ->
  flat (l ++ [d]) (idx ++ [i]) = flat l idx * d + i.
Proof.
  revert idx. induction l as [|x l IH]; intros [|j idx] Hlen;
    try discriminate.
  - simpl. change (product []) with 1. lia.
  - simpl. rewrite IH by (simpl in Hlen; lia).
    rewrite product_snoc. lia.
Qed.

(** The transposed position of a multi-index is the reversed multi-index
    in the reversed shape. *)
Lemma toffset_flat (ds idx : list Z) :
  valid_index ds idx ->
  toffset ds (flat ds idx) = flat (reverse ds) (reverse idx).
Proof.
  unfold valid_index. induction 1 as [|i d idx ds Hid Hv IH].
  - reflexivity.
  - pose proof (flat_range ds idx Hv) as Hr.
    simpl. destruct (div_mod_block i (product ds) (flat ds idx) Hr)
      as [-> ->].
    rewrite IH, !reverse_cons.
    rewrite flat_snoc
      by (rewrite !length_reverse; eapply Forall2_length; eassumption).
    lia.
Qed.

(** X4.  At any rank, [arrayh5_transpose] reverses the dims sequence, keeps
    rank and N, and moves every element to the reversed multi-index:
    result[i_{r-1}, ..., i_0] == original[i_0, ..., i_{r-1}]. *)
Theorem transpose_reverses_axes (g : garbage) (a : arrayh5) ds xs :
  well_formed a ds xs ->
  exists ys,
    arrayh5_transpose g a =
      Ret {| rank := rank a; dims := Live (reverse ds); N := N a;
             data := Live ys |}
    /\ length ys = length xs
    /\ forall idx, valid_index ds idx ->
         exists v,
           ys !! Z.to_nat (flat (reverse ds) (reverse idx)) = Some v
           /\ xs !! Z.to_nat (flat ds idx) = Some v.
Proof.
  intros Hwf. destruct (transpose_spec g a ds xs Hwf) as (ys & Ht & Hl & Hys).
  exists ys. split; [exact Ht|]. split; [exact Hl|].
  intros idx Hv. destruct Hwf as [Hd Hx Hr He HN Hlen Hri HNi].
  pose proof (flat_range ds idx Hv) as Hf.
  assert (Hv' : valid_index (reverse ds) (reverse idx))
    by (apply Forall2_reverse, Hv).
  pose proof (flat_range _ _ Hv') as Hf'. rewrite product_reverse in Hf'.
  destruct (lookup_lt_is_Some_2 xs (Z.to_nat (flat ds idx))) as [v Hxv];
    [lia|].
  exists v. split; [|exact Hxv].
  rewrite Hys by lia. rewrite Z2Nat.id by lia.
  rewrite toffset_flat by exact Hv'.
  now rewrite !reverse_involutive.
Qed.

Lemma transpose_reverses_axes_witness :
  exists ys,
    arrayh5_transpose zeroed A23 =
      Ret {| rank := rank A23; dims := Live (reverse [2; 3]); N := N A23;
             data := Live ys |}
    /\ length ys = length [d_1; d_2; d_3; d_4; d_5; d_6]
    /\ forall idx, valid_index [2; 3] idx ->
         exists v,
           ys !! Z.to_nat (flat (reverse [2; 3]) (reverse idx)) = Some v
           /\ [d_1; d_2; d_3; d_4; d_5; d_6] !! Z.to_nat (flat [2; 3] idx)
              = Some v.
Proof.
  apply (transpose_reverses_axes zeroed A23 [2; 3]
           [d_1; d_2; d_3; d_4; d_5; d_6]).
  well_formed_by_evaluation.
Defined.

(** X5.  A transposed array is conformant with the original exactly when its
    dims sequence reads the same in both directions. *)
Theorem transpose_conformant (g : garbage) (a : arrayh5) ds xs :
  well_formed a ds xs ->
  exists a',
    arrayh5_transpose g a = Ret a'
    /\ arrayh5_conformant a' a
       = Ret (if decide (reverse ds = ds) then 1 else 0).
Proof.
  intros Hwf. destruct (transpose_spec g a ds xs Hwf) as (ys & Ht & _).
  eexists. split; [exact Ht|].
  destruct Hwf as [Hd Hx Hr He HN Hl Hri HNi].
  apply conformant_eval; simpl; auto.
  now rewrite length_reverse.
Qed.

Lemma transpose_conformant_witness :
  exists a',
    arrayh5_transpose zeroed A23 = Ret a'
    /\ arrayh5_conformant a' A23
       = Ret (if decide (reverse [2; 3] = [2; 3]) then 1 else 0).
Proof.
  apply (transpose_conformant zeroed A23 [2; 3]
           [d_1; d_2; d_3; d_4; d_5; d_6]).
  well_formed_by_evaluation.
Defined.

(** ** Range: NaN and layout *)

Lemma SFltb_nan_l (m : double) : SFltb S754_nan m = false.
Proof. sf_cases. Qed.

Lemma SFgtb_nan_l (m : double) : SFgtb S754_nan m = false.
Proof. sf_cases. Qed.

Lemma SFltb_nan_r (x : double) : SFltb x S754_nan = false.
Proof. sf_cases. Qed.

Lemma SFgtb_nan_r (x : double) : SFgtb x S754_nan = false.
Proof. sf_cases. Qed.

Lemma is_nan_eq (x : double) : is_nan x = true -> x = S754_nan.
Proof. destruct x; simpl; congruence. Qed.

Lemma SFleb_antisym (x y : double) :
  SFleb x y = true -> SFleb y x = true -> same_value x y.
Proof. unfold same_value. sf_cases. Qed.

Lemma non_nan_elem (x : double) l : x ∈ non_nan l -> is_nan x = false /\ x ∈ l.
Proof. unfold non_nan. now rewrite list_elem_of_filter. Qed.

Lemma non_nan_snoc (l : list double) x :
  non_nan (l ++ [x]) = if is_nan x then non_nan l else non_nan l ++ [x].
Proof.
  unfold non_nan. rewrite filter_app.
  destruct (is_nan x) eqn:Hx.
  - rewrite filter_cons_False by congruence. now rewrite filter_nil, app_nil_r.
  - now rewrite filter_cons_True by exact Hx.
Qed.

(** The scan of [arrayh5_getrange] after [k] iterations, when it starts
    on a NaN: nothing compares below or above it. *)
Lemma getrange_loop_nan (buf : list double) (k : nat) :
  (k < length buf)%nat ->
  foldM (fun i '(min, max) =>
           x ← load buf i;
           let min := if SFltb x min then x else min in
           y ← load buf i;
           let max := if SFgtb y max then y else max in
           Ret (min, max))
        (seqZ 1 (Z.of_nat k)) (S754_nan, S754_nan)
  = Ret (S754_nan, S754_nan).
Proof.
  intros Hk. induction k as [|k IH]; [reflexivity|].
  rewrite foldM_seqZ_S, IH by lia. simpl.
  destruct (lookup_lt_is_Some_2 buf (Datatypes.S k)) as [x Hx]; [lia|].
  replace (1 + Z.of_nat k) with (Z.of_nat (Datatypes.S k)) by lia.
  rewrite (load_nat _ _ _ Hx). simpl.
  now rewrite SFltb_nan_r, SFgtb_nan_r.
Qed.

(** The scan after [k] iterations, when it starts on a number: NaN
    elements leave the running minimum and maximum as they are. *)
Lemma getrange_loop_skip (buf : list double) x0 (k : nat) :
  buf !! 0%nat = Some x0 -> is_nan x0 = false -> (k < length buf)%nat ->
  exists mn mx,
    foldM (fun i '(min, max) =>
             x ← load buf i;
             let min := if SFltb x min then x else min in
             y ← load buf i;
             let max := if SFgtb y max then y else max in
             Ret (min, max))
          (seqZ 1 (Z.of_nat k)) (x0, x0) = Ret (mn, mx)
    /\ is_minimum mn (non_nan (take (Datatypes.S k) buf))
    /\ is_maximum mx (non_nan (take (Datatypes.S k) buf)).
Proof.
  intros H0 Hx0 Hk. induction k as [|k IH].
  - exists x0, x0. destruct buf as [|b buf]; [discriminate|].
    simpl in H0. injection H0 as ->. simpl. rewrite take_0.
    unfold non_nan. rewrite filter_cons_True, filter_nil by exact Hx0.
    auto using is_minimum_singleton, is_maximum_singleton.
  - destruct IH as (mn & mx & Hfold & Hmn & Hmx); [lia|].
    destruct (lookup_lt_is_Some_2 buf (Datatypes.S k)) as [x Hx]; [lia|].
    rewrite foldM_seqZ_S, Hfold. simpl.
    replace (1 + Z.of_nat k) with (Z.of_nat (Datatypes.S k)) by lia.
    rewrite (load_nat _ _ _ Hx). simpl.
    eexists _, _. split; [reflexivity|].
    erewrite (take_S_r buf (Datatypes.S k)) by eassumption.
    rewrite non_nan_snoc. destruct (is_nan x) eqn:Hxn.
    + apply is_nan_eq in Hxn as ->.
      now rewrite SFltb_nan_l, SFgtb_nan_l.
    + split.
      * apply is_minimum_snoc; auto. apply (non_nan_elem _ _ (proj1 Hmn)).
      * apply is_maximum_snoc; auto. apply (non_nan_elem _ _ (proj1 Hmx)).
Qed.

(** [arrayh5_getrange] on a buffer of at least N > 0 cells is the scan of
    data[1..N-1] started on data[0]. *)
Lemma getrange_unfold (a : arrayh5) (buf : list double) x0 :
  0 < N a <= Int.max_signed -> data a = Live buf ->
  buf !! 0%nat = Some x0 ->
  arrayh5_getrange a =
    foldM (fun i '(min, max) =>
             x ← load buf i;
             let min := if SFltb x min then x else min in
             y ← load buf i;
             let max := if SFgtb y max then y else max in
             Ret (min, max))
          (seqZ 1 (Z.of_nat (Z.to_nat (N a - 1)))) (x0, x0).
Proof.
  intros HN Hdata Hx0. unfold arrayh5_getrange, CHECK.
  destruct (Z.ltb_spec 0 (N a)); [|lia]. simpl. rewrite Hdata. simpl.
  rewrite (load_Ret buf 0 x0) by (simpl; auto with zarith). simpl.
  rewrite for_int_foldM by (unfold Int.min_signed; lia).
  now rewrite Z2Nat.id by lia.
Qed.

(** On N > 0 numbers, [arrayh5_getrange] returns a least and a greatest
    of them. *)
Lemma getrange_numbers (a : arrayh5) (buf : list double) :
  0 < N a <= Int.max_signed -> data a = Live buf ->
  Z.of_nat (length buf) = N a ->
  Forall (fun x => is_nan x = false) buf ->
  exists mn mx,
    arrayh5_getrange a = Ret (mn, mx)
    /\ is_minimum mn buf /\ is_maximum mx buf.
Proof.
  intros HN Hdata Hlen Hnan.
  destruct (lookup_lt_is_Some_2 buf 0%nat) as [x0 Hx0]; [lia|].
  destruct (getrange_loop buf x0 (Z.to_nat (N a - 1)) Hx0) as
    (mn & mx & Hfold & Hmn & Hmx); [lia|assumption|].
  exists mn, mx. rewrite (getrange_unfold a buf x0) by assumption.
  split; [exact Hfold|].
  rewrite take_ge in Hmn, Hmx by lia. auto.
Qed.

(** X6.  How [arrayh5_getrange] treats NaN.  It scans data[0..N-1] (the buffer
    may be longer).  When data[0] is NaN the result is (NaN, NaN) whatever
    follows; otherwise NaN elements are passed over and the result is a
    least and a greatest of the elements that are not NaN. *)
Theorem getrange_passes_over_nan (a : arrayh5) (buf : list double) x0 :
  0 < N a <= Int.max_signed -> data a = Live buf ->
  N a <= Z.of_nat (length buf) -> buf !! 0%nat = Some x0 ->
  (is_nan x0 = true -> arrayh5_getrange a = Ret (S754_nan, S754_nan))
  /\ (is_nan x0 = false ->
      exists mn mx,
        arrayh5_getrange a = Ret (mn, mx)
        /\ is_minimum mn (non_nan (take (Z.to_nat (N a)) buf))
        /\ is_maximum mx (non_nan (take (Z.to_nat (N a)) buf))).
Proof.
  intros HN Hdata Hlen Hx0.
  rewrite (getrange_unfold a buf x0) by assumption.
  split.
  - intros Hnan. apply is_nan_eq in Hnan as ->.
    apply getrange_loop_nan. lia.
  - intros Hnum.
    destruct (getrange_loop_skip buf x0 (Z.to_nat (N a - 1)) Hx0 Hnum)
      as (mn & mx & Hfold & Hmn & Hmx); [lia|].
    exists mn, mx. split; [exact Hfold|].
    replace (Datatypes.S (Z.to_nat (N a - 1))) with (Z.to_nat (N a))
      in Hmn, Hmx by lia.
    auto.
Qed.

Lemma getrange_passes_over_nan_witness :
  exists mn mx,
    arrayh5_getrange {| rank := 1; dims := Live [3]; N := 3;
                        data := Live [d_3; S754_nan; d_m1; d_7] |}
      = Ret (mn, mx)
    /\ is_minimum mn (non_nan (take (Z.to_nat 3) [d_3; S754_nan; d_m1; d_7]))
    /\ is_maximum mx (non_nan (take (Z.to_nat 3) [d_3; S754_nan; d_m1; d_7])).
Proof.
  apply (proj2 (getrange_passes_over_nan
                  {| rank := 1; dims := Live [3]; N := 3;
                     data := Live [d_3; S754_nan; d_m1; d_7] |}
                  [d_3; S754_nan; d_m1; d_7] d_3
                  ltac:(unfold Int.max_signed; simpl; lia)
                  eq_refl ltac:(simpl; lia) eq_refl)).
  reflexivity.
Defined.

Lemma is_minimum_same (m1 m2 : double) (l1 l2 : list double) :
  (forall x, x ∈ l1 <-> x ∈ l2) ->
  is_minimum m1 l1 -> is_minimum m2 l2 -> same_value m1 m2.
Proof.
  intros Hel [H1 F1] [H2 F2]. rewrite Forall_forall in F1, F2.
  apply SFleb_antisym.
  - apply F1, Hel, H2.
  - apply F2, Hel, H1.
Qed.

Lemma is_maximum_same (m1 m2 : double) (l1 l2 : list double) :
  (forall x, x ∈ l1 <-> x ∈ l2) ->
  is_maximum m1 l1 -> is_maximum m2 l2 -> same_value m1 m2.
Proof.
  intros Hel [H1 F1] [H2 F2]. rewrite Forall_forall in F1, F2.
  apply SFleb_antisym.
  - apply F2, Hel, H1.
  - apply F1, Hel, H2.
Qed.

(** The transposed buffer holds the elements of the original. *)
Lemma transpose_elements (ds : list Z) (xs ys : list double) :
  Forall (fun d => 1 <= d) ds ->
  Z.of_nat (length xs) = product ds -> length ys = length xs ->
  (forall q : nat, (q < length xs)%nat ->
     ys !! q = xs !! Z.to_nat (toffset (reverse ds) (Z.of_nat q))) ->
  forall x, x ∈ ys <-> x ∈ xs.
Proof.
  intros Hpos Hlen Hl Hys x. rewrite !list_elem_of_lookup. split.
  - intros [q Hq]. pose proof (lookup_lt_Some _ _ _ Hq) as Hlt.
    rewrite Hys in Hq by lia. eauto.
  - intros [p Hp]. pose proof (lookup_lt_Some _ _ _ Hp) as Hlt.
    pose proof (toffset_range ds (Z.of_nat p) Hpos ltac:(lia)) as Hr.
    exists (Z.to_nat (toffset ds (Z.of_nat p))).
    rewrite Hys by lia. rewrite Z2Nat.id by lia.
    rewrite toffset_involutive by (auto; lia).
    now rewrite Nat2Z.id.
Qed.

(** X7.  The range does not depend on the layout: for an array without NaN,
    [arrayh5_getrange] after [arrayh5_transpose] returns the same minimum
    and maximum as before it, as values (a zero may come back with the
    other sign). *)
Theorem getrange_transpose (g : garbage) (a : arrayh5) ds xs :
  well_formed a ds xs -> 0 < N a ->
  Forall (fun x => is_nan x = false) xs ->
  exists mn mx a' mn' mx',
    arrayh5_getrange a = Ret (mn, mx)
    /\ arrayh5_transpose g a = Ret a'
    /\ arrayh5_getrange a' = Ret (mn', mx')
    /\ same_value mn mn' /\ same_value mx mx'.
Proof.
  intros Hwf HN Hnan.
  destruct (transpose_spec g a ds xs Hwf) as (ys & Ht & Hl & Hys).
  destruct Hwf as [Hd Hx Hr He HNp Hlen Hri HNi].
  assert (Hpos : Forall (fun d => 1 <= d) ds).
  { destruct (extents_cases ds He) as [Hp|[j Hj]]; [exact Hp|].
    apply product_zero in Hj. lia. }
  pose proof (transpose_elements ds xs ys Hpos ltac:(lia) Hl Hys) as Hel.
  assert (Hnan' : Forall (fun x => is_nan x = false) ys).
  { rewrite Forall_forall in Hnan. apply Forall_forall.
    intros y Hy. apply Hnan, Hel, Hy. }
  destruct (getrange_numbers a xs ltac:(lia) Hx Hlen Hnan)
    as (mn & mx & Hg & Hmn & Hmx).
  destruct (getrange_numbers
              {| rank := rank a; dims := Live (reverse ds); N := N a;
                 data := Live ys |} ys
              ltac:(simpl; lia) eq_refl ltac:(simpl; lia) Hnan')
    as (mn' & mx' & Hg' & Hmn' & Hmx').
  exists mn, mx. eexists. exists mn', mx'.
  split; [exact Hg|]. split; [exact Ht|]. split; [exact Hg'|].
  split.
  - apply (is_minimum_same mn mn' xs ys); auto. intros x. now rewrite Hel.
  - apply (is_maximum_same mx mx' xs ys); auto. intros x. now rewrite Hel.
Qed.

Lemma getrange_transpose_witness :
  exists mn mx a' mn' mx',
    arrayh5_getrange A23 = Ret (mn, mx)
    /\ arrayh5_transpose zeroed A23 = Ret a'
    /\ arrayh5_getrange a' = Ret (mn', mx')
    /\ same_value mn mn' /\ same_value mx mx'.
Proof.
  apply (getrange_transpose zeroed A23 [2; 3]
           [d_1; d_2; d_3; d_4; d_5; d_6]).
  - well_formed_by_evaluation.
  - simpl. lia.
  - repeat constructor.
Defined.

(** ** Reading: how the dataset is found *)

Lemma H5Giterate_groups (file : h5file) :
  Forall (fun e => e.2 = H5G_GROUP) file ->
  H5Giterate file find_dataset Null = (0, Null).
Proof.
  induction 1 as [|[name obj] file Hobj _ IH]; [reflexivity|].
  simpl in Hobj. subst obj. simpl. exact IH.
Qed.

Lemma H5Giterate_first (pre post : h5file) name (d : dataset) :
  Forall (fun e => e.2 = H5G_GROUP) pre ->
  H5Giterate (pre ++ (name, H5G_DATASET d) :: post) find_dataset Null
  = (1, Live name).
Proof.
  induction 1 as [|[n obj] pre Hobj _ IH]; [reflexivity|].
  simpl in Hobj. subst obj. simpl. exact IH.
Qed.

Lemma lookup_name_app {A : Type} name (pre post : list (string * A)) :
  lookup_name name pre = None ->
  lookup_name name (pre ++ post) = lookup_name name post.
Proof.
  induction pre as [|[n x] pre IH]; [reflexivity|]. simpl.
  destruct (String.eqb n name); [discriminate|exact IH].
Qed.

Lemma lookup_name_head {A : Type} name (x : A) (l : list (string * A)) :
  lookup_name name ((name, x) :: l) = Some x.
Proof. simpl. now rewrite String.eqb_refl. Qed.

(** X8.  The statuses of the steps that lead to the dataset, whatever slicedim
    and islice are: 1 when the file does not open; 2 when no datapath is
    given (NULL or empty) and no top-level entry is a dataset; 7 when the
    datapath names no dataset of the file (nothing, or a group); 6 when
    the dataset has rank 0.  In each case the dims and data fields of the
    output array are null. *)
Theorem read_resolution_errors (w : world) (g : garbage) (a : arrayh5)
    (fname : string) (slicedim islice : Z) :
  (H5Fopen w fname = None ->
   forall datapath,
     arrayh5_read w g (Some a) fname datapath slicedim islice
     = Ret (1, cleared a))
  /\ (forall file datapath,
        H5Fopen w fname = Some file ->
        datapath = None \/ datapath = Some EmptyString ->
        Forall (fun e => e.2 = H5G_GROUP) file ->
        arrayh5_read w g (Some a) fname datapath slicedim islice
        = Ret (2, cleared a))
  /\ (forall file name,
        H5Fopen w fname = Some file -> name <> EmptyString ->
        H5Dopen file name = None ->
        arrayh5_read w g (Some a) fname (Some name) slicedim islice
        = Ret (7, cleared a))
  /\ (forall datapath d,
        opens w fname datapath d -> ds_dims d = [] ->
        arrayh5_read w g (Some a) fname datapath slicedim islice
        = Ret (6, cleared a)).
Proof.
  repeat split.
  - intros Hopen datapath. unfold arrayh5_read, arrayh5_read_body.
    now rewrite Hopen.
  - intros file datapath Hopen Hpath Hgroups.
    unfold arrayh5_read, arrayh5_read_body. rewrite Hopen.
    destruct Hpath as [-> | ->]; now rewrite H5Giterate_groups.
  - intros file name Hopen Hname Hnone.
    unfold arrayh5_read, arrayh5_read_body. rewrite Hopen.
    destruct name as [|c name]; [contradiction|]. simpl.
    now rewrite Hnone.
  - intros datapath d (file & found & dname & Hfile & Hname & Hfound & Hd)
      Hdims.
    unfold arrayh5_read, arrayh5_read_body. rewrite Hfile, Hname.
    destruct (Z.leb_spec found 0); [lia|]. simpl. rewrite Hd.
    unfold H5Sget_simple_extent_ndims, H5Dget_space, H5Screate_simple.
    simpl. rewrite Hdims. reflexivity.
Qed.

Lemma read_resolution_errors_witness :
  arrayh5_read sample_world zeroed (Some stale) "a.h5" (Some "grp"%string)
    0 0
  = Ret (7, cleared stale).
Proof.
  apply (proj1 (proj2 (proj2 (read_resolution_errors sample_world zeroed
                                stale "a.h5" 0 0)))
           [("grp", H5G_GROUP); ("data", H5G_DATASET sample_dataset)]%string
           "grp"%string); [reflexivity|discriminate|reflexivity].
Defined.

(** X9.  Without a datapath the first top-level dataset in iteration order is
    read, groups being passed over: an empty datapath behaves as NULL,
    and both behave as the name of that dataset, for every slicedim and
    islice. *)
Theorem read_default_dataset (w : world) (g : garbage) (a : option arrayh5)
    (fname name : string) (pre post : h5file) (d : dataset)
    (slicedim islice : Z) :
  H5Fopen w fname = Some (pre ++ (name, H5G_DATASET d) :: post) ->
  Forall (fun e => e.2 = H5G_GROUP) pre ->
  lookup_name name pre = None ->
  opens w fname None d
  /\ arrayh5_read w g a fname (Some EmptyString) slicedim islice
     = arrayh5_read w g a fname None slicedim islice
  /\ arrayh5_read w g a fname (Some name) slicedim islice
     = arrayh5_read w g a fname None slicedim islice.
Proof.
  intros Hopen Hgroups Hfresh.
  assert (Hd : H5Dopen (pre ++ (name, H5G_DATASET d) :: post) name = Some d).
  { unfold H5Dopen. now rewrite lookup_name_app, lookup_name_head. }
  split; [|split].
  - exists (pre ++ (name, H5G_DATASET d) :: post), 1, name.
    rewrite H5Giterate_first by assumption. repeat split; auto.
  - reflexivity.
  - destruct a as [a|]; [|reflexivity].
    unfold arrayh5_read, arrayh5_read_body. rewrite Hopen.
    rewrite H5Giterate_first by assumption.
    destruct name; reflexivity.
Qed.

Lemma read_default_dataset_witness :
  opens sample_world "a.h5" None sample_dataset
  /\ arrayh5_read sample_world zeroed (Some stale) "a.h5" (Some EmptyString)
       1 2
     = arrayh5_read sample_world zeroed (Some stale) "a.h5" None 1 2
  /\ arrayh5_read sample_world zeroed (Some stale) "a.h5"
       (Some "data"%string) 1 2
     = arrayh5_read sample_world zeroed (Some stale) "a.h5" None 1 2.
Proof.
  apply (read_default_dataset sample_world zeroed (Some stale) "a.h5" "data"
           [("grp", H5G_GROUP)]%string [] sample_dataset 1 2).
  - reflexivity.
  - repeat constructor.
  - reflexivity.
Defined.

(** ** Reading: the status and the array returned *)

(** X10.  Every status [arrayh5_read] returns lies in 0..7 and so selects a
    message of [arrayh5_read_strerror]. *)
Theorem read_status_has_message (w : world) (g : garbage)
    (a : option arrayh5) fname datapath slicedim islice err a' :
  arrayh5_read w g a fname datapath slicedim islice = Ret (err, a') ->
  0 <= err <= 7
  /\ exists msg, arrayh5_read_strerror !! Z.to_nat err = Some msg.
Proof.
  intros H. destruct a as [a|]; [|discriminate H].
  unfold arrayh5_read in H. inv_bind H. destruct a0 as [e a_body].
  apply body_outcome in E.
  assert (He : e = err).
  { destruct ((3 <=? e) && (e <=? 4)); inv_binds H; congruence. }
  subst e.
  assert (Hcases : err = 0 \/ err = 1 \/ err = 2 \/ err = 3 \/ err = 4
                   \/ err = 5 \/ err = 6 \/ err = 7) by intuition.
  clear -Hcases.
  repeat (destruct Hcases as [->|Hcases]); try subst err;
    (split; [lia|]); eexists; reflexivity.
Qed.

Lemma read_status_has_message_witness :
  0 <= 5 <= 7
  /\ exists msg, arrayh5_read_strerror !! Z.to_nat 5 = Some msg.
Proof.
  apply (read_status_has_message sample_world zeroed (Some stale) "a.h5"
           (Some "data"%string) 0 5 5 (cleared stale)).
  reflexivity.
Defined.

(** A property of the loop variables that every iteration keeps holds
    when the loop ends. *)
Lemma for_invariant {S : Type} (P : S -> Prop) fuel incr cond
    (body : Z -> S -> result S) :
  (forall i s s', P s -> body i s = Ret s' -> P s') ->
  forall i s s', P s -> for_ fuel incr cond body i s = Ret s' -> P s'.
Proof.
  intros Hbody. induction fuel as [|fuel IH]; intros i s s' Hs H; simpl in H.
  - destruct (cond i); [discriminate|]. now injection H as <-.
  - destruct (cond i); [|now injection H as <-].
    destruct (body i s) as [s1| | |] eqn:E; try discriminate.
    simpl in H. eapply IH; [|exact H]. eapply Hbody; eassumption.
Qed.

Lemma create_sized g r ds a :
  arrayh5_create g r ds = Ret a -> sized a /\ rank a = r.
Proof.
  unfold arrayh5_create, arrayh5_create_withdata. intros H.
  inv_binds H. inv_binds E2. subst. simpl.
  split; [|reflexivity]. exists l, a3. simpl.
  apply malloc_length in E0, E3.
  assert (Hl : length l = length a1).
  { unfold for_int in E1.
    apply (for_invariant (fun s => length s.1 = length a1)) in E1;
      [exact E1| |reflexivity].
    intros i [l0 n0] [l1 n1] Hs Hb. simpl in *.
    inv_binds Hb. subst.
    match goal with
    | Hst : store _ _ _ = Ret _ |- _ => apply store_length in Hst
    end. congruence. }
  repeat split; congruence.
Qed.

Lemma transfer_length (src dst : list Z) (elements : list double) :
  forall buf buf',
    transfer src dst elements buf = Ret buf' -> length buf' = length buf.
Proof.
  revert dst. induction src as [|s src IH]; intros dst buf buf' H.
  - simpl in H. now injection H as <-.
  - destruct dst as [|t dst]; simpl in H; [now injection H as <-|].
    inv_bind H. inv_bind H. apply IH in H.
    match goal with
    | Hst : store _ _ _ = Ret _ |- _ => apply store_length in Hst
    end. congruence.
Qed.

Lemma H5Dread_length w d mem_space file_space buf e buf' :
  H5Dread w d mem_space file_space buf = Ret (e, buf') ->
  length buf' = length buf.
Proof.
  unfold H5Dread. intros H.
  destruct (w_read_fails w); [now injection H as _ <-|].
  destruct (selected _) as [src|]; [|now injection H as _ <-].
  destruct (selected _) as [dst|]; [|now injection H as _ <-].
  destruct (_ =? _)%nat; [|now injection H as _ <-].
  inv_bind H. injection H as _ <-. eapply transfer_length; eassumption.
Qed.

Lemma sized_read (a : arrayh5) (xs xs' : list double) w d ms fs e :
  sized a -> deref (data a) = Ret xs ->
  H5Dread w d ms fs xs = Ret (e, xs') ->
  sized (set_data a (Live xs')).
Proof.
  intros (ds & ys & Hd & Hy & Hr & Hn) Hxs Hread.
  apply H5Dread_length in Hread. rewrite Hy in Hxs. injection Hxs as ->.
  exists ds, xs'. simpl. repeat split; auto; congruence.
Qed.

Lemma slice_sized w g d space r ds slicedim islice err a :
  arrayh5_read_slice w g d space r ds slicedim islice = Ret (err, a) ->
  sized a.
Proof.
  unfold arrayh5_read_slice. intros H.
  inv_binds H.
  all: match goal with
       | Hif : (if Hsize.sub ?r' 1 =? 0 then _ else _) = Ret (_, _, ?a') |- _ =>
         assert (Ha : sized a')
           by (destruct (Hsize.sub r' 1 =? 0); inv_binds Hif;
               match goal with
               | Hc : arrayh5_create _ _ _ = Ret _ |- _ =>
                 apply create_sized in Hc; subst; apply Hc
               end)
       end.
  all: subst; eapply sized_read; eassumption.
Qed.

(** What [arrayh5_read] returns with the status 0 is an array. *)
Lemma select_sized w g a0 d space r ds slicedim islice a :
  arrayh5_read_select w g a0 d space r ds slicedim islice = Ret (0, a) ->
  sized a.
Proof.
  unfold arrayh5_read_select. intros H.
  destruct ((slicedim <? 0) || ((r <=? Hsize.wrap slicedim) && (islice =? 0))).
  - inv_binds H.
    match goal with
    | Hc : arrayh5_create _ _ _ = Ret _ |- _ =>
      apply create_sized in Hc; destruct Hc as [Hc _]
    end.
    subst. eapply sized_read; eassumption.
  - inv_bind H. destruct a1.
    + eapply slice_sized; eassumption.
    + discriminate H.
Qed.

Lemma body_sized w g a0 fname datapath slicedim islice a :
  arrayh5_read_body w g a0 fname datapath slicedim islice = Ret (0, a) ->
  sized a.
Proof.
  unfold arrayh5_read_body. intros H.
  destruct (H5Fopen w fname) as [file|]; [|discriminate H].
  destruct (match datapath with
            | Some (String c path) => (1, Live (String c path))
            | _ => H5Giterate file find_dataset Null
            end) as [found dname].
  destruct (found <=? 0); [discriminate H|].
  inv_bind H.
  destruct (H5Dopen file a1) as [d|]; [|discriminate H].
  destruct (_ <=? 0); [discriminate H|].
  inv_bind H. inv_bind H. inv_bind H. inv_bind H.
  eapply select_sized; eassumption.
Qed.

(** X11.  A read that returns the status 0 returns an array whose buffers are
    allocated with the sizes its fields announce: dims holds rank extents
    and data holds N elements.  Destroying it once is defined, destroying
    it twice is not. *)
Theorem read_ok_sized (w : world) (g : garbage) (a : option arrayh5)
    fname datapath slicedim islice a' :
  arrayh5_read w g a fname datapath slicedim islice = Ret (0, a') ->
  sized a'
  /\ arrayh5_destroy a' = Ret (freed a')
  /\ arrayh5_destroy (freed a') = Undef.
Proof.
  intros H. destruct a as [a|]; [|discriminate H].
  unfold arrayh5_read in H. inv_bind H. destruct a0 as [e a_body].
  assert (He : e = 0).
  { destruct ((3 <=? e) && (e <=? 4)); inv_binds H; congruence. }
  subst e. simpl in H. injection H as ->.
  apply body_sized in E. split; [exact E|].
  destruct E as (ds & xs & Hd & Hx & _).
  unfold arrayh5_destroy, freed. simpl. rewrite Hd, Hx. auto.
Qed.

Lemma read_ok_sized_witness :
  sized (full_array sample_dataset)
  /\ arrayh5_destroy (full_array sample_dataset)
     = Ret (freed (full_array sample_dataset))
  /\ arrayh5_destroy (freed (full_array sample_dataset)) = Undef.
Proof.
  apply (read_ok_sized sample_world zeroed (Some stale) "a.h5"
           (Some "data"%string) (-1) 0).
  reflexivity.
Defined.

(** X12.  After a read that returns ReadError (3) or SliceReadError (4) the
    output array holds the pointers already freed: destroying it, as one
    would an array that was read, frees them a second time. *)
Theorem destroy_after_failed_read (w : world) (g : garbage)
    (a : option arrayh5) fname datapath slicedim islice err a' :
  arrayh5_read w g a fname datapath slicedim islice = Ret (err, a') ->
  err = 3 \/ err = 4 ->
  arrayh5_destroy a' = Undef.
Proof.
  intros H Herr. destruct a as [a|]; [|discriminate H].
  unfold arrayh5_read in H. inv_bind H. destruct a0 as [e a_body].
  assert (He : e = err).
  { destruct ((3 <=? e) && (e <=? 4)); inv_binds H; congruence. }
  subst e. apply body_outcome in E.
  destruct E as [[He _]|[_ ([ds Hds] & [xs Hxs])]]; [lia|].
  assert (Hyes : (3 <=? err) && (err <=? 4) = true)
    by (destruct Herr as [->| ->]; reflexivity).
  rewrite Hyes in H. unfold arrayh5_destroy in H.
  rewrite Hds, Hxs in H. simpl in H. injection H as <-.
  reflexivity.
Qed.

Lemma destroy_after_failed_read_witness :
  arrayh5_destroy (freed (full_array sample_dataset)) = Undef.
Proof.
  apply (destroy_after_failed_read failing_world zeroed (Some stale) "a.h5"
           (Some "data"%string) (-1) 0 3).
  - reflexivity.
  - now left.
Defined.

(** ** The stores under the writer *)

Lemma lookup_name_set_eq {A : Type} name (x : A) (l : list (string * A)) :
  lookup_name name (set_name name x l) = Some x.
Proof.
  induction l as [|[n y] l IH]; simpl.
  - now rewrite String.eqb_refl.
  - destruct (String.eqb n name) eqn:E; simpl; rewrite E; auto.
Qed.

Lemma lookup_name_set_ne {A : Type} name other (x : A)
    (l : list (string * A)) :
  other <> name ->
  lookup_name other (set_name name x l) = lookup_name other l.
Proof.
  intros Hne. induction l as [|[n y] l IH]; simpl.
  - destruct (String.eqb_spec name other); [congruence|reflexivity].
  - destruct (String.eqb_spec n name) as [->|Hn]; simpl.
    + destruct (String.eqb_spec name other); [congruence|reflexivity].
    + destruct (String.eqb n other); auto.
Qed.

Lemma lookup_name_remove_eq {A : Type} name (l : list (string * A)) :
  lookup_name name (remove_name name l) = None.
Proof.
  induction l as [|[n y] l IH]; simpl; [reflexivity|].
  destruct (String.eqb n name) eqn:E; simpl; [|rewrite E]; auto.
Qed.

Lemma lookup_name_remove_ne {A : Type} name other (l : list (string * A)) :
  other <> name ->
  lookup_name other (remove_name name l) = lookup_name other l.
Proof.
  intros Hne. induction l as [|[n y] l IH]; simpl; [reflexivity|].
  destruct (String.eqb_spec n name) as [->|Hn]; simpl.
  - destruct (String.eqb_spec name other); [congruence|exact IH].
  - destruct (String.eqb n other); auto.
Qed.

Lemma lookup_name_insert_eq {A : Type} name (x : A) k
    (l : list (string * A)) :
  lookup_name name l = None ->
  lookup_name name (insert_at k (name, x) l) = Some x.
Proof.
  unfold insert_at. revert k. induction l as [|[n y] l IH]; intros k Hl.
  - rewrite take_nil, drop_nil. simpl. now rewrite String.eqb_refl.
  - simpl in Hl. destruct (String.eqb n name) eqn:E; [discriminate|].
    destruct k as [|k]; simpl.
    + now rewrite String.eqb_refl.
    + rewrite E. now apply IH.
Qed.

Lemma lookup_name_insert_ne {A : Type} name other (x : A) k
    (l : list (string * A)) :
  other <> name ->
  lookup_name other (insert_at k (name, x) l) = lookup_name other l.
Proof.
  unfold insert_at. intros Hne. revert k.
  induction l as [|[n y] l IH]; intros k.
  - rewrite take_nil, drop_nil. simpl.
    destruct (String.eqb_spec name other); [congruence|reflexivity].
  - destruct k as [|k]; simpl.
    + destruct (String.eqb_spec name other); [congruence|reflexivity].
    + destruct (String.eqb n other); auto.
Qed.

Lemma H5Fopen_set_eq fname file w :
  H5Fopen (set_file fname file w) fname = Some file.
Proof. apply lookup_name_set_eq. Qed.

Lemma H5Fopen_set_ne fname other file w :
  other <> fname -> H5Fopen (set_file fname file w) other = H5Fopen w other.
Proof. apply lookup_name_set_ne. Qed.

(** ** Writing: the fatal conditions *)

(** X13.  [arrayh5_write] ends the process in two ways.  "error opening HDF5
    output file": the store cannot be created or opened read-write, or, to
    append, does not exist; the stores are untouched.  "non-positive rank":
    the array has rank 0 or less; this is found out after the store has
    been created or emptied and, when appending, after the dataset of that
    name has been deleted. *)
Theorem write_fatal_conditions (m : medium) (g : garbage) (a : arrayh5)
    (filename dataname : string) (append_data : Z) (w : world) :
  (m_writable m filename = false
   \/ (append_data <> 0 /\ H5Fopen w filename = None) ->
   arrayh5_write m g a filename dataname append_data w
   = (w, Exit "error opening HDF5 output file"))
  /\ (m_writable m filename = true -> rank a <= 0 -> append_data = 0 ->
      arrayh5_write m g a filename dataname append_data w
      = (set_file filename [] w, Exit "non-positive rank"))
  /\ (m_writable m filename = true -> rank a <= 0 -> append_data <> 0 ->
      forall file,
        H5Fopen w filename = Some file ->
        arrayh5_write m g a filename dataname append_data w
        = (match H5Dopen file dataname with
           | Some _ => set_file filename (remove_name dataname file) w
           | None => w
           end, Exit "non-positive rank")).
Proof.
  repeat split.
  - intros Hfail. unfold arrayh5_write, io_bind, H5Fopen_rdwr, H5Fcreate.
    destruct (Z.eqb_spec append_data 0) as [->|Hne]; simpl.
    + destruct Hfail as [Hw|[Hne _]]; [|contradiction].
      now rewrite Hw.
    + destruct Hfail as [Hw|[_ Hopen]].
      * rewrite Hw. now destruct (H5Fopen w filename).
      * now rewrite Hopen.
  - intros Hw Hr ->.
    unfold arrayh5_write, io_bind, H5Fcreate, dataset_exists, lift. simpl.
    rewrite Hw. simpl. rewrite H5Fopen_set_eq. simpl.
    destruct (Z.ltb_spec 0 (rank a)); [lia|reflexivity].
  - intros Hw Hr Hne file Hopen.
    unfold arrayh5_write, io_bind, H5Fopen_rdwr, dataset_exists, H5Gunlink,
      lift.
    destruct (Z.eqb_spec append_data 0); [contradiction|]. simpl.
    rewrite Hopen, Hw. simpl.
    destruct (H5Dopen file dataname); simpl.
    + rewrite Hopen. simpl.
      destruct (Z.ltb_spec 0 (rank a)); [lia|reflexivity].
    + destruct (Z.ltb_spec 0 (rank a)); [lia|reflexivity].
Qed.

Lemma write_fatal_conditions_witness :
  arrayh5_write plain_medium zeroed
    {| rank := 0; dims := Live []; N := 1; data := Live [d_7] |}
    "a.h5" "scalar" 1 sample_world
  = (sample_world, Exit "non-positive rank").
Proof.
  apply (proj2 (proj2 (write_fatal_conditions plain_medium zeroed
                         {| rank := 0; dims := Live []; N := 1;
                            data := Live [d_7] |}
                         "a.h5" "scalar" 1 sample_world))
           eq_refl ltac:(simpl; lia) ltac:(lia)
           [("grp", H5G_GROUP); ("data", H5G_DATASET sample_dataset)]%string
           eq_refl).
Defined.

(** ** Writing, and reading back *)

Lemma io_bind_ret {A B : Type} (m : io A) (f : A -> io B) w w' x :
  m w = (w', Ret x) -> io_bind m f w = f x w'.
Proof. intros H. unfold io_bind. now rewrite H. Qed.

(** [for (i = 0; i < rank; ++i) dst[i] = f(src[i]);] after [k]
    iterations. *)
Lemma copy_loop (f : Z -> Z) (src buf : list Z) (k : nat) :
  (k <= length src)%nat -> (k <= length buf)%nat ->
  foldM (fun i dst => x ← load src i; store dst i (f x))
        (seqZ 0 (Z.of_nat k)) buf
  = Ret (take k (map f src) ++ drop k buf).
Proof.
  intros Hk Hlen. induction k as [|k IH].
  - simpl. now rewrite drop_0.
  - rewrite foldM_seqZ0_S, IH by lia. simpl.
    destruct (lookup_lt_is_Some_2 src k) as [d Hd]; [lia|].
    rewrite (load_nat _ _ _ Hd). simpl.
    rewrite store_Ret
      by (rewrite length_app, length_take, length_drop, length_map; lia).
    f_equal. rewrite Nat2Z.id. apply insert_take_drop; [|lia].
    change (map f src) with (f <$> src).
    now rewrite list_lookup_fmap, Hd.
Qed.

Lemma extents_hsize (ds : list Z) :
  Forall (fun d => 0 <= d <= Int.max_signed) ds -> Forall Hsize.in_range ds.
Proof.
  intros H. eapply Forall_impl; [exact H|]. intros d Hd. simpl in Hd.
  unfold Hsize.in_range, Hsize.modulus, Int.max_signed in *. lia.
Qed.

(** The dims that [arrayh5_write] hands to [H5Screate_simple]. *)
Lemma write_dims (g : garbage) (a : arrayh5) ds xs :
  well_formed a ds xs ->
  for_int 0 (rank a)
    (fun i dims_copy =>
       x ← load (cells (dims a)) i;
       store dims_copy i (Hsize.wrap x))
    (map (g_int g 348) (seq 0 (Z.to_nat (rank a))))
  = Ret ds.
Proof.
  intros [Hd Hx Hr He HN Hl Hri HNi].
  rewrite for_int_foldM by (unfold Int.min_signed; lia).
  rewrite Hd, Z.sub_0_r, Hr. simpl.
  rewrite copy_loop by (rewrite ?length_malloc; lia).
  rewrite drop_ge by (rewrite length_malloc; lia).
  rewrite app_nil_r, take_ge by (rewrite length_map; lia).
  now rewrite hsize_map_id by (apply extents_hsize, He).
Qed.

(** [arrayh5_write] from the check of the rank on, in a file where the
    name is free. *)
Lemma write_tail (m : medium) (g : garbage) (a : arrayh5) ds xs
    (filename dataname : string) (file1 : h5file) (w1 : world) :
  well_formed a ds xs -> 1 <= rank a -> dataname <> EmptyString ->
  H5Fopen w1 filename = Some file1 -> lookup_name dataname file1 = None ->
  (_ <- lift (CHECK (0 <? rank a) "non-positive rank");;
   dims_copy <- lift (CHK_MALLOC (g_int g 348) (rank a));;
   dims_copy <-
     lift (for_int 0 (rank a)
             (fun i dims_copy =>
                x ← load (cells (dims a)) i;
                store dims_copy i (Hsize.wrap x))
             dims_copy);;
   let space_id := H5Screate_simple (rank a) dims_copy in
   data_id <- H5Dcreate m filename dataname space_id;;
   _ <- H5Dwrite m filename data_id (data a);;
   io_ret tt)%io w1
  = (written m filename dataname ds xs file1 w1, Ret tt).
Proof.
  intros Hwf Hrank Hname Hopen Hfree.
  pose proof (write_dims g a ds xs Hwf) as Hdims.
  destruct Hwf as [Hd Hx Hr He HN Hl Hri HNi].
  unfold io_bind at 1. unfold lift at 1. unfold CHECK.
  destruct (Z.ltb_spec 0 (rank a)); [|lia].
  unfold io_bind at 1. unfold lift at 1. rewrite CHK_MALLOC_Ret by lia.
  unfold io_bind at 1. unfold lift at 1. rewrite Hdims.
  cbv zeta.
  assert (Hsp : sp_dims (H5Screate_simple (rank a) ds) = ds).
  { unfold H5Screate_simple. simpl. apply take_ge. lia. }
  destruct dataname as [|c dataname]; [contradiction|].
  unfold io_bind at 1. unfold H5Dcreate. rewrite Hopen, Hfree, Hsp.
  unfold io_bind, H5Dwrite, io_ret, written.
  rewrite H5Fopen_set_eq. unfold H5Dopen.
  rewrite lookup_name_insert_eq by assumption. simpl ds_dims.
  destruct (m_write_fails m); [reflexivity|].
  unfold read_cells. rewrite Hx. simpl cells.
  destruct (Z.leb_spec (product ds) (Z.of_nat (length xs))); [|lia].
  rewrite take_ge by lia. reflexivity.
Qed.

Lemma remove_name_absent {A : Type} name (l : list (string * A)) :
  lookup_name name l = None -> remove_name name l = l.
Proof.
  induction l as [|[n y] l IH]; simpl; [reflexivity|].
  destruct (String.eqb n name); [discriminate|].
  intros H. now rewrite IH.
Qed.

(** [arrayh5_write] up to the check of the rank: the file is opened or
    created, and a dataset under the name is deleted. *)
Lemma write_eval (m : medium) (g : garbage) (a : arrayh5) ds xs
    (filename dataname : string) (append_data : Z) (w : world)
    (file0 : h5file) :
  well_formed a ds xs -> 1 <= rank a -> dataname <> EmptyString ->
  m_writable m filename = true ->
  (append_data = 0 /\ file0 = [])
  \/ (append_data <> 0 /\ H5Fopen w filename = Some file0) ->
  lookup_name dataname file0 <> Some H5G_GROUP ->
  exists w1,
    arrayh5_write m g a filename dataname append_data w
    = (written m filename dataname ds xs (remove_name dataname file0) w1,
       Ret tt)
    /\ H5Fopen w1 filename = Some (remove_name dataname file0)
    /\ w_read_fails w1 = w_read_fails w
    /\ forall other, other <> filename -> H5Fopen w1 other = H5Fopen w other.
Proof.
  intros Hwf Hrank Hname Hw Hmode Hgroup.
  unfold arrayh5_write.
  destruct Hmode as [[-> ->]|[Hne Hopen]].
  - exists (set_file filename [] w).
    rewrite (io_bind_ret _ _ w (set_file filename [] w) true)
      by (simpl; unfold H5Fcreate; now rewrite Hw).
    rewrite (io_bind_ret _ _ _ (set_file filename [] w) tt) by reflexivity.
    rewrite (io_bind_ret _ _ _ (set_file filename [] w) 0)
      by (unfold dataset_exists; now rewrite H5Fopen_set_eq).
    rewrite (io_bind_ret _ _ _ (set_file filename [] w) tt) by reflexivity.
    split; [|split; [|split]].
    + apply write_tail; auto. apply H5Fopen_set_eq.
    + apply H5Fopen_set_eq.
    + reflexivity.
    + intros other Ho. now apply H5Fopen_set_ne.
  - rewrite (io_bind_ret _ _ w w true)
      by (destruct (Z.eqb_spec append_data 0); [contradiction|];
          simpl; unfold H5Fopen_rdwr; now rewrite Hopen, Hw).
    rewrite (io_bind_ret _ _ _ w tt) by reflexivity.
    destruct (lookup_name dataname file0) as [[|d0]|] eqn:Hl.
    + contradiction.
    + exists (set_file filename (remove_name dataname file0) w).
      rewrite (io_bind_ret _ _ _ w 1)
        by (unfold dataset_exists, H5Dopen; now rewrite Hopen, Hl).
      rewrite (io_bind_ret _ _ _
                 (set_file filename (remove_name dataname file0) w) tt)
        by (simpl; unfold H5Gunlink; now rewrite Hopen).
      split; [|split; [|split]].
      * apply write_tail; auto using H5Fopen_set_eq, lookup_name_remove_eq.
      * apply H5Fopen_set_eq.
      * reflexivity.
      * intros other Ho. now apply H5Fopen_set_ne.
    + exists w. rewrite remove_name_absent by assumption.
      rewrite (io_bind_ret _ _ _ w 0)
        by (unfold dataset_exists, H5Dopen; now rewrite Hopen, Hl).
      rewrite (io_bind_ret _ _ _ w tt) by reflexivity.
      split; [|split; [|split]]; auto.
      apply write_tail; auto.
Qed.

(** What can be observed of the stores after the dataset was written. *)
Lemma written_file (m : medium) (filename dataname : string)
    (ds : list Z) (xs : list double) (file1 : h5file) (w1 : world) :
  H5Fopen w1 filename = Some file1 -> lookup_name dataname file1 = None ->
  exists file' d',
    H5Fopen (written m filename dataname ds xs file1 w1) filename = Some file'
    /\ lookup_name dataname file' = Some (H5G_DATASET d')
    /\ ds_dims d' = ds
    /\ (m_write_fails m = false -> ds_data d' = xs)
    /\ (forall other, other <> dataname ->
          lookup_name other file' = lookup_name other file1)
    /\ w_read_fails (written m filename dataname ds xs file1 w1)
       = w_read_fails w1
    /\ (forall other, other <> filename ->
          H5Fopen (written m filename dataname ds xs file1 w1) other
          = H5Fopen w1 other).
Proof.
  intros Hopen Hfree. unfold written.
  destruct (m_write_fails m).
  - eexists _, _. rewrite H5Fopen_set_eq. split; [reflexivity|].
    rewrite lookup_name_insert_eq by assumption.
    split; [reflexivity|]. split; [reflexivity|].
    split; [discriminate|]. split; [|split].
    + intros other Ho. now apply lookup_name_insert_ne.
    + reflexivity.
    + intros other Ho. now apply H5Fopen_set_ne.
  - eexists _, _. rewrite H5Fopen_set_eq. split; [reflexivity|].
    rewrite lookup_name_set_eq.
    split; [reflexivity|]. split; [reflexivity|].
    split; [reflexivity|]. split; [|split].
    + intros other Ho.
      rewrite lookup_name_set_ne by assumption.
      now apply lookup_name_insert_ne.
    + reflexivity.
    + intros other Ho. now rewrite !H5Fopen_set_ne by assumption.
Qed.

(** A full read of a dataset that fits the array type. *)
Lemma read_full_back (w : world) (g : garbage) (b : arrayh5) fname datapath
    (d : dataset) slicedim islice :
  opens w fname datapath d -> readable d -> fits_int d ->
  Int.in_range slicedim -> full_mode d slicedim islice ->
  w_read_fails w = false ->
  arrayh5_read w g (Some b) fname datapath slicedim islice
  = Ret (0, full_array d).
Proof.
  intros Hopen Hrd Hfit Hsd Hfull Hok.
  pose proof (read_body_select w g b fname datapath d slicedim islice
                Hopen Hrd) as Hbody.
  rewrite (int_dims_fits d Hrd (proj1 Hfit)) in Hbody.
  rewrite read_select_full in Hbody by assumption.
  unfold arrayh5_read. rewrite Hbody, Hok. reflexivity.
Qed.

Lemma select_same_fails w1 w2 g a0 d space r ds slicedim islice :
  w_read_fails w1 = w_read_fails w2 ->
  arrayh5_read_select w1 g a0 d space r ds slicedim islice
  = arrayh5_read_select w2 g a0 d space r ds slicedim islice.
Proof.
  intros H. unfold arrayh5_read_select, arrayh5_read_slice, H5Dread.
  rewrite H. reflexivity.
Qed.

(** [arrayh5_read] sees of the stores the dataset it opens and whether
    transfers fail. *)
Lemma read_same_dataset w1 w2 g a fname name slicedim islice file1 file2 :
  H5Fopen w1 fname = Some file1 -> H5Fopen w2 fname = Some file2 ->
  name <> EmptyString ->
  H5Dopen file1 name = H5Dopen file2 name ->
  w_read_fails w1 = w_read_fails w2 ->
  arrayh5_read w1 g a fname (Some name) slicedim islice
  = arrayh5_read w2 g a fname (Some name) slicedim islice.
Proof.
  intros H1 H2 Hname Hd Hf. destruct a as [a|]; [|reflexivity].
  destruct name as [|c name]; [contradiction|].
  unfold arrayh5_read, arrayh5_read_body. rewrite H1, H2. simpl.
  rewrite Hd. destruct (H5Dopen file2 (String c name)) as [d|]; [|reflexivity].
  destruct (_ <=? 0); [reflexivity|].
  repeat match goal with
         | |- context [CHK_MALLOC ?c ?n] =>
           destruct (CHK_MALLOC c n); simpl; try reflexivity
         end.
  match goal with
  | |- context [for_hsize ?lo ?hi ?body ?s] =>
    destruct (for_hsize lo hi body s); simpl; try reflexivity
  end.
  now rewrite (select_same_fails w1 w2).
Qed.

Lemma written_dataset_readable (a : arrayh5) ds xs :
  well_formed a ds xs -> 1 <= rank a ->
  readable {| ds_dims := ds; ds_data := xs |}
  /\ fits_int {| ds_dims := ds; ds_data := xs |}
  /\ full_array {| ds_dims := ds; ds_data := xs |} = a.
Proof.
  intros [Hd Hx Hr He HN Hl Hri HNi] Hrank. split; [|split].
  - split; simpl; [lia|now apply extents_hsize|lia].
  - split; simpl; [|lia].
    eapply Forall_impl; [exact He|]. simpl. lia.
  - unfold full_array. simpl. destruct a; simpl in *. congruence.
Qed.

(** X14.  Round trip.  Take a well-formed array of rank at least 1 with
    positive extents, a top-level name (not empty, not ".", without a
    path separator), and a file that can be created or opened read-write,
    that exists when appending, and in which the name is not taken by a
    group.  Then [arrayh5_write] returns normally, in either mode and
    whether or not a dataset of that name was there before (it is
    replaced), and even when the transfer of the elements fails, its
    status being ignored.  When the transfers of the write and of the
    read succeed, a full read of the dataset under the same name returns
    the status 0 and the array written: the same rank, dims, N and
    elements. *)
Theorem write_read_round_trip (m : medium) (g g' : garbage)
    (a b : arrayh5) ds xs (filename dataname : string) (append_data : Z)
    (w : world) (file0 : h5file) (slicedim islice : Z) :
  well_formed a ds xs -> 1 <= rank a -> Forall (fun d => 1 <= d) ds ->
  top_level dataname -> m_writable m filename = true ->
  (append_data = 0 /\ file0 = [])
  \/ (append_data <> 0 /\ H5Fopen w filename = Some file0) ->
  lookup_name dataname file0 <> Some H5G_GROUP ->
  Int.in_range slicedim ->
  slicedim < 0 \/ (rank a <= slicedim /\ islice = 0) ->
  exists w',
    arrayh5_write m g a filename dataname append_data w = (w', Ret tt)
    /\ (m_write_fails m = false -> w_read_fails w = false ->
        arrayh5_read w' g' (Some b) filename (Some dataname) slicedim islice
        = Ret (0, a)).
Proof.
  intros Hwf Hrank _ [Hname _] Hw Hmode Hgroup Hsd Hfull.
  destruct (write_eval m g a ds xs filename dataname append_data w file0)
    as (w1 & Hwrite & Hopen1 & Hfails1 & _); auto.
  eexists. split; [exact Hwrite|]. intros Hok Hread.
  destruct (written_file m filename dataname ds xs
              (remove_name dataname file0) w1 Hopen1
              (lookup_name_remove_eq _ _))
    as (file' & d' & Hopen' & Hd' & Hdims & Hdata & _ & Hfails' & _).
  specialize (Hdata Hok). destruct d' as [ds' xs']. simpl in Hdims, Hdata.
  subst ds' xs'.
  destruct (written_dataset_readable a ds xs Hwf Hrank)
    as (Hrd & Hfit & Harr).
  rewrite <- Harr. apply read_full_back; auto.
  - exists file', 1, dataname.
    destruct dataname as [|c dataname]; [contradiction|].
    unfold H5Dopen. rewrite Hd'. repeat split; auto.
  - unfold full_mode. simpl. destruct Hwf as [_ _ Hr _ _ _ _ _].
    rewrite <- Hr. exact Hfull.
  - congruence.
Qed.

Lemma write_read_round_trip_witness :
  exists w',
    arrayh5_write plain_medium zeroed A23 "a.h5" "data" 1 sample_world
    = (w', Ret tt)
    /\ (m_write_fails plain_medium = false ->
        w_read_fails sample_world = false ->
        arrayh5_read w' zeroed (Some stale) "a.h5" (Some "data"%string)
          (-1) 0
        = Ret (0, A23)).
Proof.
  apply (write_read_round_trip plain_medium zeroed zeroed A23 stale [2; 3]
           [d_1; d_2; d_3; d_4; d_5; d_6] "a.h5" "data" 1 sample_world
           [("grp", H5G_GROUP); ("data", H5G_DATASET sample_dataset)]%string
           (-1) 0).
  - well_formed_by_evaluation.
  - simpl. lia.
  - repeat constructor; lia.
  - split; [discriminate|split; [discriminate|reflexivity]].
  - reflexivity.
  - right. split; [lia|reflexivity].
  - discriminate.
  - unfold Int.in_range, Int.min_signed, Int.max_signed. lia.
  - left. lia.
Defined.

(** X15.  Appending leaves the other datasets as they are.  Take a
    well-formed array of rank at least 1 with positive extents, a
    top-level name, and an existing file that can be opened read-write
    and in which the name is not taken by a group.  After [arrayh5_write]
    has appended the dataset, every read of that file under another
    top-level name gives what it gave before. *)
Theorem write_keeps_the_rest (m : medium) (g : garbage) (a : arrayh5) ds xs
    (filename dataname : string) (append_data : Z) (w : world)
    (file0 : h5file) :
  well_formed a ds xs -> 1 <= rank a -> Forall (fun d => 1 <= d) ds ->
  top_level dataname -> m_writable m filename = true ->
  append_data <> 0 -> H5Fopen w filename = Some file0 ->
  lookup_name dataname file0 <> Some H5G_GROUP ->
  exists w',
    arrayh5_write m g a filename dataname append_data w = (w', Ret tt)
    /\ forall g' b other slicedim islice,
         top_level other -> other <> dataname ->
         arrayh5_read w' g' b filename (Some other) slicedim islice
         = arrayh5_read w g' b filename (Some other) slicedim islice.
Proof.
  intros Hwf Hrank _ [Hname _] Hw Happ Hopen0 Hgroup.
  destruct (write_eval m g a ds xs filename dataname append_data w file0)
    as (w1 & Hwrite & Hopen1 & Hfails1 & _); auto.
  eexists. split; [exact Hwrite|].
  destruct (written_file m filename dataname ds xs
              (remove_name dataname file0) w1 Hopen1
              (lookup_name_remove_eq _ _))
    as (file' & d' & Hopen' & _ & _ & _ & Hothers & Hfails' & _).
  intros g' b other slicedim islice [Hnonempty _] Hne.
  apply (read_same_dataset _ _ _ _ _ _ _ _ file' file0); auto;
    [|congruence].
  unfold H5Dopen. rewrite Hothers by assumption.
  now rewrite lookup_name_remove_ne by assumption.
Qed.

Lemma write_keeps_the_rest_witness :
  exists w',
    arrayh5_write plain_medium zeroed A23 "a.h5" "more" 1 sample_world
    = (w', Ret tt)
    /\ forall g' b other slicedim islice,
         top_level other -> other <> "more"%string ->
         arrayh5_read w' g' b "a.h5" (Some other) slicedim islice
         = arrayh5_read sample_world g' b "a.h5" (Some other)
             slicedim islice.
Proof.
  apply (write_keeps_the_rest plain_medium zeroed A23 [2; 3]
           [d_1; d_2; d_3; d_4; d_5; d_6] "a.h5" "more" 1 sample_world
           [("grp", H5G_GROUP); ("data", H5G_DATASET sample_dataset)]%string).
  - well_formed_by_evaluation.
  - simpl. lia.
  - repeat constructor; lia.
  - split; [discriminate|split; [discriminate|reflexivity]].
  - reflexivity.
  - lia.
  - reflexivity.
  - discriminate.
Defined.

(** X16.  Without appending, the store holds nothing but the dataset
    written.  Take a well-formed array of rank at least 1 with positive
    extents, a top-level name, and a file that can be created; let the
    transfer of the elements succeed.  After [arrayh5_write] whatever the
    file held before is gone: its one entry is the dataset written, a
    read under any other top-level name gives the status 7, and a full
    read without a datapath returns the array written. *)
Theorem write_truncates (m : medium) (g g' : garbage) (a b : arrayh5) ds xs
    (filename dataname : string) (w : world) :
  well_formed a ds xs -> 1 <= rank a -> Forall (fun d => 1 <= d) ds ->
  top_level dataname -> m_writable m filename = true ->
  m_write_fails m = false ->
  exists w',
    arrayh5_write m g a filename dataname 0 w = (w', Ret tt)
    /\ H5Fopen w' filename
       = Some [(dataname, H5G_DATASET {| ds_dims := ds; ds_data := xs |})]
    /\ (forall other slicedim islice,
          top_level other -> other <> dataname ->
          arrayh5_read w' g' (Some b) filename (Some other) slicedim islice
          = Ret (7, cleared b))
    /\ (w_read_fails w = false ->
        arrayh5_read w' g' (Some b) filename None (-1) 0 = Ret (0, a)).
Proof.
  intros Hwf Hrank _ [Hname _] Hw Hok.
  destruct (write_eval m g a ds xs filename dataname 0 w [] Hwf Hrank Hname
              Hw (or_introl (conj eq_refl eq_refl)) ltac:(discriminate))
    as (w1 & Hwrite & Hopen1 & Hfails1 & _).
  simpl in Hwrite, Hopen1.
  assert (Hfile : H5Fopen (written m filename dataname ds xs [] w1) filename
            = Some [(dataname,
                     H5G_DATASET {| ds_dims := ds; ds_data := xs |})]).
  { unfold written. rewrite Hok, H5Fopen_set_eq.
    unfold insert_at. rewrite take_nil, drop_nil. simpl.
    now rewrite String.eqb_refl. }
  assert (Hfails : w_read_fails (written m filename dataname ds xs [] w1)
            = w_read_fails w).
  { unfold written. now rewrite Hok. }
  eexists. split; [exact Hwrite|]. split; [exact Hfile|]. split.
  - intros other slicedim islice [Hnonempty _] Hne.
    unfold arrayh5_read, arrayh5_read_body. rewrite Hfile.
    destruct other as [|c other]; [contradiction|]. simpl.
    unfold H5Dopen. simpl.
    destruct (String.eqb_spec dataname (String c other)); [congruence|].
    reflexivity.
  - intros Hread.
    destruct (written_dataset_readable a ds xs Hwf Hrank)
      as (Hrd & Hfit & Harr).
    rewrite <- Harr. apply read_full_back; auto.
    + exists [(dataname, H5G_DATASET {| ds_dims := ds; ds_data := xs |})],
        1, dataname.
      unfold H5Dopen. simpl. rewrite String.eqb_refl. repeat split; auto.
    + unfold Int.in_range, Int.min_signed, Int.max_signed. lia.
    + left. lia.
    + congruence.
Qed.

Lemma write_truncates_witness :
  exists w',
    arrayh5_write plain_medium zeroed A23 "a.h5" "t" 0 sample_world
    = (w', Ret tt)
    /\ H5Fopen w' "a.h5"
       = Some [("t"%string,
                H5G_DATASET {| ds_dims := [2; 3];
                               ds_data := [d_1; d_2; d_3; d_4; d_5; d_6] |})]
    /\ (forall other slicedim islice,
          top_level other -> other <> "t"%string ->
          arrayh5_read w' zeroed (Some stale) "a.h5" (Some other)
            slicedim islice
          = Ret (7, cleared stale))
    /\ (w_read_fails sample_world = false ->
        arrayh5_read w' zeroed (Some stale) "a.h5" None (-1) 0
        = Ret (0, A23)).
Proof.
  apply (write_truncates plain_medium zeroed zeroed A23 stale [2; 3]
           [d_1; d_2; d_3; d_4; d_5; d_6] "a.h5" "t" sample_world).
  - well_formed_by_evaluation.
  - simpl. lia.
  - repeat constructor; lia.
  - split; [discriminate|split; [discriminate|reflexivity]].
  - reflexivity.
  - reflexivity.
Defined.



(** ** What is read and what can be written *)

(** An array of rank 0 or less is never written. *)
Lemma write_rank0_exits (m : medium) (g : garbage) (a : arrayh5)
    (filename dataname : string) (append_data : Z) (w : world) :
  rank a <= 0 ->
  exists w' msg,
    arrayh5_write m g a filename dataname append_data w = (w', Exit msg).
Proof.
  intros Hr.
  unfold arrayh5_write, io_bind, H5Fopen_rdwr, H5Fcreate, dataset_exists,
    H5Gunlink, lift, io_ret, CHECK.
  destruct (Z.ltb_spec 0 (rank a)); [lia|].
  destruct (negb (append_data =? 0)).
  - destruct (H5Fopen w filename) as [file|] eqn:Hopen;
      [|eexists _, _; reflexivity].
    destruct (m_writable m filename); [|eexists _, _; reflexivity].
    destruct (H5Dopen file dataname); simpl; rewrite ?Hopen;
      eexists _, _; reflexivity.
  - destruct (m_writable m filename); [|eexists _, _; reflexivity].
    rewrite H5Fopen_set_eq. simpl. eexists _, _; reflexivity.
Qed.

(** X18.  What a valid slice of a dataset of rank 1 gives back cannot be
    written: the array has rank 0, and [arrayh5_write] ends the process
    on it, in any file and under any name. *)
Theorem rank1_slice_cannot_be_written (w : world) (g : garbage)
    (b : arrayh5) fname datapath (d : dataset) islice a' :
  opens w fname datapath d -> readable d ->
  length (ds_dims d) = 1%nat ->
  arrayh5_read w g (Some b) fname datapath 0 islice = Ret (0, a') ->
  rank a' = 0
  /\ forall m g2 filename dataname append_data w2,
       exists w2' msg,
         arrayh5_write m g2 a' filename dataname append_data w2
         = (w2', Exit msg).
Proof.
  intros Hopen Hrd Hlen H.
  assert (Hrank : rank a' = 0).
  { unfold arrayh5_read in H. inv_bind H. destruct a as [e a_body].
    assert (He : e = 0).
    { destruct ((3 <=? e) && (e <=? 4)); inv_binds H; congruence. }
    subst e. simpl in H. injection H as ->.
    rewrite (read_body_select w g b fname datapath d 0 islice Hopen Hrd)
      in E.
    rewrite Hlen in E.
    apply select_not_full in E; [|reflexivity].
    destruct E as [E|[E|[_ E]]]; [discriminate E|discriminate E|].
    exact E. }
  split; [exact Hrank|].
  intros. apply write_rank0_exits. lia.
Qed.

Lemma rank1_slice_cannot_be_written_witness :
  rank {| rank := 0; dims := Live []; N := 1; data := Live [d_7] |} = 0
  /\ forall m g2 filename dataname append_data w2,
       exists w2' msg,
         arrayh5_write m g2
           {| rank := 0; dims := Live []; N := 1; data := Live [d_7] |}
           filename dataname append_data w2
         = (w2', Exit msg).
Proof.
  apply (rank1_slice_cannot_be_written vector_world zeroed stale "v.h5" None
           vector_dataset 2).
  - exists [("v", H5G_DATASET vector_dataset)]%string, 1, "v"%string.
    repeat split; reflexivity.
  - split; [unfold Int.max_signed; simpl; lia| |reflexivity].
    repeat constructor; unfold Hsize.modulus; lia.
  - reflexivity.
  - reflexivity.
Defined.

Lemma select_ignores_output w g a0 a0' d space r ds slicedim islice a :
  arrayh5_read_select w g a0 d space r ds slicedim islice = Ret (0, a) ->
  arrayh5_read_select w g a0' d space r ds slicedim islice = Ret (0, a).
Proof.
  unfold arrayh5_read_select.
  destruct ((slicedim <? 0) || ((r <=? Hsize.wrap slicedim) && (islice =? 0)));
    [auto|].
  intros H. inv_bind H. destruct a1; [exact H|discriminate H].
Qed.

(** X19.  The output parameter is written, never read.  A read that returns
    the status 0 returns the same array whatever [*a] held before; a read
    that returns another status than 0, 3 and 4 has set the dims and data
    fields to null and left rank and N as they were. *)
Theorem read_overwrites_output (w : world) (g : garbage) (b : arrayh5)
    fname datapath slicedim islice err a' :
  arrayh5_read w g (Some b) fname datapath slicedim islice = Ret (err, a') ->
  (err = 0 ->
   forall b',
     arrayh5_read w g (Some b') fname datapath slicedim islice
     = Ret (0, a'))
  /\ (err <> 0 -> err <> 3 -> err <> 4 -> a' = cleared b).
Proof.
  intros H. split.
  - intros -> b'. revert H. unfold arrayh5_read, arrayh5_read_body. simpl.
    destruct (H5Fopen w fname) as [file|]; [|discriminate].
    destruct (match datapath with
              | Some (String c path) => (1, Live (String c path))
              | _ => H5Giterate file find_dataset Null
              end) as [found dname].
    destruct (found <=? 0); [discriminate|].
    destruct (deref dname) as [nm| | |]; simpl; try discriminate.
    destruct (H5Dopen file nm) as [d|]; [|discriminate].
    destruct (_ <=? 0); [discriminate|].
    repeat match goal with
           | |- context [CHK_MALLOC ?c ?n] =>
             destruct (CHK_MALLOC c n); simpl; try discriminate
           end.
    match goal with
    | |- context [for_hsize ?lo ?hi ?body ?s] =>
      destruct (for_hsize lo hi body s); simpl; try discriminate
    end.
    intros H. inv_bind H.
    match goal with
    | Hsel : arrayh5_read_select _ _ _ _ _ _ _ _ _ = Ret ?p |- _ =>
      destruct p as [e a_body]; simpl in H;
      assert (He : e = 0)
        by (destruct ((3 <=? e) && (e <=? 4)); inv_binds H; congruence);
      subst e;
      rewrite (select_ignores_output _ _ _ (set_data (set_dims b' Null) Null)
                 _ _ _ _ _ _ _ Hsel)
    end.
    exact H.
  - intros H0 H3 H4. unfold arrayh5_read in H. inv_bind H.
    destruct a as [e a_body].
    assert (He : e = err).
    { destruct ((3 <=? e) && (e <=? 4)); inv_binds H; congruence. }
    subst e. apply body_outcome in E.
    destruct E as [[He ->]|[He _]]; [|lia].
    assert (Hno : (3 <=? err) && (err <=? 4) = false)
      by (destruct He as [->|[->|[->|[->| ->]]]]; reflexivity).
    rewrite Hno in H. simpl in H. now injection H as <-.
Qed.

Lemma read_overwrites_output_witness :
  arrayh5_read sample_world zeroed (Some A23) "a.h5" (Some "data"%string)
    (-1) 0
  = Ret (0, full_array sample_dataset).
Proof.
  apply (proj1 (read_overwrites_output sample_world zeroed stale "a.h5"
                  (Some "data"%string) (-1) 0 0 (full_array sample_dataset)
                  eq_refl) eq_refl A23).
Defined.

(** ** Reading: a slice whose transfer fails *)

(** The slice branch does the same up to the transfer whether or not the
    transfer then fails. *)
Lemma slice_fails_like w1 w2 g d space r ds slicedim islice a1 :
  arrayh5_read_slice w1 g d space r ds slicedim islice = Ret (0, a1) ->
  w_read_fails w2 = true ->
  exists a2,
    arrayh5_read_slice w2 g d space r ds slicedim islice = Ret (4, a2)
    /\ allocated a2 /\ rank a2 = rank a1 /\ N a2 = N a1.
Proof.
  intros H Hfail. unfold arrayh5_read_slice in H.
  inv_binds H.
  all: try (exfalso; lia).
  match goal with
  | Hif : (if Hsize.sub ?r' 1 =? 0 then _ else _) = Ret (_, _, ?a') |- _ =>
    assert (Ha : allocated a')
      by (destruct (Hsize.sub r' 1 =? 0); inv_binds Hif;
          match goal with
          | Hc : arrayh5_create _ _ _ = Ret _ |- _ =>
            apply create_allocated in Hc; subst; apply Hc
          end)
  end.
  unfold arrayh5_read_slice.
  repeat match goal with
         | Heq : ?m = Ret _ |- context [?m] =>
           rewrite Heq; cbn [mbind result_bind]; cbv beta iota
         end.
  unfold H5Dread. rewrite Hfail. cbn [mbind result_bind]. cbv beta iota.
  eexists. split; [reflexivity|]. subst. simpl.
  destruct Ha as [[ds' Hds] [xs' Hxs]].
  repeat split; eauto.
Qed.

(** X20.  A valid slice request (rank >= 2, extents and the size of the
    slice within the [int] range) whose element transfer fails returns
    SliceReadError (4), and the output array, which had been allocated
    with the shape of the slice, has been destroyed: its two pointers are
    freed. *)
Theorem read_slice_transfer_failure (w : world) (g : garbage) (a : arrayh5)
    fname datapath (d : dataset) slicedim islice x :
  opens w fname datapath d -> readable d ->
  Forall (fun e => e <= Int.max_signed) (ds_dims d) ->
  product (delete (Z.to_nat slicedim) (ds_dims d)) <= Int.max_signed ->
  w_read_fails w = true ->
  (2 <= length (ds_dims d))%nat ->
  0 <= slicedim -> ds_dims d !! Z.to_nat slicedim = Some x ->
  0 <= islice < x ->
  exists a',
    arrayh5_read w g (Some a) fname datapath slicedim islice = Ret (4, a')
    /\ dims a' = Dangling /\ data a' = Dangling
    /\ rank a' = Z.of_nat (length (ds_dims d)) - 1
    /\ N a' = product (delete (Z.to_nat slicedim) (ds_dims d)).
Proof.
  intros Hopen Hrd Hfit HN Hfail Hr2 Hsd0 Hx Hk.
  set (sd := Z.to_nat slicedim) in *.
  assert (Hsd : slicedim = Z.of_nat sd) by (unfold sd; lia).
  destruct (read_slice_eval
              {| w_files := w_files w; w_read_fails := false |}
              g d sd islice x Hrd Hfit eq_refl Hr2 Hx Hk HN)
    as (out & Heval & _).
  destruct (slice_fails_like _ w _ _ _ _ _ _ _ _ Heval Hfail)
    as (a2 & Hslice & [[ds' Hds] [xs' Hxs]] & Hrank & HNa).
  simpl in Hrank, HNa.
  exists (freed a2). split; [|repeat split; simpl; auto].
  rewrite (read_done _ _ _ _ _ _ _ 4 a2).
  - simpl. unfold arrayh5_destroy, freed. rewrite Hds, Hxs. reflexivity.
  - rewrite (read_body_select _ _ _ _ _ d) by assumption.
    rewrite (int_dims_fits d Hrd Hfit), Hsd.
    rewrite (read_select_slice _ _ _ _ _ _ x) by assumption.
    exact Hslice.
Qed.

Lemma read_slice_transfer_failure_witness :
  exists a',
    arrayh5_read failing_world zeroed (Some stale) "a.h5"
      (Some "data"%string) 1 2
    = Ret (4, a')
    /\ dims a' = Dangling /\ data a' = Dangling
    /\ rank a' = Z.of_nat (length [2; 3]) - 1
    /\ N a' = product (delete (Z.to_nat 1) [2; 3]).
Proof.
  apply (read_slice_transfer_failure failing_world zeroed stale "a.h5"
           (Some "data"%string) sample_dataset 1 2 3).
  - exists [("grp", H5G_GROUP); ("data", H5G_DATASET sample_dataset)]%string,
      1, "data"%string.
    repeat split; reflexivity.
  - split; [unfold Int.max_signed; simpl; lia| |reflexivity].
    repeat constructor; unfold Hsize.modulus; lia.
  - repeat constructor; unfold Int.max_signed; lia.
  - unfold Int.max_signed. vm_compute. discriminate.
  - reflexivity.
  - simpl. lia.
  - lia.
  - reflexivity.
  - lia.
Defined.
